(** * dellqs-ai: the intake pipeline and the BOQ exporter, embedded and verified

    A shallow embedding of the Python sources under [qs-agents/] and
    [Reference/], one module per source file, followed by the properties
    proved about them.

    Conventions of the embedding.
    - A Python [str] is a Rocq [string]; its characters are the code points
      U+0000..U+00FF.
    - A Python [float] is a binary64 primitive float ([PrimFloat]); [+], [*],
      [/], [<] and [>=] are the IEEE operations the interpreter uses.
    - [Optional[T]] is [option T]; Python truthiness is spelled out by the
      [truthy_*] functions.
    - A value whose type the code never checks (a field copied from a decoded
      JSON document) is a [json] value.
    - Clock readings ([execution_time_ms], [timestamp], [assessment_date],
      [created_at], [received_date]) are left out of the records: no function
      below reads them.
    - Iterating over a Python [set] has no specified order; a [gset] is
      iterated in the order of [elements], and every statement about the
      result is insensitive to that order. *)

From Stdlib Require Import ZArith Floats Uint63 Lia Bool.
From Stdlib Require Import Ascii String DecimalString.
From stdpp Require Import gmap strings list.

Set Warnings "-register-all,-inexact-float".

Local Open Scope string_scope.
Local Open Scope list_scope.

(* ===================================================================== *)
(** * The Python runtime, as far as the sources use it *)
(* ===================================================================== *)

Module Py.

(** Decoded JSON documents, and every dynamically typed field. *)
Inductive json : Type :=
| JNull
| JBool (b : bool)
| JInt (z : Z)
| JFloat (f : float)
| JStr (s : string)
| JArr (l : list json)
| JObj (l : list (string * json)).

(** [bool(x)]. *)
Definition truthy_str (s : string) : bool :=
  match s with EmptyString => false | _ => true end.

Definition truthy_float (f : float) : bool := negb (PrimFloat.eqb f 0%float).

Definition truthy_json (v : json) : bool :=
  match v with
  | JNull => false
  | JBool b => b
  | JInt z => negb (Z.eqb z 0)
  | JFloat f => truthy_float f
  | JStr s => truthy_str s
  | JArr l => match l with [] => false | _ => true end
  | JObj l => match l with [] => false | _ => true end
  end.

Definition truthy_opt {A} (t : A -> bool) (o : option A) : bool :=
  match o with Some a => t a | None => false end.

(** [a or b] on optional values. *)
Definition py_or {A} (t : A -> bool) (a b : option A) : option A :=
  if truthy_opt t a then a else b.

(** [d.get(key, default)] on a dictionary written as its item list. *)
Fixpoint dict_get {V} (d : list (string * V)) (key : string) (default : V) : V :=
  match d with
  | [] => default
  | (k, v) :: d' => if String.eqb k key then v else dict_get d' key default
  end.

(** [str.isspace] on one character of U+0000..U+00FF: TAB..CR, FS..US,
    SPACE, NEL and NBSP.  The [\s] of the [re] module is the same class. *)
Definition isspace (c : ascii) : bool :=
  let n := nat_of_ascii c in
  (((9 <=? n) && (n <=? 13)) || ((28 <=? n) && (n <=? 32))
   || (n =? 133) || (n =? 160))%nat.

Fixpoint lstrip (s : string) : string :=
  match s with
  | String c s' => if isspace c then lstrip s' else s
  | EmptyString => EmptyString
  end.

(** [rstrip], by structural recursion: a character is kept when it is not a
    space or something is kept after it. *)
Fixpoint rstrip (s : string) : string :=
  match s with
  | EmptyString => EmptyString
  | String c s' =>
      match rstrip s' with
      | EmptyString => if isspace c then EmptyString else String c EmptyString
      | r => String c r
      end
  end.

Definition strip (s : string) : string := rstrip (lstrip s).

(** [str.lower] and [str.upper] on U+0000..U+00FF. *)
Definition lower_char (c : ascii) : ascii :=
  let n := nat_of_ascii c in
  if (((65 <=? n) && (n <=? 90))
      || ((192 <=? n) && (n <=? 222) && negb (n =? 215)))%nat
  then ascii_of_nat (n + 32) else c.

Fixpoint lower (s : string) : string :=
  match s with
  | EmptyString => EmptyString
  | String c s' => String (lower_char c) (lower s')
  end.

Definition is_ascii_lower (c : ascii) : bool :=
  let n := nat_of_ascii c in ((97 <=? n) && (n <=? 122))%nat.
Definition is_ascii_upper (c : ascii) : bool :=
  let n := nat_of_ascii c in ((65 <=? n) && (n <=? 90))%nat.

(** [s.replace(a, b)] for single characters [a] and [b]. *)
Fixpoint replace_char (a b : ascii) (s : string) : string :=
  match s with
  | EmptyString => EmptyString
  | String c s' =>
      String (if Ascii.eqb c a then b else c) (replace_char a b s')
  end.

(** [str.title] on ASCII text (it is applied to the enumeration values
    only): a letter that follows a letter is lowered, any other letter is
    raised. *)
Fixpoint title_aux (prev_cased : bool) (s : string) : string :=
  match s with
  | EmptyString => EmptyString
  | String c s' =>
      let n := nat_of_ascii c in
      if is_ascii_lower c then
        String (if prev_cased then c else ascii_of_nat (n - 32))
               (title_aux true s')
      else if is_ascii_upper c then
        String (if prev_cased then ascii_of_nat (n + 32) else c)
               (title_aux true s')
      else String c (title_aux false s')
  end.

Definition title (s : string) : string := title_aux false s.

(** [str(n)] for an integer. *)
Definition str_of_Z (z : Z) : string := NilZero.string_of_int (Z.to_int z).
Definition str_of_nat (n : nat) : string := str_of_Z (Z.of_nat n).

(** [float(n)] for a small non-negative integer (exact below 2^53). *)
Definition float_of_nat (n : nat) : float :=
  PrimFloat.of_uint63 (Uint63.of_Z (Z.of_nat n)).

(** The nearest integer to [num / den] ([den > 0]), ties to even. *)
Definition rne_div (num den : Z) : Z :=
  let q := (num / den)%Z in
  let r := (num mod den)%Z in
  if (2 * r <? den)%Z then q
  else if (den <? 2 * r)%Z then (q + 1)%Z
  else if Z.even q then q else (q + 1)%Z.

(** [s] padded on the left with ["0"] to at least [n] characters. *)
Fixpoint zero_pad (fuel : nat) (n : nat) (s : string) : string :=
  match fuel with
  | O => s
  | S fuel' => if (String.length s <? n)%nat then zero_pad fuel' n ("0" +:+ s) else s
  end.

(** [f"{x:.<d>f}"]: the exact value of [x] rounded to [d] decimals, ties to
    even, in positional notation. *)
Definition format_f (d : nat) (x : float) : string :=
  match Prim2SF x with
  | S754_nan => "nan"
  | S754_infinity s => if s then "-inf" else "inf"
  | S754_zero s =>
      (if s then "-" else "") +:+ "0"
      +:+ (if (d =? 0)%nat then "" else "." +:+ zero_pad d d "")
  | S754_finite s m e =>
      let scaled := (Zpos m * 10 ^ Z.of_nat d)%Z in
      let n := if (0 <=? e)%Z then (scaled * 2 ^ e)%Z
               else rne_div scaled (2 ^ (- e)) in
      let digits := zero_pad (S d) (S d) (str_of_Z n) in
      let k := (String.length digits - d)%nat in
      (if s then "-" else "") +:+ substring 0 k digits
      +:+ (if (d =? 0)%nat then "" else "." +:+ substring k d digits)
  end.

Definition format_0f (x : float) : string := format_f 0 x.
Definition format_2f (x : float) : string := format_f 2 x.

(** What calling a function can do: return, or raise. *)
Inductive exn : Type :=
| AttributeError | TypeError | ValueError | OverflowError
| JSONDecodeError | RuntimeError | ImportError | RecursionError
| UnicodeOutsideModel.   (* a character above U+00FF was asked for *)

(** [type(e).__name__]. *)
Definition exn_name (e : exn) : string :=
  match e with
  | AttributeError => "AttributeError" | TypeError => "TypeError"
  | ValueError => "ValueError" | OverflowError => "OverflowError"
  | JSONDecodeError => "JSONDecodeError" | RuntimeError => "RuntimeError"
  | ImportError => "ImportError" | RecursionError => "RecursionError"
  | UnicodeOutsideModel => "UnicodeOutsideModel"
  end.

(** [type(v).__name__] of a decoded value. *)
Definition type_name (v : json) : string :=
  match v with
  | JNull => "NoneType" | JBool _ => "bool" | JInt _ => "int"
  | JFloat _ => "float" | JStr _ => "str" | JArr _ => "list"
  | JObj _ => "dict"
  end.

Inductive outcome (A : Type) : Type :=
| Return (a : A)
| Raise (e : exn) (msg : string).
Arguments Return {A} a.
Arguments Raise {A} e msg.

End Py.
Export Py.


(* ===================================================================== *)
(** * The [json] decoder and [float()] *)
(* ===================================================================== *)

(** [json.loads] and [float(str)] are library code.  The classifier is
    embedded with both as parameters, so what is proved about it holds for
    whatever they do; the functions of this module are the instance the
    examples run on.  They follow the library's grammar over the modelled
    alphabet, with three limits: an escape above [ÿ] raises
    [UnicodeOutsideModel], the decoder's messages carry no position, and
    neither the interpreter's recursion limit nor its limit on the digits of
    an integer is modelled. *)
Module Json.

Definition dquote : ascii := ascii_of_nat 34.
Definition backslash : ascii := ascii_of_nat 92.

(** A readable way to write a text with double quotes in it: every
    apostrophe stands for a double quote. *)
Definition dq (s : string) : string := replace_char "'" dquote s.

(** The binary64 value nearest to [d * 10^e] ([d >= 0]), negated when
    [neg]: what [float] makes of a decimal numeral. *)
Definition float_of_decimal (neg : bool) (d e : Z) : float :=
  if (d =? 0)%Z then (if neg then PrimFloat.neg_zero else 0%float)
  else
    let p := if (0 <=? e)%Z then (d * 10 ^ e)%Z else d in
    let q := if (0 <=? e)%Z then 1%Z else (10 ^ (- e))%Z in
    let k0 := (Z.log2 p - Z.log2 q)%Z in
    let ge :=                      (* 2^k0 <= p / q *)
      if (0 <=? k0)%Z then (q * 2 ^ k0 <=? p)%Z else (q <=? p * 2 ^ (- k0))%Z in
    let k := if ge then k0 else (k0 - 1)%Z in
    let s := Z.max (k - 52) (-1074) in
    let num := if (s <? 0)%Z then (p * 2 ^ (- s))%Z else p in
    let den := if (s <? 0)%Z then q else (q * 2 ^ s)%Z in
    let m := rne_div num den in
    let f := Z.ldexp (PrimFloat.of_uint63 (Uint63.of_Z m)) s in
    if neg then PrimFloat.opp f else f.

Definition is_digit (c : ascii) : bool :=
  let n := nat_of_ascii c in ((48 <=? n) && (n <=? 57))%nat.

Definition digit_val (c : ascii) : Z := Z.of_nat (nat_of_ascii c - 48).

Definition hex_val (c : ascii) : option Z :=
  let n := nat_of_ascii c in
  if ((48 <=? n) && (n <=? 57))%nat then Some (Z.of_nat (n - 48))
  else if ((97 <=? n) && (n <=? 102))%nat then Some (Z.of_nat (n - 87))
  else if ((65 <=? n) && (n <=? 70))%nat then Some (Z.of_nat (n - 55))
  else None.

(** A run of decimal digits: its value after [acc], its length, the rest. *)
Fixpoint read_digits (acc : Z) (n : nat) (s : string) : Z * nat * string :=
  match s with
  | String c s' =>
      if is_digit c then read_digits (acc * 10 + digit_val c)%Z (S n) s'
      else (acc, n, s)
  | EmptyString => (acc, n, s)
  end.

Definition starts_with_digit (s : string) : bool :=
  match s with String c _ => is_digit c | EmptyString => false end.

(** The fraction and exponent of a numeral whose integer part [ip] has been
    read: [(\.\d+)?([eE][-+]?\d+)?]. *)
Definition read_frac_exp (neg : bool) (ip : Z) (s : string) : json * string :=
  let '(mant, nfrac, s1, has_frac) :=
    match s with
    | String "." s' =>
        if starts_with_digit s'
        then let '(m, n, r) := read_digits ip 0 s' in (m, n, r, true)
        else (ip, 0%nat, s, false)
    | _ => (ip, 0%nat, s, false)
    end in
  let '(ex, s2, has_exp) :=
    match s1 with
    | String c s' =>
        if Ascii.eqb c "e" || Ascii.eqb c "E" then
          match s' with
          | String "-" s'' =>
              if starts_with_digit s''
              then let '(x, _, r) := read_digits 0 0 s'' in ((- x)%Z, r, true)
              else (0%Z, s1, false)
          | String "+" s'' =>
              if starts_with_digit s''
              then let '(x, _, r) := read_digits 0 0 s'' in (x, r, true)
              else (0%Z, s1, false)
          | _ =>
              if starts_with_digit s'
              then let '(x, _, r) := read_digits 0 0 s' in (x, r, true)
              else (0%Z, s1, false)
          end
        else (0%Z, s1, false)
    | EmptyString => (0%Z, s1, false)
    end in
  if has_frac || has_exp
  then (JFloat (float_of_decimal neg mant (ex - Z.of_nat nfrac)), s2)
  else (JInt (if neg then (- ip)%Z else ip), s2).

(** A numeral: an optional minus sign, then 0 or a digit run that does not
    start with 0, and what follows it. *)
Definition read_number (s : string) : option (json * string) :=
  let '(neg, s0) :=
    match s with String "-" s' => (true, s') | _ => (false, s) end in
  match s0 with
  | String "0" s' => Some (read_frac_exp neg 0 s')
  | String c _ =>
      if is_digit c
      then let '(ip, _, r) := read_digits 0 0 s0 in Some (read_frac_exp neg ip r)
      else None
  | EmptyString => None
  end.

Definition is_json_ws (c : ascii) : bool :=
  let n := nat_of_ascii c in ((n =? 32) || (n =? 9) || (n =? 10) || (n =? 13))%nat.

Fixpoint skip_ws (s : string) : string :=
  match s with
  | String c s' => if is_json_ws c then skip_ws s' else s
  | EmptyString => s
  end.

Definition simple_escape (c : ascii) : option ascii :=
  if Ascii.eqb c dquote then Some dquote
  else if Ascii.eqb c backslash then Some backslash
  else if Ascii.eqb c "/" then Some "/"%char
  else if Ascii.eqb c "b" then Some (ascii_of_nat 8)
  else if Ascii.eqb c "f" then Some (ascii_of_nat 12)
  else if Ascii.eqb c "n" then Some (ascii_of_nat 10)
  else if Ascii.eqb c "r" then Some (ascii_of_nat 13)
  else if Ascii.eqb c "t" then Some (ascii_of_nat 9)
  else None.

(** The body of a string, read from just after its opening quote. *)
Fixpoint scan_string (s : string) : outcome (string * string) :=
  match s with
  | EmptyString => Raise JSONDecodeError "Unterminated string starting at"
  | String c rest =>
      if Ascii.eqb c dquote then Return (EmptyString, rest)
      else if Ascii.eqb c backslash then
        match rest with
        | EmptyString => Raise JSONDecodeError "Unterminated string starting at"
        | String "u" (String h1 (String h2 (String h3 (String h4 rest')))) =>
            match hex_val h1, hex_val h2, hex_val h3, hex_val h4 with
            | Some a, Some b, Some c', Some d =>
                let code := (((a * 16 + b) * 16 + c') * 16 + d)%Z in
                if (code <? 256)%Z then
                  match scan_string rest' with
                  | Return (str, r) =>
                      Return (String (ascii_of_nat (Z.to_nat code)) str, r)
                  | Raise e m => Raise e m
                  end
                else Raise UnicodeOutsideModel "escape above U+00FF"
            | _, _, _, _ => Raise JSONDecodeError "Invalid \uXXXX escape"
            end
        | String "u" _ => Raise JSONDecodeError "Invalid \uXXXX escape"
        | String e rest' =>
            match simple_escape e with
            | Some x =>
                match scan_string rest' with
                | Return (str, r) => Return (String x str, r)
                | Raise e' m => Raise e' m
                end
            | None => Raise JSONDecodeError "Invalid \escape"
            end
        end
      else if (nat_of_ascii c <? 32)%nat then
        Raise JSONDecodeError "Invalid control character at"
      else
        match scan_string rest with
        | Return (str, r) => Return (String c str, r)
        | Raise e m => Raise e m
        end
  end.

(** [d[key] = v] on a dictionary written as its item list. *)
Fixpoint dict_set (d : list (string * json)) (key : string) (v : json)
  : list (string * json) :=
  match d with
  | [] => [(key, v)]
  | (k, x) :: d' =>
      if String.eqb k key then (k, v) :: d' else (k, x) :: dict_set d' key v
  end.

(** [s] without the prefix [p], when it starts with it. *)
Fixpoint drop_prefix (p s : string) : option string :=
  match p, s with
  | EmptyString, _ => Some s
  | String a p', String b s' => if Ascii.eqb a b then drop_prefix p' s' else None
  | String _ _, EmptyString => None
  end.

Definition expecting_value {A} : outcome A :=
  Raise JSONDecodeError "Expecting value".

(** One value, then the members of an object or the elements of an array
    that is already open.  [fuel] bounds the number of calls; [loads] gives
    more than a text of that length can use. *)
Fixpoint parse_value (fuel : nat) (s : string) : outcome (json * string) :=
  match fuel with
  | O => Raise RecursionError "out of fuel"
  | S fuel' =>
      match s with
      | EmptyString => expecting_value
      | String c rest =>
          if Ascii.eqb c dquote then
            match scan_string rest with
            | Return (str, r) => Return (JStr str, r)
            | Raise e m => Raise e m
            end
          else if Ascii.eqb c "{" then
            match skip_ws rest with
            | String "}" r => Return (JObj [], r)
            | r => parse_members fuel' [] r
            end
          else if Ascii.eqb c "[" then
            match skip_ws rest with
            | String "]" r => Return (JArr [], r)
            | r => parse_elements fuel' [] r
            end
          else
            match drop_prefix "null" s, drop_prefix "true" s,
                  drop_prefix "false" s, drop_prefix "NaN" s,
                  drop_prefix "Infinity" s, drop_prefix "-Infinity" s with
            | Some r, _, _, _, _, _ => Return (JNull, r)
            | _, Some r, _, _, _, _ => Return (JBool true, r)
            | _, _, Some r, _, _, _ => Return (JBool false, r)
            | _, _, _, Some r, _, _ => Return (JFloat PrimFloat.nan, r)
            | _, _, _, _, Some r, _ => Return (JFloat PrimFloat.infinity, r)
            | _, _, _, _, _, Some r => Return (JFloat PrimFloat.neg_infinity, r)
            | _, _, _, _, _, _ =>
                match read_number s with
                | Some vr => Return vr
                | None => expecting_value
                end
            end
      end
  end
with parse_members (fuel : nat) (acc : list (string * json)) (s : string)
  : outcome (json * string) :=
  match fuel with
  | O => Raise RecursionError "out of fuel"
  | S fuel' =>
      match s with
      | String c rest =>
          if Ascii.eqb c dquote then
            match scan_string rest with
            | Raise e m => Raise e m
            | Return (key, r) =>
                match skip_ws r with
                | String ":" r1 =>
                    match parse_value fuel' (skip_ws r1) with
                    | Raise e m => Raise e m
                    | Return (v, r2) =>
                        let acc' := dict_set acc key v in
                        match skip_ws r2 with
                        | String "}" r3 => Return (JObj acc', r3)
                        | String "," r3 => parse_members fuel' acc' (skip_ws r3)
                        | _ => Raise JSONDecodeError "Expecting ',' delimiter"
                        end
                    end
                | _ => Raise JSONDecodeError "Expecting ':' delimiter"
                end
            end
          else Raise JSONDecodeError
                 "Expecting property name enclosed in double quotes"
      | EmptyString =>
          Raise JSONDecodeError
            "Expecting property name enclosed in double quotes"
      end
  end
with parse_elements (fuel : nat) (acc : list json) (s : string)
  : outcome (json * string) :=
  match fuel with
  | O => Raise RecursionError "out of fuel"
  | S fuel' =>
      match parse_value fuel' s with
      | Raise e m => Raise e m
      | Return (v, r) =>
          match skip_ws r with
          | String "]" r1 => Return (JArr (acc ++ [v]), r1)
          | String "," r1 => parse_elements fuel' (acc ++ [v]) (skip_ws r1)
          | _ => Raise JSONDecodeError "Expecting ',' delimiter"
          end
      end
  end.

(** [json.loads(s)]. *)
Definition loads (s : string) : outcome json :=
  match parse_value (2 * String.length s + 2) (skip_ws s) with
  | Raise e m => Raise e m
  | Return (v, rest) =>
      match skip_ws rest with
      | EmptyString => Return v
      | _ => Raise JSONDecodeError "Extra data"
      end
  end.

(** A digit group of [float(str)]: digits, single underscores between
    them. *)
Fixpoint read_digits_us (acc : Z) (n : nat) (s : string) : Z * nat * string :=
  match s with
  | String c s' =>
      if is_digit c then read_digits_us (acc * 10 + digit_val c)%Z (S n) s'
      else if Ascii.eqb c "_" then
        match n, s' with
        | S _, String c' _ =>
            if is_digit c' then read_digits_us acc n s' else (acc, n, s)
        | _, _ => (acc, n, s)
        end
      else (acc, n, s)
  | EmptyString => (acc, n, s)
  end.

(** [float(s)] for a string: [None] is the [ValueError]. *)
Definition float_of_str (s : string) : option float :=
  let t := strip s in
  let '(neg, t0) :=
    match t with
    | String "-" t' => (true, t')
    | String "+" t' => (false, t')
    | _ => (false, t)
    end in
  let word := lower t0 in
  if String.eqb word "inf" || String.eqb word "infinity" then
    Some (if neg then PrimFloat.neg_infinity else PrimFloat.infinity)
  else if String.eqb word "nan" then Some PrimFloat.nan
  else
    let '(ip, ni, t1) := read_digits_us 0 0 t0 in
    let '(mant, nf, t2) :=
      match t1 with
      | String "." t' => read_digits_us ip 0 t'
      | _ => (ip, 0%nat, t1)
      end in
    if ((ni + nf)%nat =? 0)%nat then None
    else
      let '(ex, t3, ok) :=
        match t2 with
        | String c t' =>
            if Ascii.eqb c "e" || Ascii.eqb c "E" then
              let '(sgn, t'') :=
                match t' with
                | String "-" u => (true, u)
                | String "+" u => (false, u)
                | _ => (false, t')
                end in
              let '(x, nx, r) := read_digits_us 0 0 t'' in
              (if sgn then (- x)%Z else x, r, negb (nx =? 0)%nat)
            else (0%Z, t2, true)
        | EmptyString => (0%Z, t2, true)
        end in
      match ok, t3 with
      | true, EmptyString =>
          Some (float_of_decimal neg mant (ex - Z.of_nat nf))
      | _, _ => None
      end.

End Json.
(* ===================================================================== *)
(** * tools/common/schemas.py *)
(* ===================================================================== *)

Module Schemas.

Inductive DrawingType : Type :=
| FLOOR_PLAN | SITE_PLAN | ELEVATION | SECTION | DETAIL | SCHEDULE
| SPECIFICATION | ROOF_PLAN | REFLECTED_CEILING | STRUCTURAL | MECHANICAL
| ELECTRICAL | PLUMBING | LANDSCAPE | DEMOLITION | COVER_SHEET | LEGEND
| UNKNOWN.

(** [DrawingType.<member>.value]. *)
Definition value (t : DrawingType) : string :=
  match t with
  | FLOOR_PLAN => "floor_plan" | SITE_PLAN => "site_plan"
  | ELEVATION => "elevation" | SECTION => "section" | DETAIL => "detail"
  | SCHEDULE => "schedule" | SPECIFICATION => "specification"
  | ROOF_PLAN => "roof_plan" | REFLECTED_CEILING => "reflected_ceiling"
  | STRUCTURAL => "structural" | MECHANICAL => "mechanical"
  | ELECTRICAL => "electrical" | PLUMBING => "plumbing"
  | LANDSCAPE => "landscape" | DEMOLITION => "demolition"
  | COVER_SHEET => "cover_sheet" | LEGEND => "legend" | UNKNOWN => "unknown"
  end.

(** The members, in declaration order. *)
Definition members : list DrawingType :=
  [FLOOR_PLAN; SITE_PLAN; ELEVATION; SECTION; DETAIL; SCHEDULE;
   SPECIFICATION; ROOF_PLAN; REFLECTED_CEILING; STRUCTURAL; MECHANICAL;
   ELECTRICAL; PLUMBING; LANDSCAPE; DEMOLITION; COVER_SHEET; LEGEND;
   UNKNOWN].

(** [DrawingType(s)]: the member whose value is [s]; [None] stands for the
    [ValueError] of a failed lookup. *)
Definition DrawingType_of_value (s : string) : option DrawingType :=
  List.find (fun t => String.eqb (value t) s) members.

#[global] Instance DrawingType_eq_dec : EqDecision DrawingType.
Proof. solve_decision. Defined.

Definition member_index (t : DrawingType) : nat :=
  match t with
  | FLOOR_PLAN => 0 | SITE_PLAN => 1 | ELEVATION => 2 | SECTION => 3
  | DETAIL => 4 | SCHEDULE => 5 | SPECIFICATION => 6 | ROOF_PLAN => 7
  | REFLECTED_CEILING => 8 | STRUCTURAL => 9 | MECHANICAL => 10
  | ELECTRICAL => 11 | PLUMBING => 12 | LANDSCAPE => 13 | DEMOLITION => 14
  | COVER_SHEET => 15 | LEGEND => 16 | UNKNOWN => 17
  end%nat.

#[global] Instance DrawingType_countable : Countable DrawingType.
Proof.
  refine (inj_countable' member_index (fun n => nth n members UNKNOWN) _).
  intros []; reflexivity.
Defined.

Module DrawingInfo.
Record t : Type := mk {
  file_path : string;
  page_number : Z;
  drawing_type : DrawingType;
  drawing_number : json;
  drawing_title : json;
  revision : json;
  scale : json;
  dimensions_present : json;
  annotations_present : json;
  confidence : float;            (* Classification confidence 0-1 *)
  extracted_text : option string;
  image_path : option string;
  measurement_potential : json;
  notes : json
}.
End DrawingInfo.

Module LocationInfo.
Record t : Type := mk {
  address : option string;
  postcode : option string;
  latitude : option float;
  longitude : option float;
  local_authority : option string;
  region : option string;
  country : option string;
  what3words : option string
}.
(** [LocationInfo()]: every field at its default. *)
Definition default : t :=
  {| address := None; postcode := None; latitude := None; longitude := None;
     local_authority := None; region := None; country := Some "UK";
     what3words := None |}.
End LocationInfo.

(** A [datetime], as the calendar date it holds. *)
Record datetime : Type := { dt_year : Z; dt_month : Z; dt_day : Z }.

Module ProjectMetadata.
Record t : Type := mk {
  project_name : option string;
  project_number : option string;
  client_name : option string;
  architect : option string;
  architect_reference : option string;
  structural_engineer : option string;
  location : option LocationInfo.t;
  issue_date : option datetime;
  stage : option string;
  building_type : option string;
  gross_internal_area_m2 : option float;
  storeys : option Z;
  procurement_route : option string;
  contract_type : option string;
  raw_extracted_fields : list (string * string)
}.
(** [ProjectMetadata()]. *)
Definition default : t :=
  {| project_name := None; project_number := None; client_name := None;
     architect := None; architect_reference := None;
     structural_engineer := None; location := None; issue_date := None;
     stage := None; building_type := None; gross_internal_area_m2 := None;
     storeys := None; procurement_route := None; contract_type := None;
     raw_extracted_fields := [] |}.
End ProjectMetadata.

Inductive DocumentStatus : Type := PRESENT | MISSING | INCOMPLETE | SUPERSEDED.

Module DocumentEntry.
Record t : Type := mk {
  file_name : string;
  file_path : string;
  file_type : string;
  file_size_bytes : Z;
  page_count : Z;
  drawings : list DrawingInfo.t;
  status : DocumentStatus;
  hash_md5 : option string
}.
End DocumentEntry.

Module DocumentManifest.
Record t : Type := mk {
  project_id : string;
  source_directory : option string;
  documents : list DocumentEntry.t;
  metadata : option ProjectMetadata.t;
  total_pages : Z;
  total_drawings : Z
}.
End DocumentManifest.

Module MissingItem.
Record t : Type := mk {
  item_type : string;
  description : string;
  severity : string;          (* "critical", "important", "minor" *)
  impact : string;
  recommendation : string
}.
End MissingItem.

Module CompletenessReport.
Record t : Type := mk {
  project_id : string;
  overall_completeness_pct : float;
  status : string;            (* "complete", "incomplete", "critical_gaps" *)
  drawing_types_present : list DrawingType;
  specifications_present : bool;
  schedules_present : bool;
  missing_items : list MissingItem.t;
  warnings : list string;
  notes : list string;
  proceed_recommendation : string;   (* "proceed", "proceed_with_caution", "hold" *)
  hold_reasons : list string
}.
(** [CompletenessReport(project_id=...)]. *)
Definition default (pid : string) : t :=
  {| project_id := pid; overall_completeness_pct := 0%float;
     status := "incomplete"; drawing_types_present := [];
     specifications_present := false; schedules_present := false;
     missing_items := []; warnings := []; notes := [];
     proceed_recommendation := "hold"; hold_reasons := [] |}.
End CompletenessReport.

Module MeasurableElement.
Record t : Type := mk {
  element_type : string;
  nrm_reference : option string;
  source_drawings : list string;
  confidence : string;        (* "high", "medium", "low" *)
  notes : list string
}.
End MeasurableElement.

Module MeasurementScope.
Record t : Type := mk {
  project_id : string;
  measurable_elements : list MeasurableElement.t;
  unmeasurable_elements : list (string * string);   (* element, reason *)
  coverage_summary : string;
  recommended_assumptions : list string;
  exclusions : list string
}.
Definition default (pid : string) : t :=
  {| project_id := pid; measurable_elements := [];
     unmeasurable_elements := []; coverage_summary := "";
     recommended_assumptions := []; exclusions := [] |}.
End MeasurementScope.

End Schemas.
Export Schemas.

(* ===================================================================== *)
(** * tools/common/base.py *)
(* ===================================================================== *)

Module Base.

Inductive ToolStatus : Type := SUCCESS | PARTIAL | FAILED | SKIPPED.

#[global] Instance ToolStatus_eq_dec : EqDecision ToolStatus.
Proof. solve_decision. Defined.

Module ToolError.
Record t : Type := mk {
  code : string;
  message : string;
  recoverable : bool;
  details : option (list (string * string))
}.
End ToolError.

Module ToolResult.
Record t (T : Type) : Type := mk {
  status : ToolStatus;
  data : option T;
  errors : list ToolError.t;
  warnings : list string
}.
Arguments mk {T} _ _ _ _.
Arguments status {T} _.
Arguments data {T} _.
Arguments errors {T} _.
Arguments warnings {T} _.

(** The [success] property. *)
Definition success {T} (r : t T) : bool :=
  match status r with SUCCESS | PARTIAL => true | _ => false end.
End ToolResult.

(** [str.upper] of a tool name (ASCII lower-case letters and [_]). *)
Fixpoint upper_ascii (s : string) : string :=
  match s with
  | EmptyString => EmptyString
  | String c s' =>
      String (if is_ascii_lower c then ascii_of_nat (nat_of_ascii c - 32)
              else c) (upper_ascii s')
  end.

(** [BaseTool._create_error], for the tool called [name]. *)
Definition _create_error (name : string) (code message : string)
    (recoverable : bool) (details : option (list (string * string)))
  : ToolError.t :=
  {| ToolError.code := upper_ascii name +:+ "_" +:+ code;
     ToolError.message := message;
     ToolError.recoverable := recoverable;
     ToolError.details := details |}.

End Base.
Export Base.


(* ===================================================================== *)
(** * tools/pdf_parser/parser.py *)
(* ===================================================================== *)

Module PdfParser.

Module PageContent.
Record t : Type := mk {
  page_number : Z;
  text : string;
  has_images : bool;
  image_count : nat;
  width_pts : float;
  height_pts : float;
  rotation : Z;
  extracted_image_path : option string
}.
End PageContent.

Module PDFParserResult.
Record t : Type := mk {
  file_path : string;
  file_name : string;
  file_size_bytes : Z;
  hash_md5 : string;
  page_count : Z;
  pages : list PageContent.t;
  metadata : list (string * string);
  is_scanned : bool;
  has_text_layer : bool;
  extraction_quality : string      (* "good", "partial", "poor" *)
}.

(** [PDFParserResult.to_document_entry]. *)
Definition to_document_entry (self : t) : DocumentEntry.t :=
  {| DocumentEntry.file_name := file_name self;
     DocumentEntry.file_path := file_path self;
     DocumentEntry.file_type := "application/pdf";
     DocumentEntry.file_size_bytes := file_size_bytes self;
     DocumentEntry.page_count := page_count self;
     DocumentEntry.drawings := [];
     DocumentEntry.status := PRESENT;
     DocumentEntry.hash_md5 := Some (hash_md5 self) |}.
End PDFParserResult.

(** ** The file system and the PDF library, as the parser sees them *)

(** One page of an opened document: what [page.get_text()],
    [page.get_images()], [page.rect], [page.rotation] give, and what
    [_extract_page_image] returns for the page ([None] when rendering or
    saving raised). *)
Record RawPage : Type := {
  raw_text : string;
  raw_image_count : nat;
  raw_width : float;
  raw_height : float;
  raw_rotation : Z;
  raw_rendered : option string
}.

(** What a path leads to.  [f_document] is [None] when hashing, [stat] or
    the PDF library raises on the file; otherwise it holds the document's
    metadata dictionary and its pages. *)
Record FileDesc : Type := {
  f_exists : bool;
  f_is_file : bool;
  f_str : string;                 (* str(path) *)
  f_name : string;                (* path.name *)
  f_suffix : string;              (* path.suffix *)
  f_size : Z;
  f_md5 : string;
  f_document : option (list (string * string) * list RawPage);
  f_error : string * string       (* str(e), type(e).__name__ when it raises *)
}.

Record FileSystem : Type := {
  lookup_path : string -> FileDesc;
  (** [list(directory.glob(pattern))]: the paths found. *)
  glob : string -> string -> list string;
  (** whether [import fitz] succeeds *)
  fitz_installed : bool
}.

(** The parser's configuration. *)
Record PDFParser : Type := {
  output_dir : option string;
  extract_images : bool;
  image_dpi : Z;
  image_format : string
}.

Definition name : string := "pdf_parser".

(** [_ensure_fitz]: raises when the library cannot be imported. *)
Definition _ensure_fitz (fs : FileSystem) : outcome unit :=
  if fitz_installed fs then Return tt
  else Raise ImportError
         "PyMuPDF is required for PDF parsing. Install with: pip install PyMuPDF".

Definition sum_nat (l : list nat) : nat := fold_right Nat.add 0%nat l.

(** [PDFParser._detect_if_scanned]: (is_scanned, has_text_layer). *)
Definition _detect_if_scanned (pages : list PageContent.t) : bool * bool :=
  match pages with
  | [] => (false, false)
  | _ =>
      let total_text :=
        sum_nat (List.map (fun p => String.length (strip (PageContent.text p)))
                          pages) in
      let total_images := sum_nat (List.map PageContent.image_count pages) in
      let avg_text_per_page :=
        (float_of_nat total_text / float_of_nat (length pages))%float in
      if PrimFloat.ltb avg_text_per_page 50%float && (0 <? total_images)%nat
      then (true, PrimFloat.ltb 10%float avg_text_per_page)
      else (false, (0 <? total_text)%nat)
  end.

(** The pages of the [for page_num in range(len(doc))] loop, numbered from
    [first]. *)
Fixpoint read_pages (should_extract : bool) (first : Z) (raw : list RawPage)
  : list PageContent.t :=
  match raw with
  | [] => []
  | p :: raw' =>
      {| PageContent.page_number := first;
         PageContent.text := raw_text p;
         PageContent.has_images := (0 <? raw_image_count p)%nat;
         PageContent.image_count := raw_image_count p;
         PageContent.width_pts := raw_width p;
         PageContent.height_pts := raw_height p;
         PageContent.rotation := raw_rotation p;
         PageContent.extracted_image_path :=
           if should_extract then raw_rendered p else None |}
      :: read_pages should_extract (first + 1)%Z raw'
  end.

(** [PDFParser.execute(file_path, output_dir, extract_images)]. *)
Definition execute (fs : FileSystem) (self : PDFParser) (file_path : string)
    (output_dir : option string) (extract_images_arg : option bool)
  : outcome (ToolResult.t PDFParserResult.t) :=
  let f := lookup_path fs file_path in
  (* Validate input *)
  if negb (f_exists f) then
    Return (ToolResult.mk FAILED None
              [_create_error name "FILE_NOT_FOUND"
                 ("File not found: " +:+ f_str f) false None] [])
  else if negb (String.eqb (lower (f_suffix f)) ".pdf") then
    Return (ToolResult.mk FAILED None
              [_create_error name "INVALID_FILE_TYPE"
                 ("Expected PDF file, got: " +:+ f_suffix f) false None] [])
  else
    let should_extract :=
      match extract_images_arg with
      | Some b => b
      | None => extract_images self
      end in
    match _ensure_fitz fs with
    | Raise e msg => Raise e msg
    | Return _ =>
        match f_document f with
        | None =>
            (* except Exception as e *)
            Return (ToolResult.mk FAILED None
                      [_create_error name "PARSE_ERROR"
                         ("Failed to parse PDF: " +:+ fst (f_error f)) false
                         (Some [("exception", snd (f_error f))])] [])
        | Some (doc_metadata, raw_pages) =>
            let metadata :=
              [ ("title", dict_get doc_metadata "title" "");
                ("author", dict_get doc_metadata "author" "");
                ("subject", dict_get doc_metadata "subject" "");
                ("creator", dict_get doc_metadata "creator" "");
                ("producer", dict_get doc_metadata "producer" "");
                ("creation_date", dict_get doc_metadata "creationDate" "");
                ("modification_date", dict_get doc_metadata "modDate" "");
                ("keywords", dict_get doc_metadata "keywords" "") ] in
            let pages := read_pages should_extract 1 raw_pages in
            (* Detect if scanned *)
            let '(is_scanned, has_text) := _detect_if_scanned pages in
            (* Determine extraction quality *)
            let '(extraction_quality, warnings) :=
              if is_scanned && negb has_text then
                ("poor",
                 ["PDF appears to be scanned without OCR. Text extraction limited."])
              else if is_scanned then
                ("partial",
                 ["PDF appears to be scanned with OCR. Text extraction may be imperfect."])
              else ("good", []) in
            let result :=
              {| PDFParserResult.file_path := f_str f;
                 PDFParserResult.file_name := f_name f;
                 PDFParserResult.file_size_bytes := f_size f;
                 PDFParserResult.hash_md5 := f_md5 f;
                 PDFParserResult.page_count := Z.of_nat (length pages);
                 PDFParserResult.pages := pages;
                 PDFParserResult.metadata := metadata;
                 PDFParserResult.is_scanned := is_scanned;
                 PDFParserResult.has_text_layer := has_text;
                 PDFParserResult.extraction_quality := extraction_quality |} in
            Return (ToolResult.mk
                      (match warnings with [] => SUCCESS | _ => PARTIAL end)
                      (Some result) [] warnings)
        end
    end.

(** The [for pdf_file in pdf_files] loop of [parse_directory]: the results,
    errors and warnings accumulated so far are threaded through. *)
Fixpoint parse_each (fs : FileSystem) (self : PDFParser)
    (output_dir : option string) (pdf_files : list string)
    (results : list PDFParserResult.t) (errors : list ToolError.t)
    (warnings : list string)
  : outcome (list PDFParserResult.t * list ToolError.t * list string) :=
  match pdf_files with
  | [] => Return (results, errors, warnings)
  | pdf_file :: rest =>
      match execute fs self pdf_file output_dir None with
      | Raise e msg => Raise e msg
      | Return result =>
          let '(results', errors') :=
            match ToolResult.success result, ToolResult.data result with
            | true, Some d => (results ++ [d], errors)
            | _, _ => (results, errors ++ ToolResult.errors result)
            end in
          parse_each fs self output_dir rest results' errors'
                     (warnings ++ ToolResult.warnings result)
      end
  end.

(** [PDFParser.parse_directory(directory, output_dir, recursive)]. *)
Definition parse_directory (fs : FileSystem) (self : PDFParser)
    (directory : string) (output_dir : option string) (recursive : bool)
  : outcome (ToolResult.t (list PDFParserResult.t)) :=
  let d := lookup_path fs directory in
  if negb (f_exists d) then
    Return (ToolResult.mk FAILED None
              [_create_error name "DIR_NOT_FOUND"
                 ("Directory not found: " +:+ f_str d) false None] [])
  else
    (* Find all PDFs *)
    let pattern := if recursive then "**/*.pdf" else "*.pdf" in
    let pdf_files := glob fs directory pattern in
    match pdf_files with
    | [] =>
        Return (ToolResult.mk PARTIAL (Some [])
                  [] ["No PDF files found in directory"])
    | _ =>
        match parse_each fs self output_dir pdf_files [] [] [] with
        | Raise e msg => Raise e msg
        | Return (results, errors, warnings) =>
            match results with
            | [] => Return (ToolResult.mk FAILED None errors warnings)
            | _ =>
                Return (ToolResult.mk
                          (match errors with [] => SUCCESS | _ => PARTIAL end)
                          (Some results) errors warnings)
            end
        end
    end.

End PdfParser.

(* ===================================================================== *)
(** * tools/drawing_classifier/classifier.py *)
(* ===================================================================== *)

Module Classifier.

Module ClassificationResult.
Record t : Type := mk {
  drawing_type : DrawingType;
  drawing_number : json;
  drawing_title : json;
  revision : json;
  scale : json;
  dimensions_present : json;
  annotations_present : json;
  confidence : float;
  measurement_potential : json;
  notes : json;
  raw_response : option string
}.

(** [ClassificationResult.to_drawing_info]. *)
Definition to_drawing_info (self : t) (file_path : string) (page_number : Z)
  : DrawingInfo.t :=
  {| DrawingInfo.file_path := file_path;
     DrawingInfo.page_number := page_number;
     DrawingInfo.drawing_type := drawing_type self;
     DrawingInfo.drawing_number := drawing_number self;
     DrawingInfo.drawing_title := drawing_title self;
     DrawingInfo.revision := revision self;
     DrawingInfo.scale := scale self;
     DrawingInfo.dimensions_present := dimensions_present self;
     DrawingInfo.annotations_present := annotations_present self;
     DrawingInfo.confidence := confidence self;
     DrawingInfo.extracted_text := None;
     DrawingInfo.image_path := None;
     DrawingInfo.measurement_potential := measurement_potential self;
     DrawingInfo.notes := notes self |}.

(** [ClassificationResult(drawing_type=DrawingType.UNKNOWN, confidence=0.0,
    notes=[note], raw_response=raw)]: the other fields at their defaults. *)
Definition unknown (note : string) (raw : option string) : t :=
  {| drawing_type := UNKNOWN; drawing_number := JNull; drawing_title := JNull;
     revision := JNull; scale := JNull; dimensions_present := JBool false;
     annotations_present := JBool false; confidence := 0%float;
     measurement_potential := JArr []; notes := JArr [JStr note];
     raw_response := raw |}.
End ClassificationResult.

(** ** The two regular expressions of [_parse_response] *)

Definition fence : string := "```".

(** The text after the first occurrence of [needle]. *)
Fixpoint after_first (needle s : string) : option string :=
  match Json.drop_prefix needle s with
  | Some rest => Some rest
  | None =>
      match s with
      | String _ s' => after_first needle s'
      | EmptyString => None
      end
  end.

(** The lazy group of the first regular expression followed by its tail:
    the shortest prefix of [s] after which optional white space and a fence
    follow. *)
Fixpoint lazy_until_fence (s : string) : option string :=
  match Json.drop_prefix fence (lstrip s) with
  | Some _ => Some EmptyString
  | None =>
      match s with
      | String c s' =>
          match lazy_until_fence s' with
          | Some g => Some (String c g)
          | None => None
          end
      | EmptyString => None
      end
  end.

(** [re.search] of the fenced pattern (a fence, the word json, white space,
    a lazy group, white space, a fence; DOTALL): group 1 of the match.  The
    leftmost match starts at the first fence followed by json; the greedy
    white space is skipped, and the group ends at the first place from
    which white space leads to a fence. *)
Definition search_fenced (text : string) : option string :=
  match after_first (fence +:+ "json") text with
  | Some rest => lazy_until_fence (lstrip rest)
  | None => None
  end.

(** The longest prefix of [s] that ends in a closing brace. *)
Fixpoint up_to_last_brace (s : string) : option string :=
  match s with
  | EmptyString => None
  | String c s' =>
      match up_to_last_brace s' with
      | Some r => Some (String c r)
      | None => if Ascii.eqb c "}" then Some (String c EmptyString) else None
      end
  end.

(** [re.search] of an opening brace, anything (greedy, DOTALL), a closing
    brace: group 0, which runs from the first opening brace to the last
    closing brace after it. *)
Fixpoint search_braces (text : string) : option string :=
  match text with
  | EmptyString => None
  | String c s' =>
      if Ascii.eqb c "{" then
        match up_to_last_brace s' with
        | Some r => Some (String c r)
        | None => None
        end
      else search_braces s'
  end.

Section Decoder.

(** [json.loads], and [float] on a string ([None]: [ValueError]). *)
Variable loads : string -> outcome json.
Variable float_of_str : string -> option float.

(** [float(v)]. *)
Definition py_float (v : json) : outcome float :=
  match v with
  | JFloat f => Return f
  | JInt z =>
      let f := Json.float_of_decimal (z <? 0)%Z (Z.abs z) 0 in
      if PrimFloat.eqb (PrimFloat.abs f) PrimFloat.infinity
      then Raise OverflowError "int too large to convert to float"
      else Return f
  | JBool b => Return (if b then 1%float else 0%float)
  | JStr s =>
      match float_of_str s with
      | Some f => Return f
      | None => Raise ValueError
                  ("could not convert string to float: '" +:+ s +:+ "'")
      end
  | _ => Raise TypeError
           ("float() argument must be a string or a real number, not '"
            +:+ type_name v +:+ "'")
  end.

(** [DrawingClassifier._parse_response]. *)
Definition _parse_response (response_text : string)
  : outcome ClassificationResult.t :=
  (* Try to extract JSON from response *)
  let json_match :=
    match search_fenced response_text with
    | Some g => Some g
    | None => search_braces response_text     (* Try to find raw JSON *)
    end in
  match json_match with
  | None =>
      (* Return unknown classification *)
      Return (ClassificationResult.unknown "Failed to parse model response"
                (Some response_text))
  | Some json_str =>
      match loads json_str with
      | Raise JSONDecodeError msg =>
          Return (ClassificationResult.unknown ("JSON parse error: " +:+ msg)
                    (Some response_text))
      | Raise e msg => Raise e msg
      | Return data =>
          match data with
          | JObj items =>
              (* Map drawing type string to enum *)
              match dict_get items "drawing_type" (JStr "unknown") with
              | JStr s =>
                  let drawing_type_str := lower s in
                  let drawing_type :=
                    match DrawingType_of_value drawing_type_str with
                    | Some t => t
                    | None => UNKNOWN          (* except ValueError *)
                    end in
                  match py_float (dict_get items "confidence" (JFloat 0.5%float)) with
                  | Raise e msg => Raise e msg
                  | Return c =>
                      Return
                        {| ClassificationResult.drawing_type := drawing_type;
                           ClassificationResult.drawing_number :=
                             dict_get items "drawing_number" JNull;
                           ClassificationResult.drawing_title :=
                             dict_get items "drawing_title" JNull;
                           ClassificationResult.revision :=
                             dict_get items "revision" JNull;
                           ClassificationResult.scale := dict_get items "scale" JNull;
                           ClassificationResult.dimensions_present :=
                             dict_get items "dimensions_present" (JBool false);
                           ClassificationResult.annotations_present :=
                             dict_get items "annotations_present" (JBool false);
                           ClassificationResult.confidence := c;
                           ClassificationResult.measurement_potential :=
                             dict_get items "measurement_potential" (JArr []);
                           ClassificationResult.notes :=
                             dict_get items "notes" (JArr []);
                           ClassificationResult.raw_response :=
                             Some response_text |}
                  end
              | v => Raise AttributeError
                       ("'" +:+ type_name v
                        +:+ "' object has no attribute 'lower'")
              end
          | v => Raise AttributeError
                   ("'" +:+ type_name v +:+ "' object has no attribute 'get'")
          end
      end
  end.

(** ** The classifier and the vision back ends *)

Record DrawingClassifier : Type := {
  provider : string;
  model : string;
  api_key : option string
}.

(** [DrawingClassifier.__init__], from the configuration's three keys. *)
Definition init (config_provider config_model : option string)
    (config_api_key : option string) : DrawingClassifier :=
  let provider := default "claude" config_provider in
  {| provider :=
       if String.eqb provider "anthropic"
          && negb (truthy_opt truthy_str config_api_key)
       then "claude" else provider;
     model := default "claude-sonnet-4-20250514" config_model;
     api_key := config_api_key |}.

(** What lies outside the program: the image files, and what a back end
    answers (or raises) when asked about an image. *)
Record Vision : Type := {
  image_exists : string -> bool;
  image_suffix : string -> string;
  (** [_classify_with_<provider>(image_path)], on the call for page
      [page_number] *)
  respond : string -> string -> Z -> outcome string
}.

Definition name : string := "drawing_classifier".

Definition valid_extensions : list string :=
  [".png"; ".jpg"; ".jpeg"; ".gif"; ".webp"].

Definition SUPPORTED_PROVIDERS : list string := ["claude"; "anthropic"; "openai"].

(** [DrawingClassifier.execute]. *)
Definition execute (w : Vision) (self : DrawingClassifier)
    (image_path : string) (source_file : option string) (page_number : Z)
  : ToolResult.t ClassificationResult.t :=
  (* Validate input *)
  if negb (image_exists w image_path) then
    ToolResult.mk FAILED None
      [_create_error name "FILE_NOT_FOUND"
         ("Image not found: " +:+ image_path) false None] []
  else if negb (existsb (String.eqb (lower (image_suffix w image_path)))
                        valid_extensions) then
    ToolResult.mk FAILED None
      [_create_error name "INVALID_FORMAT"
         ("Unsupported image format: " +:+ image_suffix w image_path)
         false None] []
  else if negb (existsb (String.eqb (provider self)) SUPPORTED_PROVIDERS) then
    ToolResult.mk FAILED None
      [_create_error name "INVALID_PROVIDER"
         ("Unsupported provider: " +:+ provider self) false None] []
  else
    (* try: call the provider, then parse its response *)
    let attempt :=
      match respond w (provider self) image_path page_number with
      | Raise e msg => Raise e msg
      | Return response_text => _parse_response response_text
      end in
    match attempt with
    | Return result =>
        (* Determine status based on confidence *)
        let '(status, warnings) :=
          if bool_decide (ClassificationResult.drawing_type result = UNKNOWN)
          then (PARTIAL, ["Could not confidently classify drawing"])
          else if PrimFloat.ltb (ClassificationResult.confidence result) 0.5%float
          then (PARTIAL,
                ["Low confidence classification: "
                 +:+ format_2f (ClassificationResult.confidence result)])
          else (SUCCESS, []) in
        ToolResult.mk status (Some result) [] warnings
    | Raise e msg =>
        (* except Exception as e *)
        ToolResult.mk FAILED None
          [_create_error name "CLASSIFICATION_ERROR"
             ("Failed to classify drawing: " +:+ msg) true
             (Some [("exception", exn_name e)])] []
    end.

(** The loop of [classify_batch], from page [i + 1] on. *)
Fixpoint classify_each (w : Vision) (self : DrawingClassifier)
    (source_file : option string) (i : Z) (image_paths : list string)
  : list ClassificationResult.t * list ToolError.t * list string :=
  match image_paths with
  | [] => ([], [], [])
  | image_path :: rest =>
      let result := execute w self image_path source_file (i + 1)%Z in
      let '(results, errors, warnings) :=
        classify_each w self source_file (i + 1)%Z rest in
      match ToolResult.success result, ToolResult.data result with
      | true, Some d =>
          (d :: results, errors, ToolResult.warnings result ++ warnings)
      | _, _ =>
          (* Add placeholder for failed classification *)
          (ClassificationResult.unknown "Classification failed" None :: results,
           ToolResult.errors result ++ errors,
           ToolResult.warnings result ++ warnings)
      end
  end.

(** [DrawingClassifier.classify_batch]. *)
Definition classify_batch (w : Vision) (self : DrawingClassifier)
    (image_paths : list string) (source_file : option string)
  : ToolResult.t (list ClassificationResult.t) :=
  let '(results, errors, warnings) :=
    classify_each w self source_file 0 image_paths in
  ToolResult.mk (match errors with [] => SUCCESS | _ => PARTIAL end)
                (Some results) errors warnings.

End Decoder.

End Classifier.

(* ===================================================================== *)
(** * tools/metadata_extractor/extractor.py *)
(* ===================================================================== *)

Module Extractor.

Module ExtractionResult.
Record t : Type := mk {
  metadata : ProjectMetadata.t;
  extraction_sources : list string;
  confidence : float;
  raw_text_used : option string
}.
End ExtractionResult.

(** ** The [re] engine and [strptime], as the extractor sees them *)

Inductive re_flags : Type :=
| IGNORECASE               (* re.IGNORECASE *)
| IGNORECASE_MULTILINE.    (* re.IGNORECASE | re.MULTILINE *)

Record Engine : Type := {
  (** [re.search(pattern, text, flags)]: the groups 1, 2, ... of the first
      match, [None] when there is none. *)
  re_search : string -> string -> re_flags -> option (list string);
  (** [re.finditer(pattern, text, flags)]: the groups of every match. *)
  re_finditer : string -> string -> re_flags -> list (list string);
  (** [datetime.strptime(date_str, fmt)]; [None] is its [ValueError]. *)
  strptime : string -> string -> option datetime
}.

(** [match.group(1)]. *)
Definition group1 (groups : list string) : string := nth 0 groups "".

(** [MetadataExtractor.PATTERNS]. *)
Definition PATTERNS : list (string * list string) :=
  [ ("project_name",
      [ "(?:project|scheme|development)[\s:]+([A-Za-z0-9\s\-&,.']+?)(?:\n|$|revision|drawing)";
        "(?:project title|site)[\s:]+([A-Za-z0-9\s\-&,.']+?)(?:\n|$)" ]);
    ("project_number",
      [ "(?:project|job|ref)[\s\.]*(?:no|number|ref)?[\s:\.]*([A-Z0-9\-/]+)";
        "(?:^|\s)([A-Z]{2,4}[\-/][0-9]{3,6})(?:\s|$)" ]);
    ("client",
      [ "(?:client|employer|for)[\s:]+([A-Za-z0-9\s\-&,.']+?)(?:\n|$|project)" ]);
    ("architect",
      [ "(?:architect|designed by|drawn by)[\s:]+([A-Za-z0-9\s\-&,.']+?)(?:\n|$)";
        "(?:^|\n)([A-Za-z\s]+(?:architects?|associates|partnership|llp))(?:\n|$)" ]);
    ("structural_engineer",
      [ "(?:structural|engineer|structures)[\s:]+([A-Za-z0-9\s\-&,.']+?)(?:\n|$)" ]);
    ("postcode",
      [ "([A-Z]{1,2}[0-9][0-9A-Z]?\s*[0-9][A-Z]{2})" ]);
    ("scale",
      [ "scale[\s:]*([0-9]+\s*:\s*[0-9]+)";
        "@\s*([0-9]+\s*:\s*[0-9]+)";
        "(?:^|\s)(1\s*:\s*(?:50|100|200|250|500|1000|1250|2500))(?:\s|$)" ]);
    ("date",
      [ "(?:date|issued|drawn)[\s:]*(\d{1,2}[/\-\.]\d{1,2}[/\-\.]\d{2,4})";
        "(\d{1,2}\s+(?:jan|feb|mar|apr|may|jun|jul|aug|sep|oct|nov|dec)[a-z]*\s+\d{2,4})";
        "((?:jan|feb|mar|apr|may|jun|jul|aug|sep|oct|nov|dec)[a-z]*\s+\d{4})" ]);
    ("revision",
      [ "(?:rev|revision)[\s:\.]*([A-Z0-9]+)";
        "(?:^|\s)rev[\s\.]*([A-Z])(?:\s|$)" ]);
    ("stage",
      [ "(?:riba\s+)?stage[\s:]*([0-9])";
        "(concept|developed design|technical design|construction)";
        "(planning|tender|construction)" ]);
    ("gia",
      [ "(?:gia|gross internal area|floor area)[\s:]*([0-9,]+(?:\.[0-9]+)?)\s*(?:m2|sqm|m" +:+ String (ascii_of_nat 178) ")" ]);
    ("storeys",
      [ "([0-9]+)\s*(?:storey|story|floor)s?";
        "(?:^|\s)(basement|ground|\+[0-9]+)(?:\s|$)" ]) ].

(** [self.PATTERNS[key]]. *)
Definition patterns_of (key : string) : list string :=
  dict_get PATTERNS key [].


(** [MetadataExtractor.RIBA_STAGES]. *)
Definition RIBA_STAGES : list (string * string) :=
  [ ("0", "Strategic Definition"); ("1", "Preparation and Brief");
    ("2", "Concept Design"); ("3", "Developed Design");
    ("4", "Technical Design"); ("5", "Construction");
    ("6", "Handover and Close Out"); ("7", "In Use");
    ("concept", "2"); ("developed design", "3"); ("technical design", "4");
    ("construction", "5"); ("planning", "3"); ("tender", "4") ].

(** [key in d]. *)
Definition dict_mem {V} (d : list (string * V)) (key : string) : bool :=
  existsb (fun kv => String.eqb (fst kv) key) d.

(** [d[key] = v]. *)
Fixpoint dict_set {V} (d : list (string * V)) (key : string) (v : V)
  : list (string * V) :=
  match d with
  | [] => [(key, v)]
  | (k, x) :: d' =>
      if String.eqb k key then (k, v) :: d' else (k, x) :: dict_set d' key v
  end.

(** [{**a, **b}]. *)
Definition dict_merge {V} (a b : list (string * V)) : list (string * V) :=
  fold_left (fun d kv => dict_set d (fst kv) (snd kv)) b a.

(** [str.isdigit] on U+0000..U+00FF: the ASCII digits and the superscripts
    one, two and three; false on the empty string. *)
Definition isdigit_char (c : ascii) : bool :=
  let n := nat_of_ascii c in
  (((48 <=? n) && (n <=? 57)) || (n =? 178) || (n =? 179) || (n =? 185))%nat.

Fixpoint all_chars (f : ascii -> bool) (s : string) : bool :=
  match s with
  | EmptyString => true
  | String c s' => f c && all_chars f s'
  end.

Definition isdigit (s : string) : bool := truthy_str s && all_chars isdigit_char s.

(** [s.split("\n")]. *)
Fixpoint split_lines (s : string) : list string :=
  match s with
  | EmptyString => [EmptyString]
  | String c s' =>
      if Ascii.eqb c (ascii_of_nat 10) then EmptyString :: split_lines s'
      else match split_lines s' with
           | l :: ls => String c l :: ls
           | [] => [String c EmptyString]
           end
  end.

(** [sep.join(parts)]. *)
Fixpoint join (sep : string) (parts : list string) : string :=
  match parts with
  | [] => EmptyString
  | [p] => p
  | p :: ps => p +:+ sep +:+ join sep ps
  end.

(** [s.replace("  ", " ")]: pairs of spaces, left to right, not
    overlapping. *)
Fixpoint replace_two_spaces (s : string) : string :=
  match s with
  | String " " (String " " s') => String " " (replace_two_spaces s')
  | String c s' => String c (replace_two_spaces s')
  | EmptyString => EmptyString
  end.

(** [re.escape]: a backslash before each special character. *)
Definition re_special (c : ascii) : bool :=
  existsb (Ascii.eqb c)
    (list_ascii_of_string "()[]{}?*+-|^$\.&~# "
     ++ List.map ascii_of_nat [9; 10; 13; 11; 12]%nat).

Fixpoint re_escape (s : string) : string :=
  match s with
  | EmptyString => EmptyString
  | String c s' =>
      if re_special c then String Json.backslash (String c (re_escape s'))
      else String c (re_escape s')
  end.

(** [s.replace(",", "")]. *)
Fixpoint remove_commas (s : string) : string :=
  match s with
  | EmptyString => EmptyString
  | String c s' =>
      if Ascii.eqb c "," then remove_commas s' else String c (remove_commas s')
  end.

(** [sys.get_int_max_str_digits()], as the interpreter starts with it: the
    longest run of digits that [int] reads, and the longest that [str]
    writes. *)
Definition int_max_str_digits : nat := 4300.

(** [int(g)] for a group matched by a run of decimal digits: [ValueError]
    on a run beyond the limit. *)
Definition int_of_digits (g : string) : outcome Z :=
  if (int_max_str_digits <? String.length g)%nat then
    Raise ValueError
      ("Exceeds the limit (4300 digits) for integer string conversion: value has "
       +:+ str_of_nat (String.length g)
       +:+ " digits; use sys.set_int_max_str_digits() to increase the limit")
  else Return (fst (fst (Json.read_digits 0 0 g))).

(** [int(m.group(1))] for every match in turn: the first refusal ends the
    loop. *)
Fixpoint ints_of_groups (matches : list (list string)) : outcome (list Z) :=
  match matches with
  | [] => Return []
  | groups :: rest =>
      match int_of_digits (group1 groups) with
      | Raise e msg => Raise e msg
      | Return n =>
          match ints_of_groups rest with
          | Raise e msg => Raise e msg
          | Return ns => Return (n :: ns)
          end
      end
  end.

(** [str(n)]: [ValueError] when [n] has more decimal digits than the
    limit. *)
Definition str_of_int (n : Z) : outcome string :=
  if (10 ^ Z.of_nat int_max_str_digits <=? Z.abs n)%Z then
    Raise ValueError
      "Exceeds the limit (4300 digits) for integer string conversion; use sys.set_int_max_str_digits() to increase the limit"
  else Return (str_of_Z n).

Section WithEngine.

Variable rx : Engine.

(** [MetadataExtractor._extract_pattern], with its default flags. *)
Fixpoint _extract_pattern (text : string) (patterns : list string)
  : option string :=
  match patterns with
  | [] => None
  | pattern :: rest =>
      match re_search rx pattern text IGNORECASE_MULTILINE with
      | Some groups => Some (strip (group1 groups))
      | None => _extract_pattern text rest
      end
  end.

(** [MetadataExtractor._extract_all_matches], with its default flags;
    [matches] is the list built so far. *)
Definition add_matches (matches : list string) (groups : list (list string))
  : list string :=
  fold_left
    (fun matches g =>
       let value := strip (group1 g) in
       if truthy_str value && negb (existsb (String.eqb value) matches)
       then matches ++ [value] else matches)
    groups matches.

Definition _extract_all_matches (text : string) (patterns : list string)
  : list string :=
  fold_left
    (fun matches pattern =>
       add_matches matches (re_finditer rx pattern text IGNORECASE_MULTILINE))
    patterns [].

(** [MetadataExtractor._parse_date]. *)
Definition date_formats : list string :=
  [ "%d/%m/%Y"; "%d-%m-%Y"; "%d.%m.%Y"; "%d/%m/%y"; "%d-%m-%y";
    "%d %B %Y"; "%d %b %Y"; "%B %Y"; "%b %Y" ].

Fixpoint try_formats (date_str : string) (formats : list string)
  : option datetime :=
  match formats with
  | [] => None
  | fmt :: rest =>
      match strptime rx date_str fmt with
      | Some d => Some d
      | None => try_formats date_str rest        (* except ValueError: continue *)
      end
  end.

Definition _parse_date (date_str : string) : option datetime :=
  try_formats (strip date_str) date_formats.

(** [MetadataExtractor._normalize_stage]. *)
Definition _normalize_stage (stage_str : string) : option string :=
  let stage_str := strip (lower stage_str) in
  if dict_mem RIBA_STAGES stage_str then
    let stage_num := dict_get RIBA_STAGES stage_str "" in
    if isdigit stage_num then Some ("RIBA Stage " +:+ stage_num)
    else Some stage_str
  else if isdigit stage_str && dict_mem RIBA_STAGES stage_str then
    Some ("RIBA Stage " +:+ stage_str)
  else Some (title stage_str).

(** The floor references of [_count_storeys]: pattern and level. *)
Definition floor_patterns : list (string * Z) :=
  [ ("basement", (-1)%Z); ("ground\s*floor", 0%Z); ("first\s*floor", 1%Z);
    ("second\s*floor", 2%Z); ("third\s*floor", 3%Z); ("fourth\s*floor", 4%Z);
    ("fifth\s*floor", 5%Z) ].

Definition max_list (l : list Z) : Z := fold_right Z.max (hd 0%Z l) l.
Definition min_list (l : list Z) : Z := fold_right Z.min (hd 0%Z l) l.

(** [MetadataExtractor._count_storeys]. *)
Definition _count_storeys (text : string) : outcome (option Z) :=
  (* Look for explicit count *)
  match re_search rx "(\d+)\s*(?:storey|story|floor)" text IGNORECASE with
  | Some groups =>
      match int_of_digits (group1 groups) with
      | Raise e msg => Raise e msg
      | Return n => Return (Some n)
      end
  | None =>
      (* Count floor references *)
      let named :=
        List.map snd
          (List.filter
             (fun pv => match re_search rx (fst pv) text IGNORECASE with
                        | Some _ => true | None => false end)
             floor_patterns) in
      match ints_of_groups (re_finditer rx "\+(\d+)" text IGNORECASE) with
      | Raise e msg => Raise e msg
      | Return numbered =>
          let floors := named ++ numbered in
          match floors with
          | [] => Return None
          | _ => Return (Some (max_list floors - min_list floors + 1)%Z)
          end
      end
  end.

(** [MetadataExtractor._extract_location]. *)
Definition _extract_location (text : string) : LocationInfo.t :=
  (* Extract postcode *)
  let postcode := _extract_pattern text (patterns_of "postcode") in
  let found := truthy_opt truthy_str postcode in
  let location_postcode :=
    match postcode with
    | Some p => if found then Some (replace_two_spaces (upper_ascii p)) else None
    | None => None
    end in
  (* Try to extract address (lines before postcode) *)
  let location_address :=
    match postcode with
    | Some p =>
        if found then
          let pattern :=
            "([A-Za-z0-9\s,\-'\.]+(?:\n[A-Za-z0-9\s,\-'\.]+)*)\s*"
            +:+ re_escape p in
          match re_search rx pattern text IGNORECASE_MULTILINE with
          | Some groups =>
              let address_lines := split_lines (strip (group1 groups)) in
              let address :=
                join ", "
                  (List.map strip
                     (List.filter (fun line => truthy_str (strip line))
                                  address_lines)) in
              if truthy_str address then Some (address +:+ ", " +:+ p)
              else None
          | None => None
          end
        else None
    | None => None
    end in
  {| LocationInfo.address := location_address;
     LocationInfo.postcode := location_postcode;
     LocationInfo.latitude := None; LocationInfo.longitude := None;
     LocationInfo.local_authority := None; LocationInfo.region := None;
     LocationInfo.country := Some "UK"; LocationInfo.what3words := None |}.

End WithEngine.

(** The weights of [_calculate_confidence]. *)
Definition weights : list (string * float) :=
  [ ("project_name", 0.20%float); ("project_number", 0.10%float);
    ("client_name", 0.10%float); ("architect", 0.10%float);
    ("location", 0.15%float); ("issue_date", 0.10%float);
    ("stage", 0.05%float); ("building_type", 0.10%float);
    ("gross_internal_area_m2", 0.05%float); ("storeys", 0.05%float) ].

Definition weight (field : string) : float := dict_get weights field 0%float.

(** [score += weights[field]] under its condition. *)
Definition add_if (cond : bool) (field : string) (score : float) : float :=
  if cond then (score + weight field)%float else score.

(** [metadata.location and (metadata.location.postcode or
    metadata.location.address)], as a condition. *)
Definition location_found (metadata : ProjectMetadata.t) : bool :=
  match ProjectMetadata.location metadata with
  | Some loc =>
      truthy_opt truthy_str (LocationInfo.postcode loc)
      || truthy_opt truthy_str (LocationInfo.address loc)
  | None => false
  end.

Definition truthy_Z (z : Z) : bool := negb (Z.eqb z 0).

(** [MetadataExtractor._calculate_confidence]. *)
Definition _calculate_confidence (metadata : ProjectMetadata.t) : float :=
  let score := 0%float in
  let score := add_if (truthy_opt truthy_str (ProjectMetadata.project_name metadata))
                      "project_name" score in
  let score := add_if (truthy_opt truthy_str (ProjectMetadata.project_number metadata))
                      "project_number" score in
  let score := add_if (truthy_opt truthy_str (ProjectMetadata.client_name metadata))
                      "client_name" score in
  let score := add_if (truthy_opt truthy_str (ProjectMetadata.architect metadata))
                      "architect" score in
  let score := add_if (location_found metadata) "location" score in
  let score := add_if (truthy_opt (fun _ => true) (ProjectMetadata.issue_date metadata))
                      "issue_date" score in
  let score := add_if (truthy_opt truthy_str (ProjectMetadata.stage metadata))
                      "stage" score in
  let score := add_if (truthy_opt truthy_str (ProjectMetadata.building_type metadata))
                      "building_type" score in
  let score := add_if (truthy_opt truthy_float
                         (ProjectMetadata.gross_internal_area_m2 metadata))
                      "gross_internal_area_m2" score in
  let score := add_if (truthy_opt truthy_Z (ProjectMetadata.storeys metadata))
                      "storeys" score in
  score.

Definition name : string := "metadata_extractor".

(** [raw_fields[key] = v] when [v] is truthy. *)
Definition record_field (key : string) (v : option string)
    (raw_fields : list (string * string)) : list (string * string) :=
  match v with
  | Some x => if truthy_str x then dict_set raw_fields key x else raw_fields
  | None => raw_fields
  end.

(** [text[:500] if len(text) > 500 else text]. *)
Definition first_500 (text : string) : string :=
  if (500 <? String.length text)%nat then substring 0 500 text else text.

(** [MetadataExtractor.execute]. *)
Definition execute (rx : Engine) (text : string)
    (source_description : option string)
  : outcome (ToolResult.t ExtractionResult.t) :=
  if negb (truthy_str text) || negb (truthy_str (strip text)) then
    Return (ToolResult.mk FAILED None
              [_create_error name "EMPTY_INPUT" "No text provided for extraction"
                             false None] [])
  else
    let raw_fields : list (string * string) := [] in
    (* Extract fields using patterns *)
    let project_name := _extract_pattern rx text (patterns_of "project_name") in
    let raw_fields := record_field "project_name" project_name raw_fields in
    let project_number := _extract_pattern rx text (patterns_of "project_number") in
    let raw_fields := record_field "project_number" project_number raw_fields in
    let client := _extract_pattern rx text (patterns_of "client") in
    let raw_fields := record_field "client" client raw_fields in
    let architect := _extract_pattern rx text (patterns_of "architect") in
    let raw_fields := record_field "architect" architect raw_fields in
    let structural := _extract_pattern rx text (patterns_of "structural_engineer") in
    let raw_fields := record_field "structural_engineer" structural raw_fields in
    (* Extract and parse date *)
    let date_str := _extract_pattern rx text (patterns_of "date") in
    let date_found := truthy_opt truthy_str date_str in
    let raw_fields := record_field "date" date_str raw_fields in
    let issue_date :=
      match date_str with
      | Some d => if date_found then _parse_date rx d else None
      | None => None
      end in
    let warnings_date :=
      match date_str, issue_date with
      | Some d, None => if date_found then ["Could not parse date: " +:+ d] else []
      | _, _ => []
      end in
    (* Extract stage *)
    let stage_str := _extract_pattern rx text (patterns_of "stage") in
    let raw_fields := record_field "stage" stage_str raw_fields in
    let stage :=
      match stage_str with
      | Some st => if truthy_str st then _normalize_stage st else None
      | None => None
      end in
    (* Extract GIA *)
    let gia_str := _extract_pattern rx text (patterns_of "gia") in
    let raw_fields := record_field "gia" gia_str raw_fields in
    let gia_found := truthy_opt truthy_str gia_str in
    let gia :=
      match gia_str with
      | Some g =>
          if gia_found
          then Json.float_of_str (remove_commas g)
          else None
      | None => None
      end in
    let warnings_gia :=
      match gia_str, gia with
      | Some g, None => if gia_found then ["Could not parse GIA: " +:+ g] else []
      | _, _ => []
      end in
    (* Extract storeys *)
    match _count_storeys rx text with
    | Raise e msg => Raise e msg
    | Return storeys =>
    match
      match storeys with
      | Some n =>
          if truthy_Z n then
            match str_of_int n with
            | Raise e msg => Raise e msg
            | Return digits => Return (dict_set raw_fields "storeys" digits)
            end
          else Return raw_fields
      | None => Return raw_fields
      end
    with
    | Raise e msg => Raise e msg
    | Return raw_fields =>
    (* Extract location *)
    let location := _extract_location rx text in
    let raw_fields := record_field "postcode" (LocationInfo.postcode location)
                                   raw_fields in
    (* Build metadata object *)
    let metadata :=
      {| ProjectMetadata.project_name := project_name;
         ProjectMetadata.project_number := project_number;
         ProjectMetadata.client_name := client;
         ProjectMetadata.architect := architect;
         ProjectMetadata.architect_reference := None;
         ProjectMetadata.structural_engineer := structural;
         ProjectMetadata.location :=
           if truthy_opt truthy_str (LocationInfo.postcode location)
              || truthy_opt truthy_str (LocationInfo.address location)
           then Some location else None;
         ProjectMetadata.issue_date := issue_date;
         ProjectMetadata.stage := stage;
         ProjectMetadata.building_type := None;
         ProjectMetadata.gross_internal_area_m2 := gia;
         ProjectMetadata.storeys := storeys;
         ProjectMetadata.procurement_route := None;
         ProjectMetadata.contract_type := None;
         ProjectMetadata.raw_extracted_fields := raw_fields |} in
    (* Calculate confidence *)
    let confidence := _calculate_confidence metadata in
    let result :=
      {| ExtractionResult.metadata := metadata;
         ExtractionResult.extraction_sources :=
           match source_description with
           | Some d => if truthy_str d then [d] else []
           | None => []
           end;
         ExtractionResult.confidence := confidence;
         ExtractionResult.raw_text_used := Some (first_500 text) |} in
    (* Determine status *)
    if PrimFloat.ltb confidence 0.2%float then
      Return (ToolResult.mk PARTIAL (Some result) []
                (warnings_date ++ warnings_gia
                 ++ ["Low extraction confidence - limited metadata found"]))
    else
      Return (ToolResult.mk SUCCESS (Some result) []
                (warnings_date ++ warnings_gia))
    end
    end.

(** One entry of the [pages] argument of [extract_from_pages]: a dictionary
    with the keys [text], [page_number] and [source]. *)
Record PageDict : Type := {
  pd_text : string;
  pd_page_number : Z;
  pd_source : string
}.

(** ["\n\n".join(p.get("text", "") for p in pages if p.get("text"))]. *)
Definition join_texts (pages : list PageDict) : string :=
  let nl := String (ascii_of_nat 10) (String (ascii_of_nat 10) EmptyString) in
  join nl (List.map pd_text (List.filter (fun p => truthy_str (pd_text p)) pages)).

(** [a or b] on two optional values of which any present one is truthy. *)
Definition or_present {A} (a b : option A) : option A :=
  match a with Some _ => a | None => b end.

(** [MetadataExtractor.extract_from_pages]. *)
Definition extract_from_pages (rx : Engine) (pages : list PageDict)
  : outcome (ToolResult.t ExtractionResult.t) :=
  match pages with
  | [] =>
      Return (ToolResult.mk FAILED None
                [_create_error name "EMPTY_INPUT" "No pages provided" false None] [])
  | _ =>
      (* Combine text from all pages *)
      let combined_text := join_texts pages in
      (* Also try to find metadata in first few pages (title blocks) *)
      let priority_text := join_texts (firstn 3 pages) in
      (* Extract from priority pages first *)
      match execute rx priority_text (Some "First 3 pages (title blocks)") with
      | Raise e msg => Raise e msg
      | Return result =>
      (* If low confidence, try full document *)
      match ToolResult.success result, ToolResult.data result with
      | true, Some data =>
          if PrimFloat.ltb (ExtractionResult.confidence data) 0.5%float then
            match execute rx combined_text (Some "Full document") with
            | Raise e msg => Raise e msg
            | Return full_result =>
            match ToolResult.success full_result, ToolResult.data full_result with
            | true, Some full_data =>
                (* Merge results, preferring priority extraction *)
                let priority_meta := ExtractionResult.metadata data in
                let full_meta := ExtractionResult.metadata full_data in
                let merged :=
                  {| ProjectMetadata.project_name :=
                       py_or truthy_str (ProjectMetadata.project_name priority_meta)
                                        (ProjectMetadata.project_name full_meta);
                     ProjectMetadata.project_number :=
                       py_or truthy_str (ProjectMetadata.project_number priority_meta)
                                        (ProjectMetadata.project_number full_meta);
                     ProjectMetadata.client_name :=
                       py_or truthy_str (ProjectMetadata.client_name priority_meta)
                                        (ProjectMetadata.client_name full_meta);
                     ProjectMetadata.architect :=
                       py_or truthy_str (ProjectMetadata.architect priority_meta)
                                        (ProjectMetadata.architect full_meta);
                     ProjectMetadata.architect_reference := None;
                     ProjectMetadata.structural_engineer :=
                       py_or truthy_str
                         (ProjectMetadata.structural_engineer priority_meta)
                         (ProjectMetadata.structural_engineer full_meta);
                     ProjectMetadata.location :=
                       or_present (ProjectMetadata.location priority_meta)
                                  (ProjectMetadata.location full_meta);
                     ProjectMetadata.issue_date :=
                       or_present (ProjectMetadata.issue_date priority_meta)
                                  (ProjectMetadata.issue_date full_meta);
                     ProjectMetadata.stage :=
                       py_or truthy_str (ProjectMetadata.stage priority_meta)
                                        (ProjectMetadata.stage full_meta);
                     ProjectMetadata.building_type :=
                       py_or truthy_str (ProjectMetadata.building_type priority_meta)
                                        (ProjectMetadata.building_type full_meta);
                     ProjectMetadata.gross_internal_area_m2 :=
                       py_or truthy_float
                         (ProjectMetadata.gross_internal_area_m2 priority_meta)
                         (ProjectMetadata.gross_internal_area_m2 full_meta);
                     ProjectMetadata.storeys :=
                       py_or truthy_Z (ProjectMetadata.storeys priority_meta)
                                      (ProjectMetadata.storeys full_meta);
                     ProjectMetadata.procurement_route := None;
                     ProjectMetadata.contract_type := None;
                     ProjectMetadata.raw_extracted_fields :=
                       dict_merge (ProjectMetadata.raw_extracted_fields full_meta)
                                  (ProjectMetadata.raw_extracted_fields priority_meta)
                  |} in
                let confidence := _calculate_confidence merged in
                Return
                  (ToolResult.mk
                     (if PrimFloat.leb 0.2%float confidence then SUCCESS else PARTIAL)
                     (Some {| ExtractionResult.metadata := merged;
                              ExtractionResult.extraction_sources :=
                                ["First 3 pages"; "Full document"];
                              ExtractionResult.confidence := confidence;
                              ExtractionResult.raw_text_used := None |})
                     []
                     (ToolResult.warnings result ++ ToolResult.warnings full_result))
            | _, _ => Return result
            end
            end
          else Return result
      | _, _ => Return result
      end
      end
  end.


End Extractor.

(* ===================================================================== *)
(** * tools/geocoder/geocoder.py *)
(* ===================================================================== *)

Module Geocoder.

Module GeocodingResult.
Record t : Type := mk {
  location : LocationInfo.t;
  source : string;                 (* which geocoding service was used *)
  raw_response : option json;
  match_quality : string           (* "exact", "partial", "approximate" *)
}.
End GeocodingResult.

(** ** [UK_POSTCODE_PATTERN] *)

Definition is_letter (c : ascii) : bool := is_ascii_upper c || is_ascii_lower c.
Definition is_alnum (c : ascii) : bool := Json.is_digit c || is_letter c.

(** The inward part and the end of the text: white space, a digit, two
    letters, nothing more.  Gives the inward part. *)
Definition match_inward (s : string) : option string :=
  match lstrip s with
  | String d (String l1 (String l2 EmptyString)) =>
      if Json.is_digit d && is_letter l1 && is_letter l2
      then Some (String d (String l1 (String l2 EmptyString)))
      else None
  | _ => None
  end.

(** After the letters of the outward part: a digit, an optional digit or
    letter (tried first with it, then without), then the inward part. *)
Definition match_after_letters (letters s : string) : option (string * string) :=
  match s with
  | String d s1 =>
      if Json.is_digit d then
        let with_optional :=
          match s1 with
          | String x s2 =>
              if is_alnum x then
                match match_inward s2 with
                | Some inward =>
                    Some (letters +:+ String d (String x EmptyString), inward)
                | None => None
                end
              else None
          | EmptyString => None
          end in
        match with_optional with
        | Some r => Some r
        | None =>
            match match_inward s1 with
            | Some inward => Some (letters +:+ String d EmptyString, inward)
            | None => None
            end
        end
      else None
  | EmptyString => None
  end.

(** [UK_POSTCODE_PATTERN.match(s)] for a stripped [s]: groups 1 and 2.  The
    pattern is, under IGNORECASE and anchored at both ends: one or two
    letters (two tried first), a digit, an optional digit or letter; white
    space; a digit and two letters. *)
Definition postcode_match (s : string) : option (string * string) :=
  match s with
  | String a s1 =>
      if is_letter a then
        let two_letters :=
          match s1 with
          | String b s2 =>
              if is_letter b
              then match_after_letters (String a (String b EmptyString)) s2
              else None
          | EmptyString => None
          end in
        match two_letters with
        | Some r => Some r
        | None => match_after_letters (String a EmptyString) s1
        end
      else None
  | EmptyString => None
  end.

(** [Geocoder._normalize_postcode].  [upper_ascii] is [str.upper] on the
    texts that can match. *)
Definition _normalize_postcode (postcode : string) : option string :=
  let postcode := upper_ascii (strip postcode) in
  match postcode_match postcode with
  | Some (g1, g2) => Some (g1 +:+ " " +:+ g2)
  | None => None
  end.

(** [Geocoder._is_uk_postcode]. *)
Definition _is_uk_postcode (text : string) : bool :=
  match postcode_match (strip text) with Some _ => true | None => false end.

(** ** The geocoder, its cache and the providers *)

(** The configuration read by [__init__]. *)
Record Geocoder : Type := {
  primary_provider : string;
  google_api_key : option string
}.

(** [Geocoder.__init__], from the configuration's two keys. *)
Definition init (config_provider : option string)
    (config_google_api_key : option string) : Geocoder :=
  {| primary_provider := default "postcodes_io" config_provider;
     google_api_key := config_google_api_key |}.

(** The three services.  Each function stands for one HTTP exchange and the
    reading of its answer into a [GeocodingResult]; it raises what the
    exchange or the reading raises. *)
Record Providers : Type := {
  ask_postcodes_io : string -> outcome GeocodingResult.t;   (* normalized postcode *)
  ask_nominatim : string -> outcome GeocodingResult.t;      (* address *)
  ask_google : string -> string -> outcome GeocodingResult.t  (* address, key *)
}.

(** A contact with a provider, as seen from outside. *)
Inductive Contact : Type :=
| ContactPostcodesIo (normalized : string)
| ContactNominatim (address : string)
| ContactGoogle (address : string).

(** [Geocoder._geocode_postcodes_io]. *)
Definition _geocode_postcodes_io (w : Providers) (postcode : string)
  : outcome GeocodingResult.t * list Contact :=
  match _normalize_postcode postcode with
  | None =>
      (Raise ValueError ("Invalid UK postcode format: " +:+ postcode), [])
  | Some normalized =>
      (ask_postcodes_io w normalized, [ContactPostcodesIo normalized])
  end.

(** [Geocoder._geocode_nominatim]. *)
Definition _geocode_nominatim (w : Providers) (address : string)
  : outcome GeocodingResult.t * list Contact :=
  (ask_nominatim w address, [ContactNominatim address]).

(** [Geocoder._geocode_google]. *)
Definition _geocode_google (w : Providers) (self : Geocoder) (address : string)
  : outcome GeocodingResult.t * list Contact :=
  match google_api_key self with
  | Some key =>
      if truthy_str key then (ask_google w address key, [ContactGoogle address])
      else (Raise ValueError "Google API key not configured", [])
  | None => (Raise ValueError "Google API key not configured", [])
  end.

Definition name : string := "geocoder".

(** [provider or self.primary_provider]. *)
Definition provider_or_primary (self : Geocoder) (provider : option string)
  : string :=
  match provider with
  | Some p => if truthy_str p then p else primary_provider self
  | None => primary_provider self
  end.

(** The cache key of a call: [f"{query.lower()}:{provider or
    self.primary_provider}"], [query] being stripped. *)
Definition cache_key (self : Geocoder) (query : string)
    (provider : option string) : string :=
  lower (strip query) +:+ ":" +:+ provider_or_primary self provider.

(** [except ValueError] also catches its subclasses. *)
Definition is_ValueError (e : exn) : bool :=
  match e with ValueError | JSONDecodeError => true | _ => false end.

(** What one call of [execute] leaves behind: its result, the cache after
    it, and the providers it contacted. *)
Record Step : Type := {
  result : ToolResult.t GeocodingResult.t;
  cache_after : gmap string GeocodingResult.t;
  contacted : list Contact
}.

(** [Geocoder.execute]; [cache] is [self.cache] before the call. *)
Definition execute (w : Providers) (self : Geocoder)
    (cache : gmap string GeocodingResult.t)
    (query : string) (provider : option string) : Step :=
  let query := strip query in
  if negb (truthy_str query) then
    {| result := ToolResult.mk FAILED None
                   [_create_error name "EMPTY_QUERY"
                      "No address or postcode provided" false None] [];
       cache_after := cache; contacted := [] |}
  else
    (* Check cache *)
    let cache_key :=
      lower query +:+ ":" +:+ provider_or_primary self provider in
    match cache !! cache_key with
    | Some hit =>
        {| result := ToolResult.mk SUCCESS (Some hit) [] [];
           cache_after := cache; contacted := [] |}
    | None =>
        let provider := provider_or_primary self provider in
        (* Determine best provider based on input *)
        let attempt : option (list string * (outcome GeocodingResult.t * list Contact)) :=
          if _is_uk_postcode query then
            (* Use postcodes.io for UK postcodes *)
            Some (if String.eqb provider "postcodes_io" then []
                  else ["Using postcodes.io for UK postcode (requested: "
                        +:+ provider +:+ ")"],
                  _geocode_postcodes_io w query)
          else if String.eqb provider "postcodes_io" then
            None        (* Not a postcode but postcodes.io requested *)
          else if String.eqb provider "google" then
            if negb (truthy_opt truthy_str (google_api_key self))
            then Some (["Google API key not configured, falling back to Nominatim"],
                       _geocode_nominatim w query)
            else Some ([], _geocode_google w self query)
          else Some ([], _geocode_nominatim w query)   (* nominatim or unknown *)
        in
        match attempt with
        | None =>
            {| result :=
                 ToolResult.mk FAILED None
                   [_create_error name "INVALID_INPUT"
                      "postcodes.io requires a valid UK postcode" true None]
                   ["Try using 'nominatim' or 'google' provider for addresses"];
               cache_after := cache; contacted := [] |}
        | Some (warnings, (Return res, contacts)) =>
            (* Cache result *)
            {| result :=
                 ToolResult.mk SUCCESS (Some res) []
                   (warnings ++
                    (* Add warning for non-exact matches *)
                    (if String.eqb (GeocodingResult.match_quality res) "exact"
                     then []
                     else ["Match quality: "
                           +:+ GeocodingResult.match_quality res]));
               cache_after := <[cache_key := res]> cache;
               contacted := contacts |}
        | Some (_, (Raise e msg, contacts)) =>
            {| result :=
                 if is_ValueError e then
                   ToolResult.mk FAILED None
                     [_create_error name "NOT_FOUND" msg true None] []
                 else
                   ToolResult.mk FAILED None
                     [_create_error name "GEOCODING_ERROR"
                        ("Geocoding failed: " +:+ msg) true
                        (Some [("exception", exn_name e)])] [];
               cache_after := cache; contacted := contacts |}
        end
    end.

(** [location.postcode or location.address]. *)
Definition enrich_query (location : LocationInfo.t) : option string :=
  py_or truthy_str (LocationInfo.postcode location) (LocationInfo.address location).

(** [Geocoder.enrich_location]: the result and the step of the [execute]
    call it made, if any. *)
Definition enrich_location (w : Providers) (self : Geocoder)
    (cache : gmap string GeocodingResult.t) (location : LocationInfo.t)
  : ToolResult.t LocationInfo.t * gmap string GeocodingResult.t * list Contact :=
  if negb (truthy_opt truthy_str (LocationInfo.postcode location))
     && negb (truthy_opt truthy_str (LocationInfo.address location))
  then
    (ToolResult.mk PARTIAL (Some location) []
       ["No postcode or address to enrich from"], cache, [])
  else
    let query := default "" (enrich_query location) in
    let step := execute w self cache query None in
    let res := result step in
    match ToolResult.success res, ToolResult.data res with
    | true, Some data =>
        let geocoded := GeocodingResult.location data in
        (* Merge: keep original values if present, add geocoded ones *)
        let enriched :=
          {| LocationInfo.address :=
               py_or truthy_str (LocationInfo.address location)
                                (LocationInfo.address geocoded);
             LocationInfo.postcode :=
               py_or truthy_str (LocationInfo.postcode location)
                                (LocationInfo.postcode geocoded);
             LocationInfo.latitude := LocationInfo.latitude geocoded;
             LocationInfo.longitude := LocationInfo.longitude geocoded;
             LocationInfo.local_authority :=
               py_or truthy_str (LocationInfo.local_authority location)
                                (LocationInfo.local_authority geocoded);
             LocationInfo.region :=
               py_or truthy_str (LocationInfo.region location)
                                (LocationInfo.region geocoded);
             LocationInfo.country :=
               py_or truthy_str (LocationInfo.country location)
                                (LocationInfo.country geocoded);
             LocationInfo.what3words := LocationInfo.what3words location |} in
        (ToolResult.mk SUCCESS (Some enriched) [] (ToolResult.warnings res),
         cache_after step, contacted step)
    | _, _ =>
        (ToolResult.mk PARTIAL (Some location) (ToolResult.errors res)
           (ToolResult.warnings res ++ ["Could not enrich location"]),
         cache_after step, contacted step)
    end.

End Geocoder.
(* ===================================================================== *)
(** * agents/intake_analyst.py: the completeness assessment *)
(* ===================================================================== *)

Module Intake.

(** [IntakeAnalyst.REQUIRED_DRAWINGS]. *)
Definition REQUIRED_DRAWINGS : list (string * list DrawingType) :=
  [ ("new_build_residential", [SITE_PLAN; FLOOR_PLAN; ELEVATION; SECTION]);
    ("new_build_commercial",
       [SITE_PLAN; FLOOR_PLAN; ELEVATION; SECTION; ROOF_PLAN]);
    ("refurbishment", [FLOOR_PLAN; DEMOLITION]);
    ("default", [FLOOR_PLAN]) ].

(** [self.REQUIRED_DRAWINGS.get(self.project_type,
    self.REQUIRED_DRAWINGS["default"])]. *)
Definition required_list (project_type : string) : list DrawingType :=
  dict_get REQUIRED_DRAWINGS project_type
           (dict_get REQUIRED_DRAWINGS "default" []).

(** [IntakeAnalyst._get_missing_impact]. *)
Definition _get_missing_impact (drawing_type : DrawingType) : string :=
  match drawing_type with
  | FLOOR_PLAN =>
      "Cannot measure floor areas, partitions, doors, or internal elements"
  | SITE_PLAN =>
      "Cannot measure external works, site area, or verify building position"
  | ELEVATION => "Cannot measure external wall areas, windows, or cladding"
  | SECTION =>
      "Cannot verify floor-to-floor heights or construction build-ups"
  | ROOF_PLAN => "Cannot measure roof area or rainwater goods"
  | DEMOLITION =>
      "Cannot identify extent of demolition works for refurbishment"
  | SCHEDULE => "Must count elements manually from drawings"
  | STRUCTURAL => "Cannot verify foundation type or structural frame"
  | _ => "May affect measurement accuracy"
  end.

(** The [MissingItem] appended for one missing required drawing type. *)
Definition missing_drawing_item (missing_type : DrawingType) : MissingItem.t :=
  let severity :=
    if bool_decide (missing_type = FLOOR_PLAN \/ missing_type = SITE_PLAN)
    then "critical" else "important" in
  let impact := _get_missing_impact missing_type in
  {| MissingItem.item_type := "drawing";
     MissingItem.description :=
       title (replace_char "_" " " (value missing_type)) +:+ " drawing";
     MissingItem.severity := severity;
     MissingItem.impact := impact;
     MissingItem.recommendation :=
       "Request " +:+ replace_char "_" " " (value missing_type)
       +:+ " from architect" |}.

(** [metadata.location and metadata.location.postcode], as a condition. *)
Definition has_postcode (metadata : ProjectMetadata.t) : bool :=
  match ProjectMetadata.location metadata with
  | Some loc => truthy_opt truthy_str (LocationInfo.postcode loc)
  | None => false
  end.

Definition is_critical (m : MissingItem.t) : bool :=
  String.eqb (MissingItem.severity m) "critical".

Definition key_drawing_type (t : DrawingType) : bool :=
  bool_decide (t = FLOOR_PLAN \/ t = ELEVATION \/ t = SECTION).

(** [IntakeAnalyst._assess_completeness]; [project_type] is
    [self.project_type]. *)
Definition _assess_completeness (project_type : string)
    (project_id : string) (drawings : list DrawingInfo.t)
    (metadata : ProjectMetadata.t) : CompletenessReport.t :=
  (* What drawing types do we have? *)
  let present_types : gset DrawingType :=
    list_to_set
      (List.map DrawingInfo.drawing_type
         (List.filter
            (fun d => negb (bool_decide (DrawingInfo.drawing_type d = UNKNOWN)))
            drawings)) in
  let schedules_present := bool_decide (SCHEDULE ∈ present_types) in
  let specifications_present := bool_decide (SPECIFICATION ∈ present_types) in
  (* What's required for this project type? *)
  let required : gset DrawingType := list_to_set (required_list project_type) in
  (* What's missing? *)
  let missing_types := required ∖ present_types in
  let items_drawings := List.map missing_drawing_item (elements missing_types) in
  (* Check metadata completeness *)
  let items_name :=
    if negb (truthy_opt truthy_str (ProjectMetadata.project_name metadata))
    then [ {| MissingItem.item_type := "metadata";
              MissingItem.description := "Project name not identified";
              MissingItem.severity := "minor";
              MissingItem.impact := "Project identification may be unclear";
              MissingItem.recommendation :=
                "Confirm project name with client" |} ]
    else [] in
  let items_location :=
    if negb (has_postcode metadata)
    then [ {| MissingItem.item_type := "metadata";
              MissingItem.description :=
                "Site location/postcode not identified";
              MissingItem.severity := "important";
              MissingItem.impact :=
                "Cannot determine regional pricing factors";
              MissingItem.recommendation :=
                "Request site address from client" |} ]
    else [] in
  let missing_items := items_drawings ++ items_name ++ items_location in
  (* Check drawing quality *)
  let low_confidence :=
    List.filter (fun d => PrimFloat.ltb (DrawingInfo.confidence d) 0.5%float)
                drawings in
  let warnings_low :=
    match low_confidence with
    | [] => []
    | _ => [ str_of_nat (length low_confidence)
             +:+ " drawings have low classification confidence - manual review recommended" ]
    end in
  let no_dimensions :=
    List.filter
      (fun d => negb (truthy_json (DrawingInfo.dimensions_present d))
                && key_drawing_type (DrawingInfo.drawing_type d))
      drawings in
  let warnings_dims :=
    match no_dimensions with
    | [] => []
    | _ => [ str_of_nat (length no_dimensions)
             +:+ " key drawings appear to lack dimensions" ]
    end in
  (* Calculate completeness percentage *)
  let total_checks := (size required + 3)%nat in
  let passed_checks :=
    (size (required ∖ missing_types)
     + (if truthy_opt truthy_str (ProjectMetadata.project_name metadata)
        then 1 else 0)
     + (if has_postcode metadata then 1 else 0)
     + (if truthy_opt truthy_str (ProjectMetadata.architect metadata)
        then 1 else 0))%nat in
  let overall_completeness_pct :=
    if (0 <? total_checks)%nat
    then (float_of_nat passed_checks / float_of_nat total_checks * 100)%float
    else 0%float in
  (* Determine status and recommendation *)
  let critical_missing := List.filter is_critical missing_items in
  let verdict : string * string * list string :=
    (* (status, proceed_recommendation, hold_reasons) *)
    match critical_missing with
    | _ :: _ =>
        ("critical_gaps", "hold",
         List.map MissingItem.description critical_missing)
    | [] =>
        if PrimFloat.leb 80%float overall_completeness_pct
        then ("complete", "proceed", [])
        else ("incomplete", "proceed_with_caution",
              [ "Completeness at " +:+ format_0f overall_completeness_pct
                +:+ "% - some assumptions may be required" ])
    end in
  {| CompletenessReport.project_id := project_id;
     CompletenessReport.overall_completeness_pct := overall_completeness_pct;
     CompletenessReport.status := fst (fst verdict);
     CompletenessReport.drawing_types_present := elements present_types;
     CompletenessReport.specifications_present := specifications_present;
     CompletenessReport.schedules_present := schedules_present;
     CompletenessReport.missing_items := missing_items;
     CompletenessReport.warnings := warnings_low ++ warnings_dims;
     CompletenessReport.notes := [];
     CompletenessReport.proceed_recommendation := snd (fst verdict);
     CompletenessReport.hold_reasons := snd verdict |}.

(** [IntakeAnalyst._create_empty_completeness]. *)
Definition _create_empty_completeness (project_id : string)
  : CompletenessReport.t :=
  let report := CompletenessReport.default project_id in
  {| CompletenessReport.project_id := CompletenessReport.project_id report;
     CompletenessReport.overall_completeness_pct :=
       CompletenessReport.overall_completeness_pct report;
     CompletenessReport.status := "critical_gaps";
     CompletenessReport.drawing_types_present :=
       CompletenessReport.drawing_types_present report;
     CompletenessReport.specifications_present :=
       CompletenessReport.specifications_present report;
     CompletenessReport.schedules_present :=
       CompletenessReport.schedules_present report;
     CompletenessReport.missing_items :=
       CompletenessReport.missing_items report;
     CompletenessReport.warnings := CompletenessReport.warnings report;
     CompletenessReport.notes := CompletenessReport.notes report;
     CompletenessReport.proceed_recommendation := "hold";
     CompletenessReport.hold_reasons := ["No documents processed"] |}.

(** [IntakeAnalyst._create_empty_scope]. *)
Definition _create_empty_scope (project_id : string) : MeasurementScope.t :=
  let scope := MeasurementScope.default project_id in
  {| MeasurementScope.project_id := MeasurementScope.project_id scope;
     MeasurementScope.measurable_elements :=
       MeasurementScope.measurable_elements scope;
     MeasurementScope.unmeasurable_elements :=
       MeasurementScope.unmeasurable_elements scope;
     MeasurementScope.coverage_summary :=
       "No drawings available for measurement";
     MeasurementScope.recommended_assumptions :=
       MeasurementScope.recommended_assumptions scope;
     MeasurementScope.exclusions := MeasurementScope.exclusions scope |}.

(** [IntakeAnalyst.MEASUREMENT_POTENTIAL]. *)
Definition MEASUREMENT_POTENTIAL : list (DrawingType * list string) :=
  [ (FLOOR_PLAN,
      [ "Gross Internal Floor Area (GIFA)"; "Net Internal Area (NIA)";
        "Room areas"; "Wall lengths (internal)"; "Door positions and counts";
        "Window positions"; "Partition lengths" ]);
    (SITE_PLAN,
      [ "Site area"; "Building footprint"; "Hard landscaping areas";
        "Soft landscaping areas"; "Boundary lengths"; "Parking spaces";
        "Access road lengths" ]);
    (ELEVATION,
      [ "External wall areas"; "Window areas and counts";
        "Door areas and counts"; "Cladding areas"; "Building height" ]);
    (SECTION,
      [ "Floor-to-floor heights"; "Floor construction depths";
        "Roof construction depth"; "Foundation depths"; "Stair flights" ]);
    (ROOF_PLAN,
      [ "Roof area"; "Roof perimeter"; "Rainwater goods"; "Rooflights" ]);
    (REFLECTED_CEILING,
      [ "Ceiling areas"; "Ceiling grid"; "Light fittings count";
        "Access panels" ]);
    (SCHEDULE,
      [ "Door schedule quantities"; "Window schedule quantities";
        "Finish schedule"; "Room data" ]);
    (STRUCTURAL,
      [ "Foundation types/sizes"; "Beam sizes"; "Column positions";
        "Slab thicknesses" ]);
    (DETAIL, [ "Construction build-ups"; "Material specifications" ]) ].

(** [self.MEASUREMENT_POTENTIAL[t]] when [t in self.MEASUREMENT_POTENTIAL]. *)
Fixpoint potential_of (table : list (DrawingType * list string))
    (t : DrawingType) : option (list string) :=
  match table with
  | [] => None
  | (k, v) :: rest => if bool_decide (k = t) then Some v else potential_of rest t
  end.

Module IntakeResult.
Record t : Type := mk {
  project_id : string;
  manifest : DocumentManifest.t;
  completeness : CompletenessReport.t;
  measurement_scope : MeasurementScope.t;
  errors : list ToolError.t;
  warnings : list string
}.
End IntakeResult.

(** The analyst: its configuration and the configurations of its tools. *)
Record IntakeAnalyst : Type := {
  output_dir : string;
  project_type : string;
  pdf_parser : PdfParser.PDFParser;
  classifier : Classifier.DrawingClassifier;
  geocoder : Geocoder.Geocoder
}.

(** The configuration dictionary of [IntakeAnalyst.__init__], by key. *)
Record Config : Type := {
  cfg_output_dir : option string;
  cfg_project_type : option string;
  cfg_vision_provider : option string;
  cfg_vision_model : option string;
  cfg_anthropic_api_key : option string;
  cfg_openai_api_key : option string;
  cfg_google_api_key : option string
}.

(** [IntakeAnalyst.__init__]. *)
Definition init (config : Config) : IntakeAnalyst :=
  let out := default "./intake_output" (cfg_output_dir config) in
  let '(vision_provider, vision_key) :=
    if truthy_opt truthy_str (cfg_anthropic_api_key config)
    then (Some "anthropic", cfg_anthropic_api_key config)
    else if truthy_opt truthy_str (cfg_openai_api_key config)
    then (Some "openai", cfg_openai_api_key config)
    else (Some (default "claude" (cfg_vision_provider config)), None) in
  {| output_dir := out;
     project_type := default "default" (cfg_project_type config);
     pdf_parser :=
       {| PdfParser.output_dir := Some (out +:+ "/images");
          PdfParser.extract_images := true;
          PdfParser.image_dpi := 150;
          PdfParser.image_format := "png" |};
     classifier :=
       Classifier.init vision_provider
         (Some (default "claude-sonnet-4-20250514" (cfg_vision_model config)))
         vision_key;
     geocoder :=
       if truthy_opt truthy_str (cfg_google_api_key config)
       then Geocoder.init (Some "google") (cfg_google_api_key config)
       else Geocoder.init None None |}.

(** What lies outside the program. *)
Record World : Type := {
  fs : PdfParser.FileSystem;
  vision : Classifier.Vision;
  engine : Extractor.Engine;
  providers : Geocoder.Providers;
  json_loads : string -> outcome json;
  float_of_str : string -> option float;
  (** [str(uuid.uuid4())[:8].upper()] *)
  fresh_id : string
}.

(** The steps of [analyze], as they are carried out. *)
Inductive Event : Type :=
| EvMkdir (dir : string)
| EvParse (input_path : string)                      (* step 1 *)
| EvExtractMetadata (pages : nat)                    (* step 2 *)
| EvGeocode (contacts : list Geocoder.Contact)       (* step 3 *)
| EvClassify (file : string) (images : nat)          (* step 4 *)
| EvManifest                                         (* step 5 *)
| EvCompleteness                                     (* step 6 *)
| EvScope                                            (* step 7 *)
| EvSave (project_dir : string)
         (manifest : DocumentManifest.t)
         (completeness : CompletenessReport.t)
         (scope : MeasurementScope.t).               (* step 8 *)

(** Whether an event belongs to one of the steps 2 to 8. *)
Definition later_step (e : Event) : bool :=
  match e with
  | EvMkdir _ | EvParse _ => false
  | _ => true
  end.

Section Analyze.

(** [IntakeAnalyst._determine_scope], on which no property below depends:
    it is a parameter here. *)
Variable _determine_scope : string -> list DrawingInfo.t -> MeasurementScope.t.

Variable w : World.
Variable self : IntakeAnalyst.

(** Step 1: the parsed documents, with the errors and warnings of the
    parse. *)
Definition parse_input (input_path : string)
  : outcome (list PdfParser.PDFParserResult.t * list ToolError.t * list string) :=
  if PdfParser.f_is_file (PdfParser.lookup_path (fs w) input_path) then
    match PdfParser.execute (fs w) (pdf_parser self) input_path
                            (Some (output_dir self +:+ "/images")) None with
    | Raise e msg => Raise e msg
    | Return pdf_result =>
        Return (match ToolResult.success pdf_result, ToolResult.data pdf_result with
                | true, Some d => [d]
                | _, _ => []
                end,
                ToolResult.errors pdf_result, ToolResult.warnings pdf_result)
    end
  else
    match PdfParser.parse_directory (fs w) (pdf_parser self) input_path
                                    (Some (output_dir self +:+ "/images")) true with
    | Raise e msg => Raise e msg
    | Return batch_result =>
        Return (match ToolResult.success batch_result, ToolResult.data batch_result with
                | true, Some ds => ds
                | _, _ => []
                end,
                ToolResult.errors batch_result, ToolResult.warnings batch_result)
    end.

(** Step 2: the page dictionaries handed to the extractor. *)
Definition all_pages_of (pdf_results : list PdfParser.PDFParserResult.t)
  : list Extractor.PageDict :=
  List.concat
    (List.map
       (fun pdf =>
          List.map
            (fun page =>
               {| Extractor.pd_text := PdfParser.PageContent.text page;
                  Extractor.pd_page_number := PdfParser.PageContent.page_number page;
                  Extractor.pd_source := PdfParser.PDFParserResult.file_name pdf |})
            (PdfParser.PDFParserResult.pages pdf))
       pdf_results).

(** [project_metadata.location = data]. *)
Definition set_location (m : ProjectMetadata.t) (loc : LocationInfo.t)
  : ProjectMetadata.t :=
  {| ProjectMetadata.project_name := ProjectMetadata.project_name m;
     ProjectMetadata.project_number := ProjectMetadata.project_number m;
     ProjectMetadata.client_name := ProjectMetadata.client_name m;
     ProjectMetadata.architect := ProjectMetadata.architect m;
     ProjectMetadata.architect_reference := ProjectMetadata.architect_reference m;
     ProjectMetadata.structural_engineer := ProjectMetadata.structural_engineer m;
     ProjectMetadata.location := Some loc;
     ProjectMetadata.issue_date := ProjectMetadata.issue_date m;
     ProjectMetadata.stage := ProjectMetadata.stage m;
     ProjectMetadata.building_type := ProjectMetadata.building_type m;
     ProjectMetadata.gross_internal_area_m2 :=
       ProjectMetadata.gross_internal_area_m2 m;
     ProjectMetadata.storeys := ProjectMetadata.storeys m;
     ProjectMetadata.procurement_route := ProjectMetadata.procurement_route m;
     ProjectMetadata.contract_type := ProjectMetadata.contract_type m;
     ProjectMetadata.raw_extracted_fields :=
       ProjectMetadata.raw_extracted_fields m |}.

(** The drawing of page [i + 1]: the classification, its image path and
    the measurement potential of its type. *)
Definition drawing_of (pdf : PdfParser.PDFParserResult.t)
    (image_paths : list string) (i : nat)
    (classification : Classifier.ClassificationResult.t) : DrawingInfo.t :=
  let d := Classifier.ClassificationResult.to_drawing_info classification
             (PdfParser.PDFParserResult.file_path pdf) (Z.of_nat i + 1) in
  {| DrawingInfo.file_path := DrawingInfo.file_path d;
     DrawingInfo.page_number := DrawingInfo.page_number d;
     DrawingInfo.drawing_type := DrawingInfo.drawing_type d;
     DrawingInfo.drawing_number := DrawingInfo.drawing_number d;
     DrawingInfo.drawing_title := DrawingInfo.drawing_title d;
     DrawingInfo.revision := DrawingInfo.revision d;
     DrawingInfo.scale := DrawingInfo.scale d;
     DrawingInfo.dimensions_present := DrawingInfo.dimensions_present d;
     DrawingInfo.annotations_present := DrawingInfo.annotations_present d;
     DrawingInfo.confidence := DrawingInfo.confidence d;
     DrawingInfo.extracted_text := DrawingInfo.extracted_text d;
     DrawingInfo.image_path :=
       match nth_error image_paths i with
       | Some p => Some p
       | None => DrawingInfo.image_path d
       end;
     DrawingInfo.measurement_potential :=
       match potential_of MEASUREMENT_POTENTIAL (DrawingInfo.drawing_type d) with
       | Some l => JArr (List.map JStr l)
       | None => DrawingInfo.measurement_potential d
       end;
     DrawingInfo.notes := DrawingInfo.notes d |}.

(** [for i, classification in enumerate(data)]. *)
Fixpoint enumerate_from {A} (i : nat) (l : list A) : list (nat * A) :=
  match l with
  | [] => []
  | x :: l' => (i, x) :: enumerate_from (S i) l'
  end.

(** Step 4, for one parsed document. *)
Definition classify_document (pdf : PdfParser.PDFParserResult.t)
  : DocumentEntry.t * list DrawingInfo.t * list string * list Event :=
  let doc_entry := PdfParser.PDFParserResult.to_document_entry pdf in
  (* Get image paths for classification *)
  let image_paths :=
    omap (fun p => match PdfParser.PageContent.extracted_image_path p with
                   | Some ip => if truthy_str ip then Some ip else None
                   | None => None
                   end)
         (PdfParser.PDFParserResult.pages pdf) in
  let '(doc_drawings, warnings, events) :=
    match image_paths with
    | [] =>
        ([], ["No images extracted from "
              +:+ PdfParser.PDFParserResult.file_name pdf], [])
    | _ =>
        let classify_result :=
          Classifier.classify_batch (json_loads w) (float_of_str w) (vision w)
            (classifier self) image_paths
            (Some (PdfParser.PDFParserResult.file_path pdf)) in
        (match ToolResult.success classify_result, ToolResult.data classify_result with
         | true, Some (c :: cs) =>
             List.map (fun ic => drawing_of pdf image_paths (fst ic) (snd ic))
                      (enumerate_from 0 (c :: cs))
         | _, _ => []
         end,
         ToolResult.warnings classify_result,
         [EvClassify (PdfParser.PDFParserResult.file_path pdf)
                     (length image_paths)])
    end in
  ({| DocumentEntry.file_name := DocumentEntry.file_name doc_entry;
      DocumentEntry.file_path := DocumentEntry.file_path doc_entry;
      DocumentEntry.file_type := DocumentEntry.file_type doc_entry;
      DocumentEntry.file_size_bytes := DocumentEntry.file_size_bytes doc_entry;
      DocumentEntry.page_count := DocumentEntry.page_count doc_entry;
      DocumentEntry.drawings := doc_drawings;
      DocumentEntry.status := DocumentEntry.status doc_entry;
      DocumentEntry.hash_md5 := DocumentEntry.hash_md5 doc_entry |},
   doc_drawings, warnings, events).

(** Step 4: every document in turn. *)
Fixpoint classify_documents (pdf_results : list PdfParser.PDFParserResult.t)
  : list DocumentEntry.t * list DrawingInfo.t * list string * list Event :=
  match pdf_results with
  | [] => ([], [], [], [])
  | pdf :: rest =>
      let '(entry, drawings, warnings, events) := classify_document pdf in
      let '(entries, all_drawings, all_warnings, all_events) :=
        classify_documents rest in
      (entry :: entries, drawings ++ all_drawings, warnings ++ all_warnings,
       events ++ all_events)
  end.

Definition sum_Z (l : list Z) : Z := fold_right Z.add 0%Z l.

(** [IntakeAnalyst.analyze]; [cache] is the geocoder's cache before the
    call.  The result comes with the cache after the call and the steps
    carried out, in order. *)
Definition analyze (cache : gmap string Geocoder.GeocodingResult.t)
    (input_path : string) (project_id : option string)
  : outcome (IntakeResult.t * gmap string Geocoder.GeocodingResult.t * list Event) :=
  let project_id :=
    match project_id with
    | Some p => if truthy_str p then p else fresh_id w
    | None => fresh_id w
    end in
  (* Ensure output directory exists *)
  let ev0 := [EvMkdir (output_dir self)] in
  (* Step 1: Parse PDFs *)
  match parse_input input_path with
  | Raise e msg => Raise e msg
  | Return (pdf_results, errors, warnings) =>
      let ev1 := ev0 ++ [EvParse input_path] in
      match pdf_results with
      | [] =>
          (* Return minimal result if no PDFs processed *)
          let empty_manifest :=
            {| DocumentManifest.project_id := project_id;
               DocumentManifest.source_directory := Some input_path;
               DocumentManifest.documents := [];
               DocumentManifest.metadata := None;
               DocumentManifest.total_pages := 0;
               DocumentManifest.total_drawings := 0 |} in
          Return
            ({| IntakeResult.project_id := project_id;
                IntakeResult.manifest := empty_manifest;
                IntakeResult.completeness := _create_empty_completeness project_id;
                IntakeResult.measurement_scope := _create_empty_scope project_id;
                IntakeResult.errors := errors;
                IntakeResult.warnings := warnings ++ ["No PDF documents processed"] |},
             cache, ev1)
      | _ =>
          (* Step 2: Extract metadata from text *)
          let all_pages := all_pages_of pdf_results in
          match Extractor.extract_from_pages (engine w) all_pages with
          | Raise e msg => Raise e msg
          | Return metadata_result =>
          let project_metadata :=
            match ToolResult.success metadata_result, ToolResult.data metadata_result with
            | true, Some data => Extractor.ExtractionResult.metadata data
            | _, _ => ProjectMetadata.default
            end in
          let warnings := warnings ++ ToolResult.warnings metadata_result in
          let ev2 := ev1 ++ [EvExtractMetadata (length all_pages)] in
          (* Step 3: Enrich location with geocoding *)
          let '(project_metadata, warnings, cache, ev3) :=
            match ProjectMetadata.location project_metadata with
            | Some loc =>
                if truthy_opt truthy_str (LocationInfo.postcode loc) then
                  let '(geo_result, cache', contacts) :=
                    Geocoder.enrich_location (providers w) (geocoder self) cache loc in
                  (match ToolResult.success geo_result, ToolResult.data geo_result with
                   | true, Some data => set_location project_metadata data
                   | _, _ => project_metadata
                   end,
                   warnings ++ ToolResult.warnings geo_result, cache',
                   ev2 ++ [EvGeocode contacts])
                else (project_metadata, warnings, cache, ev2)
            | None => (project_metadata, warnings, cache, ev2)
            end in
          (* Step 4: Classify drawings using vision *)
          let '(document_entries, all_drawings, class_warnings, class_events) :=
            classify_documents pdf_results in
          let warnings := warnings ++ class_warnings in
          let ev4 := ev3 ++ class_events in
          (* Step 5: Build manifest *)
          let manifest :=
            {| DocumentManifest.project_id := project_id;
               DocumentManifest.source_directory := Some input_path;
               DocumentManifest.documents := document_entries;
               DocumentManifest.metadata := Some project_metadata;
               DocumentManifest.total_pages :=
                 sum_Z (List.map DocumentEntry.page_count document_entries);
               DocumentManifest.total_drawings := Z.of_nat (length all_drawings) |} in
          (* Step 6: Assess completeness *)
          let completeness :=
            _assess_completeness (project_type self) project_id all_drawings
                                 project_metadata in
          (* Step 7: Determine measurement scope *)
          let measurement_scope := _determine_scope project_id all_drawings in
          (* Step 8: Save outputs *)
          let ev8 :=
            ev4 ++ [EvManifest; EvCompleteness; EvScope;
                    EvSave (output_dir self +:+ "/" +:+ project_id)
                           manifest completeness measurement_scope] in
          Return
            ({| IntakeResult.project_id := project_id;
                IntakeResult.manifest := manifest;
                IntakeResult.completeness := completeness;
                IntakeResult.measurement_scope := measurement_scope;
                IntakeResult.errors := errors;
                IntakeResult.warnings := warnings |},
             cache, ev8)
          end
      end
  end.

End Analyze.

(** ** The measurement scope *)

(** [IntakeAnalyst._get_nrm_reference]. *)
Definition _get_nrm_reference (element : string) : option string :=
  let nrm_map :=
    [ ("Gross Internal Floor Area (GIFA)", "NRM1 2.6");
      ("Net Internal Area (NIA)", "NRM1 2.7");
      ("External wall areas", "NRM1 2.5.1");
      ("Roof area", "NRM1 2.5.2");
      ("Site area", "NRM1 2.1");
      ("Window areas and counts", "NRM2 L10/L20");
      ("Door areas and counts", "NRM2 L20");
      ("Ceiling areas", "NRM2 K10/K40");
      ("Floor construction depths", "NRM1 2.4.3") ] in
  dict_get (List.map (fun kv => (fst kv, Some (snd kv))) nrm_map) element None.

(** One turn of the grouping loop: [by_type] is a dictionary, written as its
    item list in insertion order. *)
Fixpoint add_drawing (by_type : list (DrawingType * list DrawingInfo.t))
    (d : DrawingInfo.t) : list (DrawingType * list DrawingInfo.t) :=
  match by_type with
  | [] => [(DrawingInfo.drawing_type d, [d])]
  | (k, ds) :: rest =>
      if bool_decide (k = DrawingInfo.drawing_type d)
      then (k, ds ++ [d]) :: rest
      else (k, ds) :: add_drawing rest d
  end.

(** Group drawings by type. *)
Definition group_by_type (drawings : list DrawingInfo.t)
  : list (DrawingType * list DrawingInfo.t) :=
  fold_left add_drawing drawings [].

(** The first type of the table whose potential holds [element]. *)
Fixpoint required_type_of (table : list (DrawingType * list string))
    (element : string) : option DrawingType :=
  match table with
  | [] => None
  | (dt, potentials) :: rest =>
      if existsb (String.eqb element) potentials then Some dt
      else required_type_of rest element
  end.

Definition has_confidence (c : string) (m : MeasurableElement.t) : bool :=
  String.eqb (MeasurableElement.confidence m) c.

Section Scope.

(** [sum(...)] over floats (a plain left-to-right sum before Python 3.12, a
    compensated one since), and [str(v)] of a decoded JSON value that is not
    a string. *)
Variable float_sum : list float -> float.
Variable str_of_json : json -> string.

(** [f"{d.drawing_number or 'Page ' + str(d.page_number)}"]. *)
Definition source_drawing (d : DrawingInfo.t) : string :=
  if truthy_json (DrawingInfo.drawing_number d) then
    match DrawingInfo.drawing_number d with
    | JStr s => s
    | v => str_of_json v
    end
  else "Page " +:+ str_of_Z (DrawingInfo.page_number d).

(** The measurable elements that the drawings of one type give. *)
Definition elements_of_type (drawing_type : DrawingType)
    (type_drawings : list DrawingInfo.t) : list MeasurableElement.t :=
  if bool_decide (drawing_type = UNKNOWN) then []
  else
    let potential := default [] (potential_of MEASUREMENT_POTENTIAL drawing_type) in
    match potential with
    | [] => []
    | _ =>
        (* Determine confidence based on drawing quality *)
        let avg_confidence :=
          (float_sum (List.map DrawingInfo.confidence type_drawings)
           / float_of_nat (length type_drawings))%float in
        let has_dimensions :=
          existsb (fun d => truthy_json (DrawingInfo.dimensions_present d))
                  type_drawings in
        let confidence :=
          if PrimFloat.leb 0.8%float avg_confidence && has_dimensions then "high"
          else if PrimFloat.leb 0.5%float avg_confidence || has_dimensions
          then "medium"
          else "low" in
        let source_drawings := List.map source_drawing type_drawings in
        let notes :=
          (if negb has_dimensions
           then ["No dimension annotations detected - may need to scale from drawing"]
           else [])
          ++ (if PrimFloat.ltb avg_confidence 0.7%float
              then ["Drawing classification confidence is moderate"]
              else []) in
        List.map
          (fun element =>
             {| MeasurableElement.element_type := element;
                MeasurableElement.nrm_reference := _get_nrm_reference element;
                MeasurableElement.source_drawings := source_drawings;
                MeasurableElement.confidence := confidence;
                MeasurableElement.notes := notes |})
          potential
    end.

(** [IntakeAnalyst._determine_scope].  The unmeasurable elements come out of
    a set: their order is the order of [elements]. *)
Definition _determine_scope (project_id : string)
    (drawings : list DrawingInfo.t) : MeasurementScope.t :=
  (* Group drawings by type *)
  let by_type := group_by_type drawings in
  (* Build measurable elements based on available drawings *)
  let measurable_elements :=
    List.concat
      (List.map (fun g => elements_of_type (fst g) (snd g)) by_type) in
  (* Identify what cannot be measured *)
  let all_potential : gset string :=
    list_to_set (List.concat (List.map snd MEASUREMENT_POTENTIAL)) in
  let measurable : gset string :=
    list_to_set (List.map MeasurableElement.element_type measurable_elements) in
  let unmeasurable := all_potential ∖ measurable in
  let unmeasurable_elements :=
    List.map
      (fun element =>
         (element,
          "No "
          +:+ match required_type_of MEASUREMENT_POTENTIAL element with
              | Some required_type => replace_char "_" " " (value required_type)
              | None => "suitable"
              end
          +:+ " drawing available"))
      (elements unmeasurable) in
  (* Build summary *)
  let high_conf := length (List.filter (has_confidence "high") measurable_elements) in
  let med_conf := length (List.filter (has_confidence "medium") measurable_elements) in
  let low_conf := length (List.filter (has_confidence "low") measurable_elements) in
  let coverage_summary :=
    "From " +:+ str_of_nat (length drawings) +:+ " drawings, "
    +:+ str_of_nat (length measurable_elements)
    +:+ " element types can be measured: "
    +:+ str_of_nat high_conf +:+ " high confidence, "
    +:+ str_of_nat med_conf +:+ " medium confidence, "
    +:+ str_of_nat low_conf +:+ " low confidence. "
    +:+ str_of_nat (length unmeasurable_elements)
    +:+ " element types cannot be measured from available information." in
  (* Add standard assumptions *)
  let in_by_type (t : DrawingType) :=
    existsb (fun g => bool_decide (fst g = t)) by_type in
  let recommended_assumptions :=
    (if negb (in_by_type SECTION)
     then ["Floor-to-floor height: Assume 3.0m for commercial, 2.7m for residential unless stated"]
     else [])
    ++ (if negb (in_by_type STRUCTURAL)
        then ["Foundation type: Assume strip foundations for loadbearing masonry, pad foundations for framed buildings"]
        else []) in
  {| MeasurementScope.project_id := project_id;
     MeasurementScope.measurable_elements := measurable_elements;
     MeasurementScope.unmeasurable_elements := unmeasurable_elements;
     MeasurementScope.coverage_summary := coverage_summary;
     MeasurementScope.recommended_assumptions := recommended_assumptions;
     MeasurementScope.exclusions := [] |}.

End Scope.

End Intake.

(* ===================================================================== *)
(** * Reference/QSPlus_Export_Module.py *)
(* ===================================================================== *)

Module QSPlus.

Module BOQItem.
Record t : Type := mk {
  item_number : string;
  description : string;
  unit : string;
  quantity : float;
  rate : float;
  amount : float;
  section : string;
  subsection : string;
  calculation_notes : string;
  reference_drawing : string;
  measurement_rule : string
}.

(** [BOQItem.__init__].  An optional argument is [None] when the caller
    leaves it out; its default is then taken. *)
Definition init (item_number description unit : string)
    (quantity rate amount : option float)
    (section subsection calculation_notes reference_drawing
       measurement_rule : option string) : t :=
  let quantity := default 0%float quantity in
  let rate := default 0%float rate in
  let amount := default 0%float amount in
  {| item_number := item_number;
     description := description;
     unit := unit;
     quantity := quantity;
     rate := rate;
     amount := if PrimFloat.ltb 0%float amount then amount
               else (quantity * rate)%float;
     section := default "" section;
     subsection := default "" subsection;
     calculation_notes := default "" calculation_notes;
     reference_drawing := default "" reference_drawing;
     measurement_rule := default "" measurement_rule |}.

(** [BOQItem.to_dict]. *)
Definition to_dict (self : t) : list (string * json) :=
  [ ("Item Number", JStr (item_number self));
    ("Section", JStr (section self));
    ("Subsection", JStr (subsection self));
    ("Description", JStr (description self));
    ("Unit", JStr (unit self));
    ("Quantity", JFloat (quantity self));
    ("Rate", JFloat (rate self));
    ("Amount", JFloat (amount self));
    ("Calculation Notes", JStr (calculation_notes self));
    ("Reference Drawing", JStr (reference_drawing self));
    ("Measurement Rule", JStr (measurement_rule self)) ].
End BOQItem.

(** [sum(values)] over floats: the running total starts from the integer 0
    and the values are added from left to right (the interpreter's plain
    summation, before the compensated summation of CPython 3.12). *)
Definition py_sum (values : list float) : float :=
  fold_left PrimFloat.add values 0%float.

(** [round(x, 2)] on a float: the exact value of [x] rounded to two
    decimals, ties to even, then the nearest float to that decimal; a NaN,
    an infinity or a zero is returned as it is. *)
Definition round2 (x : float) : float :=
  match Prim2SF x with
  | S754_finite s m e =>
      let scaled := (Zpos m * 100)%Z in
      let n := if (0 <=? e)%Z then (scaled * 2 ^ e)%Z
               else rne_div scaled (2 ^ (- e)) in
      Json.float_of_decimal s n (-2)
  | _ => x
  end.

(** [d.pop(key, None)]. *)
Definition dict_pop (d : list (string * json)) (key : string)
  : list (string * json) :=
  List.filter (fun kv => negb (String.eqb (fst kv) key)) d.

Record QSPlusExporter : Type := {
  project_name : string;
  project_number : string;
  items : list BOQItem.t;
  (** [metadata['created_date']], read from the clock by [__init__] *)
  created_date : string
}.

(** [QSPlusExporter.__init__]; [now] is the formatted clock reading. *)
Definition init (now : string) (project_name project_number : option string)
  : QSPlusExporter :=
  {| project_name := default "" project_name;
     project_number := default "" project_number;
     items := [];
     created_date := now |}.

(** [QSPlusExporter.add_items]. *)
Definition add_items (self : QSPlusExporter) (new_items : list BOQItem.t)
  : QSPlusExporter :=
  {| project_name := project_name self;
     project_number := project_number self;
     items := items self ++ new_items;
     created_date := created_date self |}.

(** [QSPlusExporter.add_item]. *)
Definition add_item (self : QSPlusExporter) (item : BOQItem.t) : QSPlusExporter :=
  add_items self [item].

(** The entry of one item in the [items] list of the document. *)
Definition item_data (include_calculations : bool) (item : BOQItem.t) : json :=
  let d := BOQItem.to_dict item in
  JObj (if include_calculations then d
        else dict_pop (dict_pop (dict_pop d "Calculation Notes")
                                "Reference Drawing") "Measurement Rule").

(** [round(total_amount, 2)] in [export_to_json]: of the integer 0 when
    there is no item, of a float otherwise. *)
Definition total_amount_json (amounts : list float) : json :=
  match amounts with
  | [] => JInt 0
  | _ => JFloat (round2 (py_sum amounts))
  end.

(** [QSPlusExporter.export_to_json]: the path returned and the document
    handed to [json.dump]. *)
Definition export_to_json (self : QSPlusExporter) (output_path : string)
    (include_calculations : bool) : string * json :=
  let data_items := List.map (item_data include_calculations) (items self) in
  let summary :=
    JObj [ ("total_items", JInt (Z.of_nat (length (items self))));
           ("total_amount",
            total_amount_json (List.map BOQItem.amount (items self))) ] in
  (output_path,
   JObj [ ("project_information",
           JObj [ ("project_name", JStr (project_name self));
                  ("project_number", JStr (project_number self));
                  ("created_date", JStr (created_date self));
                  ("software", JStr "DELLQS-AI");
                  ("version", JStr "1.0") ]);
          ("items", JArr data_items);
          ("summary", summary) ]).

End QSPlus.

(* ===================================================================== *)
(** * The claims' own quantities *)
(* ===================================================================== *)

Module Claims.

(** A drawing of type [t] was received. *)
Definition type_present (drawings : list DrawingInfo.t) (t : DrawingType) : bool :=
  existsb (fun d => bool_decide (DrawingInfo.drawing_type d = t)) drawings.

(** The number of required drawing types that are present. *)
Definition required_types_present (project_type : string)
    (drawings : list DrawingInfo.t) : nat :=
  length (List.filter (type_present drawings) (Intake.required_list project_type)).

(** The number of required drawing types. *)
Definition required_types_count (project_type : string) : nat :=
  length (Intake.required_list project_type).

(** The three metadata checks: project name, postcode, architect. *)
Definition metadata_checks_passed (metadata : ProjectMetadata.t) : nat :=
  ((if truthy_opt truthy_str (ProjectMetadata.project_name metadata) then 1 else 0)
   + (if Intake.has_postcode metadata then 1 else 0)
   + (if truthy_opt truthy_str (ProjectMetadata.architect metadata) then 1 else 0))%nat.

(** ** Per-file readings of a directory parse *)

(** The result of a file that parsed (status SUCCESS or PARTIAL). *)
Definition file_parsed (fs : PdfParser.FileSystem) (self : PdfParser.PDFParser)
    (output_dir : option string) (path : string)
  : option PdfParser.PDFParserResult.t :=
  match PdfParser.execute fs self path output_dir None with
  | Return r => if ToolResult.success r then ToolResult.data r else None
  | Raise _ _ => None
  end.

(** The errors of a file that did not parse. *)
Definition file_errors (fs : PdfParser.FileSystem) (self : PdfParser.PDFParser)
    (output_dir : option string) (path : string) : list ToolError.t :=
  match PdfParser.execute fs self path output_dir None with
  | Return r =>
      match file_parsed fs self output_dir path with
      | Some _ => []
      | None => ToolResult.errors r
      end
  | Raise _ _ => []
  end.

Definition file_warnings (fs : PdfParser.FileSystem) (self : PdfParser.PDFParser)
    (output_dir : option string) (path : string) : list string :=
  match PdfParser.execute fs self path output_dir None with
  | Return r => ToolResult.warnings r
  | Raise _ _ => []
  end.

(** ** Readings of a model response *)

(** The text handed to the decoder: group 1 of the fenced pattern if it
    matches, else group 0 of the brace pattern. *)
Definition extracted_json (response_text : string) : option string :=
  match Classifier.search_fenced response_text with
  | Some g => Some g
  | None => Classifier.search_braces response_text
  end.

(** The character [c] does not occur in [s]. *)
Fixpoint absent (c : ascii) (s : string) : Prop :=
  match s with
  | EmptyString => True
  | String x s' => x <> c /\ absent c s'
  end.

(** Every character of [s] is white space. *)
Fixpoint all_space (s : string) : Prop :=
  match s with
  | EmptyString => True
  | String x s' => isspace x = true /\ all_space s'
  end.

(** The warning of a PARTIAL metadata extraction. *)
Definition low_confidence_warning : string :=
  "Low extraction confidence - limited metadata found".

(** A run of digits longer than the interpreter reads as an integer. *)
Definition beyond_limit (g : string) : Prop :=
  (Extractor.int_max_str_digits < String.length g)%nat.

(** The storeys of a text cannot be read, or their count cannot be written,
    within the interpreter's limit on digits: the number before "storey",
    "story" or "floor" is too long; or there is no such number and a level
    written with a plus sign is too long; or the count that
    [_count_storeys] returns has more than 4300 decimal digits. *)
Definition storeys_beyond_limit (rx : Extractor.Engine) (text : string) : Prop :=
  (exists groups,
     Extractor.re_search rx "(\d+)\s*(?:storey|story|floor)" text Extractor.IGNORECASE
     = Some groups
     /\ beyond_limit (Extractor.group1 groups))
  \/ (Extractor.re_search rx "(\d+)\s*(?:storey|story|floor)" text Extractor.IGNORECASE
      = None
      /\ exists groups,
           In groups (Extractor.re_finditer rx "\+(\d+)" text Extractor.IGNORECASE)
           /\ beyond_limit (Extractor.group1 groups))
  \/ (exists n,
        Extractor._count_storeys rx text = Return (Some n)
        /\ (10 ^ Z.of_nat Extractor.int_max_str_digits <= Z.abs n)%Z).

(** A float lies in the closed interval from 0 to 1. *)
Definition in_unit_interval (x : float) : bool :=
  PrimFloat.leb 0%float x && PrimFloat.leb x 1%float.

(** ** Readings of the geocoder *)

(** A field of the enriched location: the input's when that is non-empty,
    else the geocoded one. *)
Definition merged_field (f : LocationInfo.t -> option string)
    (location geocoded enriched : LocationInfo.t) : Prop :=
  if truthy_opt truthy_str (f location)
  then f enriched = f location
  else f enriched = f geocoded.

(** One call of [Geocoder.execute]: what the providers answer at that
    moment, and the two arguments. *)
Record Call : Type := {
  call_world : Geocoder.Providers;
  call_query : string;
  call_provider : option string
}.

(** The cache after a sequence of calls on one geocoder. *)
Definition cache_after_calls (self : Geocoder.Geocoder)
    (cache : gmap string Geocoder.GeocodingResult.t) (calls : list Call)
  : gmap string Geocoder.GeocodingResult.t :=
  fold_left
    (fun c call =>
       Geocoder.cache_after
         (Geocoder.execute (call_world call) self c
            (call_query call) (call_provider call)))
    calls cache.

(** ** Readings of an exported document *)

(** [doc[k1][k2]...] on nested objects. *)
Fixpoint json_path (doc : json) (keys : list string) : option json :=
  match keys with
  | [] => Some doc
  | k :: keys' =>
      match doc with
      | JObj d =>
          match List.find (fun kv => String.eqb (fst kv) k) d with
          | Some (_, v) => json_path v keys'
          | None => None
          end
      | _ => None
      end
  end.


End Claims.

(* ===================================================================== *)
(** * Quantities used to state further properties *)
(* ===================================================================== *)

Module Props.

(** The result that [classify_batch] keeps for one image: the
    classification when the call for the image succeeded, the placeholder
    otherwise. *)
Definition kept_result (loads : string -> outcome json)
    (float_of_str : string -> option float) (w : Classifier.Vision)
    (self : Classifier.DrawingClassifier) (image_path : string)
    (source_file : option string) (page_number : Z)
  : Classifier.ClassificationResult.t :=
  let one := Classifier.execute loads float_of_str w self image_path
               source_file page_number in
  match ToolResult.success one, ToolResult.data one with
  | true, Some d => d
  | _, _ => Classifier.ClassificationResult.unknown "Classification failed" None
  end.

(** The named floor levels that [_count_storeys] collects when the text
    gives no explicit count: those whose pattern occurs. *)
Definition named_levels (rx : Extractor.Engine) (text : string) : list Z :=
  List.map snd
    (List.filter
       (fun pv => match Extractor.re_search rx (fst pv) text Extractor.IGNORECASE with
                  | Some _ => true | None => false end)
       Extractor.floor_patterns).

(** The number that a run of decimal digits stands for. *)
Definition digits_value (g : string) : Z := fst (fst (Json.read_digits 0 0 g)).

(** The floor levels that [_count_storeys] collects when the text gives no
    explicit count: the named levels, then the levels written with a plus
    sign. *)
Definition referenced_levels (rx : Extractor.Engine) (text : string) : list Z :=
  named_levels rx text
  ++ List.map (fun groups => digits_value (Extractor.group1 groups))
       (Extractor.re_finditer rx "\+(\d+)" text Extractor.IGNORECASE).

(** Every character of [s] is one of U+0000..U+007F. *)
Definition ascii_only (s : string) : bool :=
  Extractor.all_chars (fun c => (nat_of_ascii c <? 128)%nat) s.

(** The stripped first groups of all matches of the patterns, in the order
    in which [_extract_all_matches] meets them. *)
Definition all_values (rx : Extractor.Engine) (text : string)
    (patterns : list string) : list string :=
  List.concat
    (List.map
       (fun pattern =>
          List.map (fun g => strip (Extractor.group1 g))
            (Extractor.re_finditer rx pattern text Extractor.IGNORECASE_MULTILINE))
       patterns).

(** ** The confidence score as a function of the fields found *)

(** The sum of [_calculate_confidence] when the ten conditions have the
    given truth values, in the order of the source. *)
Definition score (b1 b2 b3 b4 b5 b6 b7 b8 b9 b10 : bool) : float :=
  Extractor.add_if b10 "storeys"
    (Extractor.add_if b9 "gross_internal_area_m2"
      (Extractor.add_if b8 "building_type"
        (Extractor.add_if b7 "stage"
          (Extractor.add_if b6 "issue_date"
            (Extractor.add_if b5 "location"
              (Extractor.add_if b4 "architect"
                (Extractor.add_if b3 "client_name"
                  (Extractor.add_if b2 "project_number"
                    (Extractor.add_if b1 "project_name" 0%float))))))))).

(** [f] holds on the three pairs of truth values of which the second is
    implied by the first. *)
Definition three (f : bool -> bool -> bool) : bool :=
  f false false && f false true && f true true.

(** ** The merge of the two extraction passes *)

(** A merged field: the value of the priority pass when that is truthy,
    else the value of the full pass. *)
Definition prefers {A} (t : A -> bool) (priority full merged : option A) : Prop :=
  if truthy_opt t priority then merged = priority else merged = full.

(** The text handed to the first pass: that of the first three pages. *)
Definition priority_text (pages : list Extractor.PageDict) : string :=
  Extractor.join_texts (firstn 3 pages).

(** ** The two parts of a postcode *)

(** One or two letters, a digit, and an optional digit or letter. *)
Definition outward_ok (g : string) : bool :=
  match g with
  | String a (String b EmptyString) =>
      Geocoder.is_letter a && Json.is_digit b
  | String a (String b (String c EmptyString)) =>
      Geocoder.is_letter a
      && ((Json.is_digit b && Geocoder.is_alnum c)
          || (Geocoder.is_letter b && Json.is_digit c))
  | String a (String b (String c (String x EmptyString))) =>
      Geocoder.is_letter a && Geocoder.is_letter b && Json.is_digit c
      && Geocoder.is_alnum x
  | _ => false
  end.

(** A digit and two letters. *)
Definition inward_ok (g : string) : bool :=
  match g with
  | String d (String l1 (String l2 EmptyString)) =>
      Json.is_digit d && Geocoder.is_letter l1 && Geocoder.is_letter l2
  | _ => false
  end.

(** [str.upper] of one character of U+0000..U+007F, as [upper_ascii] has
    it. *)
Definition upper_char (c : ascii) : ascii :=
  if is_ascii_lower c then ascii_of_nat (nat_of_ascii c - 32) else c.

(** What a provider answers when it is contacted. *)
Definition answer (w : Geocoder.Providers) (self : Geocoder.Geocoder)
    (c : Geocoder.Contact) : outcome Geocoder.GeocodingResult.t :=
  match c with
  | Geocoder.ContactPostcodesIo normalized =>
      Geocoder.ask_postcodes_io w normalized
  | Geocoder.ContactNominatim address => Geocoder.ask_nominatim w address
  | Geocoder.ContactGoogle address =>
      Geocoder.ask_google w address
        (default EmptyString (Geocoder.google_api_key self))
  end.

(** ** The measurement scope *)

(** [self.MEASUREMENT_POTENTIAL.get(t, [])]. *)
Definition potential (t : DrawingType) : list string :=
  default [] (Intake.potential_of Intake.MEASUREMENT_POTENTIAL t).

(** Every element of the table, type by type. *)
Definition all_elements : list string :=
  List.concat (List.map snd Intake.MEASUREMENT_POTENTIAL).

(** The drawings of one type, in order. *)
Definition of_type (t : DrawingType) (drawings : list DrawingInfo.t)
  : list DrawingInfo.t :=
  List.filter (fun d => bool_decide (DrawingInfo.drawing_type d = t)) drawings.

End Props.
Definition sample_drawing (t : DrawingType) (c : float) : DrawingInfo.t :=
  {| DrawingInfo.file_path := "a.pdf"; DrawingInfo.page_number := 1;
     DrawingInfo.drawing_type := t; DrawingInfo.drawing_number := JNull;
     DrawingInfo.drawing_title := JNull; DrawingInfo.revision := JNull;
     DrawingInfo.scale := JNull; DrawingInfo.dimensions_present := JBool false;
     DrawingInfo.annotations_present := JBool false;
     DrawingInfo.confidence := c; DrawingInfo.extracted_text := None;
     DrawingInfo.image_path := None;
     DrawingInfo.measurement_potential := JArr []; DrawingInfo.notes := JArr [] |}.


(** ** Sample file systems *)

Definition no_file (path : string) : PdfParser.FileDesc :=
  {| PdfParser.f_exists := false; PdfParser.f_is_file := false;
     PdfParser.f_str := path; PdfParser.f_name := path;
     PdfParser.f_suffix := ""; PdfParser.f_size := 0;
     PdfParser.f_md5 := ""; PdfParser.f_document := None;
     PdfParser.f_error := ("", "") |}.

Definition a_directory (path : string) : PdfParser.FileDesc :=
  {| PdfParser.f_exists := true; PdfParser.f_is_file := false;
     PdfParser.f_str := path; PdfParser.f_name := path;
     PdfParser.f_suffix := ""; PdfParser.f_size := 4096;
     PdfParser.f_md5 := ""; PdfParser.f_document := None;
     PdfParser.f_error := ("Is a directory", "IsADirectoryError") |}.

(** A file named [*.pdf] that the PDF library cannot open. *)
Definition corrupt_pdf (path name : string) : PdfParser.FileDesc :=
  {| PdfParser.f_exists := true; PdfParser.f_is_file := true;
     PdfParser.f_str := path; PdfParser.f_name := name;
     PdfParser.f_suffix := ".pdf"; PdfParser.f_size := 12;
     PdfParser.f_md5 := "6f5902ac237024bdd0c176cb93063dc4";
     PdfParser.f_document := None;
     PdfParser.f_error := ("Failed to open file", "FileDataError") |}.

(** A one-page PDF with a text layer. *)
Definition good_pdf (path name : string) : PdfParser.FileDesc :=
  {| PdfParser.f_exists := true; PdfParser.f_is_file := true;
     PdfParser.f_str := path; PdfParser.f_name := name;
     PdfParser.f_suffix := ".pdf"; PdfParser.f_size := 2048;
     PdfParser.f_md5 := "d41d8cd98f00b204e9800998ecf8427e";
     PdfParser.f_document :=
       Some ([("title", "Ground Floor Plan")],
             [ {| PdfParser.raw_text := "GROUND FLOOR PLAN scale 1:100";
                  PdfParser.raw_image_count := 0;
                  PdfParser.raw_width := 841%float;
                  PdfParser.raw_height := 594%float;
                  PdfParser.raw_rotation := 0;
                  PdfParser.raw_rendered := Some "images/plan_page_001.png" |} ]);
     PdfParser.f_error := ("", "") |}.

(** [drawings/] holds one corrupt PDF. *)
Definition fs_one_corrupt : PdfParser.FileSystem :=
  {| PdfParser.lookup_path := fun p =>
       if String.eqb p "drawings" then a_directory p
       else if String.eqb p "drawings/bad.pdf" then corrupt_pdf p "bad.pdf"
       else no_file p;
     PdfParser.glob := fun d _ =>
       if String.eqb d "drawings" then ["drawings/bad.pdf"] else [];
     PdfParser.fitz_installed := true |}.

(** [drawings/] holds one corrupt and one good PDF. *)
Definition fs_mixed : PdfParser.FileSystem :=
  {| PdfParser.lookup_path := fun p =>
       if String.eqb p "drawings" then a_directory p
       else if String.eqb p "drawings/bad.pdf" then corrupt_pdf p "bad.pdf"
       else if String.eqb p "drawings/plan.pdf" then good_pdf p "plan.pdf"
       else no_file p;
     PdfParser.glob := fun d _ =>
       if String.eqb d "drawings"
       then ["drawings/bad.pdf"; "drawings/plan.pdf"] else [];
     PdfParser.fitz_installed := true |}.

(** [drawings/] exists and holds no PDF. *)
Definition fs_empty_dir : PdfParser.FileSystem :=
  {| PdfParser.lookup_path := fun p =>
       if String.eqb p "drawings" then a_directory p else no_file p;
     PdfParser.glob := fun _ _ => [];
     PdfParser.fitz_installed := true |}.

Definition default_parser : PdfParser.PDFParser :=
  {| PdfParser.output_dir := Some "intake_output/images";
     PdfParser.extract_images := true;
     PdfParser.image_dpi := 150;
     PdfParser.image_format := "png" |}.

(** ** Sample surroundings for whole runs *)

(** A vision back end that finds every image and answers each with the
    same text. *)
Definition vision_answering (answer : string) : Classifier.Vision :=
  {| Classifier.image_exists := fun _ => true;
     Classifier.image_suffix := fun _ => ".png";
     Classifier.respond := fun _ _ _ => Return answer |}.

(** An engine on which no pattern matches and no date parses. *)
Definition silent_engine : Extractor.Engine :=
  {| Extractor.re_search := fun _ _ _ => None;
     Extractor.re_finditer := fun _ _ _ => [];
     Extractor.strptime := fun _ _ => None |}.

(** Providers that cannot be reached. *)
(** ** Storeys beyond the interpreter's limit on digits *)






Definition offline_providers : Geocoder.Providers :=
  {| Geocoder.ask_postcodes_io := fun _ => Raise RuntimeError "Cannot connect to host";
     Geocoder.ask_nominatim := fun _ => Raise RuntimeError "Cannot connect to host";
     Geocoder.ask_google := fun _ _ => Raise RuntimeError "Cannot connect to host" |}.

Definition floor_plan_answer : string :=
  Json.dq "Here is the classification: ```json
{'drawing_type': 'floor_plan', 'drawing_number': 'A-101',
 'dimensions_present': true, 'confidence': 0.95}
```".

Definition world_with (files : PdfParser.FileSystem) : Intake.World :=
  {| Intake.fs := files;
     Intake.vision := vision_answering floor_plan_answer;
     Intake.engine := silent_engine;
     Intake.providers := offline_providers;
     Intake.json_loads := Json.loads;
     Intake.float_of_str := Json.float_of_str;
     Intake.fresh_id := "1B9D6BCD" |}.

Definition no_config : Intake.Config :=
  {| Intake.cfg_output_dir := None; Intake.cfg_project_type := None;
     Intake.cfg_vision_provider := None; Intake.cfg_vision_model := None;
     Intake.cfg_anthropic_api_key := None; Intake.cfg_openai_api_key := None;
     Intake.cfg_google_api_key := None |}.

(** A stand-in for step 7. *)
Definition blank_scope (project_id : string) (_ : list DrawingInfo.t)
  : MeasurementScope.t := MeasurementScope.default project_id.

(** A well-formed answer whose confidence is not a probability. *)
Definition overconfident_answer : string :=
  Json.dq "{'drawing_type': 'floor_plan', 'confidence': 1.5}".

Definition negative_answer : string :=
  Json.dq "```json
{'drawing_type': 'section', 'confidence': -0.25}
```".

Definition default_classifier : Classifier.DrawingClassifier :=
  Classifier.init None None None.

(** ** Sample geocoding *)

Definition palace : Geocoder.GeocodingResult.t :=
  {| Geocoder.GeocodingResult.location :=
       {| LocationInfo.address := None;
          LocationInfo.postcode := Some "SW1A 1AA";
          LocationInfo.latitude := Some 51.501009%float;
          LocationInfo.longitude := Some (-0.141588)%float;
          LocationInfo.local_authority := Some "Westminster";
          LocationInfo.region := Some "London";
          LocationInfo.country := Some "England";
          LocationInfo.what3words := None |};
     Geocoder.GeocodingResult.source := "postcodes.io";
     Geocoder.GeocodingResult.raw_response := None;
     Geocoder.GeocodingResult.match_quality := "exact" |}.

(** postcodes.io knows one postcode; the other services are out of reach. *)
Definition postcodes_io_only : Geocoder.Providers :=
  {| Geocoder.ask_postcodes_io := fun normalized =>
       if String.eqb normalized "SW1A 1AA" then Return palace
       else Raise ValueError ("Postcode not found: " +:+ normalized);
     Geocoder.ask_nominatim := fun _ => Raise RuntimeError "Cannot connect to host";
     Geocoder.ask_google := fun _ _ => Raise RuntimeError "Cannot connect to host" |}.

Definition default_geocoder : Geocoder.Geocoder := Geocoder.init None None.

(** A location read from a title block: a lower-case postcode and a region
    of its own. *)
Definition title_block_location : LocationInfo.t :=
  {| LocationInfo.address := Some "Buckingham Palace";
     LocationInfo.postcode := Some "sw1a 1aa";
     LocationInfo.latitude := Some 0%float;
     LocationInfo.longitude := None;
     LocationInfo.local_authority := None;
     LocationInfo.region := Some "";
     LocationInfo.country := Some "UK";
     LocationInfo.what3words := Some "fence.gross.bats" |}.

(** ** Sample bills of quantities *)

Definition boq (item_number : string) (quantity rate : float)
    (amount : option float) : QSPlus.BOQItem.t :=
  QSPlus.BOQItem.init item_number "Item" "m2" (Some quantity) (Some rate) amount
    None None None None None.



Definition exporter_of (items : list QSPlus.BOQItem.t) : QSPlus.QSPlusExporter :=
  QSPlus.add_items
    (QSPlus.init "2025-01-01 00:00:00" (Some "Sample") (Some "S-1")) items.
Example format_checks :
  format_0f 57.14285714285714%float = "57" /\ format_0f 62.5%float = "62"
  /\ format_0f 87.5%float = "88" /\ format_0f 0%float = "0"
  /\ format_2f 0.125%float = "0.12" /\ format_2f 0.375%float = "0.38"
  /\ format_2f 2.675%float = "2.67" /\ format_2f (-0.001)%float = "-0.00"
  /\ format_2f 1e22%float = "10000000000000000000000.00"
  /\ title (replace_char "_" " " "floor_plan") = "Floor Plan"
  /\ strip "  a b  " = "a b" /\ str_of_nat 12 = "12".
Proof. vm_compute. repeat split. Qed.


(* ===================================================================== *)
(** * Properties of the completeness assessment *)
(* ===================================================================== *)

Section AssessCompleteness.

Import Intake Claims.

(** The lookup in [REQUIRED_DRAWINGS] reaches one of its four lists. *)
Lemma required_list_cases (project_type : string) :
  required_list project_type = [SITE_PLAN; FLOOR_PLAN; ELEVATION; SECTION]
  \/ required_list project_type
     = [SITE_PLAN; FLOOR_PLAN; ELEVATION; SECTION; ROOF_PLAN]
  \/ required_list project_type = [FLOOR_PLAN; DEMOLITION]
  \/ required_list project_type = [FLOOR_PLAN].
Proof.
  unfold required_list, REQUIRED_DRAWINGS. simpl.
  repeat (match goal with |- context [if ?c then _ else _] =>
            destruct c end); auto.
Qed.

Lemma required_list_NoDup (project_type : string) :
  NoDup (required_list project_type).
Proof.
  destruct (required_list_cases project_type) as [H | [H | [H | H]]];
    rewrite H; apply (bool_decide_unpack _); vm_compute; exact I.
Qed.

Lemma required_list_known (project_type : string) :
  UNKNOWN ∉ required_list project_type.
Proof.
  destruct (required_list_cases project_type) as [H | [H | [H | H]]];
    rewrite H; apply (bool_decide_unpack _); vm_compute; exact I.
Qed.

(** Membership in the set of present types, for a type other than the
    sentinel. *)
Lemma present_types_spec (drawings : list DrawingInfo.t) (t : DrawingType) :
  t <> UNKNOWN ->
  t ∈ (list_to_set
         (List.map DrawingInfo.drawing_type
            (List.filter
               (fun d => negb (bool_decide (DrawingInfo.drawing_type d = UNKNOWN)))
               drawings)) : gset DrawingType)
  <-> type_present drawings t = true.
Proof.
  intros Hk. rewrite elem_of_list_to_set, list_elem_of_In, in_map_iff.
  unfold type_present. rewrite existsb_exists. split.
  - intros (d & <- & Hd). apply filter_In in Hd as [Hd _].
    exists d. split; [exact Hd | apply bool_decide_eq_true; reflexivity].
  - intros (d & Hd & Ht). apply bool_decide_eq_true in Ht.
    exists d. split; [exact Ht |]. apply filter_In. split; [exact Hd |].
    apply negb_true_iff, bool_decide_eq_false. congruence.
Qed.

(** [len(required - missing_types)] counts the required types present. *)
Lemma size_required_minus_missing (l : list DrawingType)
    (P : gset DrawingType) (f : DrawingType -> bool) :
  NoDup l -> (forall t, t ∈ l -> (t ∈ P <-> f t = true)) ->
  size ((list_to_set l : gset DrawingType) ∖ (list_to_set l ∖ P))
  = length (List.filter f l).
Proof.
  intros Hnd Hf.
  assert (Heq : (list_to_set l : gset DrawingType) ∖ (list_to_set l ∖ P)
                = list_to_set (List.filter f l)).
  { apply set_eq. intros t.
    rewrite elem_of_difference, elem_of_difference, !elem_of_list_to_set.
    rewrite (list_elem_of_In (List.filter f l)), filter_In, <- list_elem_of_In.
    split.
    - intros [Hl Hn]. split; [exact Hl |]. apply Hf; [exact Hl |].
      destruct (decide (t ∈ P)) as [|HnP]; [assumption |].
      exfalso. apply Hn. split; assumption.
    - intros [Hl Ht]. split; [exact Hl |]. intros [_ HnP].
      apply HnP, Hf; assumption. }
  rewrite Heq. apply size_list_to_set.
  clear -Hnd. induction Hnd as [| x l Hx Hnd IH]; simpl; [constructor |].
  destruct (f x); [constructor |]; try exact IH.
  rewrite list_elem_of_In, filter_In, <- list_elem_of_In. tauto.
Qed.

Lemma filter_nil_existsb {A} (f : A -> bool) (l : list A) :
  match List.filter f l with [] => existsb f l = false
                           | _ :: _ => existsb f l = true end.
Proof.
  induction l as [| a l IH]; simpl; [reflexivity |].
  destruct (f a); simpl; [reflexivity | exact IH].
Qed.

(** The passed and total counts the code computes. *)
Lemma passed_le_total (project_type : string) (drawings : list DrawingInfo.t)
    (metadata : ProjectMetadata.t) :
  (required_types_present project_type drawings
   + metadata_checks_passed metadata
   <= required_types_count project_type + 3)%nat.
Proof.
  unfold required_types_present, required_types_count, metadata_checks_passed.
  pose proof (filter_length_le (type_present drawings)
                               (required_list project_type)) as Hle.
  repeat match goal with |- context [if ?b then _ else _] => destruct b end;
    lia.
Qed.

(** On every pair of counts the assessment can reach, the binary64
    comparison [pct >= 80] agrees with the exact one. *)
Lemma pct_threshold_exact (passed total : nat) :
  (passed <= total)%nat -> (total = 4 \/ total = 5 \/ total = 7 \/ total = 8)%nat ->
  PrimFloat.leb 80%float
    (float_of_nat passed / float_of_nat total * 100)%float
  = (80 * total <=? 100 * passed)%nat.
Proof.
  intros Hle Ht.
  assert (Hp : (passed < 9)%nat) by lia.
  do 9 (destruct passed as [| passed]; [
    destruct Ht as [-> | [-> | [-> | ->]]]; vm_compute; reflexivity || lia |]).
  lia.
Qed.

End AssessCompleteness.

Section AssessCompletenessClaims.

Import Intake Claims.

Variables (project_type project_id : string).
Variables (drawings : list DrawingInfo.t) (metadata : ProjectMetadata.t).

Let r := _assess_completeness project_type project_id drawings metadata.

Lemma assess_passed_checks :
  CompletenessReport.overall_completeness_pct r
  = (float_of_nat (required_types_present project_type drawings
                   + metadata_checks_passed metadata)
     / float_of_nat (required_types_count project_type + 3) * 100)%float.
Proof.
  subst r. unfold _assess_completeness. cbn [CompletenessReport.overall_completeness_pct].
  replace (0 <? size (list_to_set (required_list project_type) : gset DrawingType) + 3)%nat
    with true by (symmetry; apply Nat.ltb_lt; lia).
  rewrite (size_list_to_set _ (required_list_NoDup project_type)).
  rewrite (size_required_minus_missing _ _ (type_present drawings)
             (required_list_NoDup project_type)).
  - unfold required_types_present, required_types_count, metadata_checks_passed.
    rewrite !Nat.add_assoc. reflexivity.
  - intros t Ht. apply present_types_spec. intros ->.
    exact (required_list_known project_type Ht).
Qed.

Lemma assess_verdict :
  (CompletenessReport.status r, CompletenessReport.proceed_recommendation r)
  = (if existsb is_critical (CompletenessReport.missing_items r)
     then ("critical_gaps", "hold")
     else if PrimFloat.leb 80%float (CompletenessReport.overall_completeness_pct r)
          then ("complete", "proceed")
          else ("incomplete", "proceed_with_caution")).
Proof.
  subst r. unfold _assess_completeness.
  cbn [CompletenessReport.status CompletenessReport.proceed_recommendation
       CompletenessReport.missing_items CompletenessReport.overall_completeness_pct].
  match goal with |- context [List.filter is_critical ?l] =>
    pose proof (filter_nil_existsb is_critical l) as H;
    destruct (List.filter is_critical l) end; rewrite H; cbn [fst snd].
  - match goal with |- context [PrimFloat.leb ?a ?b] =>
      destruct (PrimFloat.leb a b) end; reflexivity.
  - reflexivity.
Qed.

End AssessCompletenessClaims.

(** C1.  For every completeness assessment the percentage is
    (required drawing types present + metadata checks passed) divided by
    (required drawing types + 3), times 100, the three metadata checks being
    project name, postcode and architect; the recommendation is "hold" when a
    critical item is missing, else "proceed" when the percentage is at least
    80, else "proceed_with_caution".  The last part adds that the binary64
    comparison with 80 decides exactly as the comparison of the integer
    counts does. *)
Theorem completeness_percentage_and_recommendation
    (project_type project_id : string) (drawings : list DrawingInfo.t)
    (metadata : ProjectMetadata.t) :
  let r := Intake._assess_completeness project_type project_id drawings metadata in
  let passed := (Claims.required_types_present project_type drawings
                 + Claims.metadata_checks_passed metadata)%nat in
  let total := (Claims.required_types_count project_type + 3)%nat in
  let pct := CompletenessReport.overall_completeness_pct r in
  pct = (float_of_nat passed / float_of_nat total * 100)%float
  /\ CompletenessReport.proceed_recommendation r
     = (if existsb Intake.is_critical (CompletenessReport.missing_items r)
        then "hold"
        else if PrimFloat.leb 80%float pct then "proceed"
        else "proceed_with_caution")
  /\ PrimFloat.leb 80%float pct = (80 * total <=? 100 * passed)%nat.
Proof.
  intros r passed total pct.
  assert (Hpct : pct = (float_of_nat passed / float_of_nat total * 100)%float)
    by apply assess_passed_checks.
  split; [exact Hpct |]. split.
  - pose proof (assess_verdict project_type project_id drawings metadata) as Hv.
    cbv zeta in Hv. fold r in Hv. fold pct in Hv.
    destruct (existsb Intake.is_critical (CompletenessReport.missing_items r)).
    + congruence.
    + destruct (PrimFloat.leb 80%float pct); congruence.
  - rewrite Hpct. apply pct_threshold_exact.
    + apply passed_le_total.
    + subst total. unfold Claims.required_types_count.
      destruct (required_list_cases project_type) as [H | [H | [H | H]]];
        rewrite H; simpl; lia.
Qed.


Section MissingItems.

Import Intake Claims.

Variables (project_type project_id : string).
Variables (drawings : list DrawingInfo.t) (metadata : ProjectMetadata.t).

Let r := _assess_completeness project_type project_id drawings metadata.

(** A required type is reported missing exactly when no drawing has it. *)
Lemma missing_types_spec (t : DrawingType) :
  t ∈ elements
        ((list_to_set (required_list project_type) : gset DrawingType)
         ∖ list_to_set
             (List.map DrawingInfo.drawing_type
                (List.filter
                   (fun d => negb (bool_decide (DrawingInfo.drawing_type d = UNKNOWN)))
                   drawings)))
  <-> t ∈ required_list project_type /\ type_present drawings t = false.
Proof.
  rewrite elem_of_elements, elem_of_difference, elem_of_list_to_set.
  split; intros [Hreq Hp]; (split; [exact Hreq |]).
  - destruct (type_present drawings t) eqn:E; [| reflexivity].
    exfalso. apply Hp. apply present_types_spec; [| exact E].
    intros ->. exact (required_list_known project_type Hreq).
  - intros Hin. apply present_types_spec in Hin; [congruence |].
    intros ->. exact (required_list_known project_type Hreq).
Qed.

(** The items of the report: one per missing required type, or a metadata
    gap of severity "minor" (project name) or "important" (postcode). *)
Lemma missing_items_cases (m : MissingItem.t) :
  m ∈ CompletenessReport.missing_items r ->
  (exists t, t ∈ required_list project_type
             /\ type_present drawings t = false
             /\ m = missing_drawing_item t)
  \/ (truthy_opt truthy_str (ProjectMetadata.project_name metadata) = false
      /\ MissingItem.item_type m = "metadata"
      /\ MissingItem.severity m = "minor")
  \/ (has_postcode metadata = false
      /\ MissingItem.item_type m = "metadata"
      /\ MissingItem.severity m = "important").
Proof.
  subst r. unfold _assess_completeness. cbn [CompletenessReport.missing_items].
  rewrite !elem_of_app, list_elem_of_In, in_map_iff.
  intros [(t & <- & Ht) | [Hn | Hl]].
  - left. exists t. apply list_elem_of_In, missing_types_spec in Ht.
    destruct Ht. auto.
  - right. left.
    destruct (truthy_opt truthy_str (ProjectMetadata.project_name metadata));
      simpl in Hn; [inversion Hn |].
    apply list_elem_of_singleton in Hn as ->. auto.
  - right. right. destruct (has_postcode metadata); simpl in Hl; [inversion Hl |].
    apply list_elem_of_singleton in Hl as ->. auto.
Qed.

(** Every required type that no drawing has is reported. *)
Lemma missing_drawing_reported (t : DrawingType) :
  t ∈ required_list project_type -> type_present drawings t = false ->
  missing_drawing_item t ∈ CompletenessReport.missing_items r.
Proof.
  intros Hreq Hp. subst r. unfold _assess_completeness.
  cbn [CompletenessReport.missing_items].
  rewrite !elem_of_app, list_elem_of_In, in_map_iff. left.
  exists t. split; [reflexivity |].
  apply list_elem_of_In, missing_types_spec. auto.
Qed.

(** A critical item forces the verdict, and its description is a reason. *)
Lemma critical_item_holds (m : MissingItem.t) :
  m ∈ CompletenessReport.missing_items r ->
  MissingItem.severity m = "critical" ->
  CompletenessReport.status r = "critical_gaps"
  /\ CompletenessReport.proceed_recommendation r = "hold"
  /\ MissingItem.description m ∈ CompletenessReport.hold_reasons r.
Proof.
  intros Hin Hsev.
  assert (Hc : is_critical m = true) by (unfold is_critical; rewrite Hsev; reflexivity).
  subst r. unfold _assess_completeness in *.
  cbn [CompletenessReport.status CompletenessReport.proceed_recommendation
       CompletenessReport.hold_reasons CompletenessReport.missing_items] in *.
  match goal with |- context [List.filter is_critical ?l] =>
    assert (Hf : m ∈ List.filter is_critical l)
      by (apply list_elem_of_In, filter_In; split;
          [apply list_elem_of_In; exact Hin | exact Hc]);
    destruct (List.filter is_critical l) as [| c cs] end.
  - inversion Hf.
  - cbn [fst snd]. repeat split.
    apply list_elem_of_In, in_map, list_elem_of_In. exact Hf.
Qed.

End MissingItems.

(** Severity and description of the item written for a missing type. *)
Lemma missing_drawing_item_severity (t : DrawingType) :
  MissingItem.item_type (Intake.missing_drawing_item t) = "drawing"
  /\ MissingItem.severity (Intake.missing_drawing_item t)
     = match t with
       | FLOOR_PLAN | SITE_PLAN => "critical"
       | _ => "important"
       end
  /\ MissingItem.description (Intake.missing_drawing_item FLOOR_PLAN)
     = "Floor Plan drawing"
  /\ MissingItem.description (Intake.missing_drawing_item SITE_PLAN)
     = "Site Plan drawing".
Proof. destruct t; vm_compute; auto. Qed.

(** C2.  In every completeness report a missing item is "critical" only
    when it is the missing floor-plan or site-plan drawing; every other
    missing required drawing type is reported "important"; metadata gaps are
    "minor" or "important"; and as soon as one critical item exists the
    status is "critical_gaps", the recommendation is "hold" and the
    description of every critical item is among [hold_reasons]. *)
Theorem critical_reserved_and_forces_hold
    (project_type project_id : string) (drawings : list DrawingInfo.t)
    (metadata : ProjectMetadata.t) :
  let r := Intake._assess_completeness project_type project_id drawings metadata in
  let items := CompletenessReport.missing_items r in
  (forall m, m ∈ items -> MissingItem.severity m = "critical" ->
     exists t, (t = FLOOR_PLAN \/ t = SITE_PLAN)
               /\ t ∈ Intake.required_list project_type
               /\ Claims.type_present drawings t = false
               /\ m = Intake.missing_drawing_item t
               /\ MissingItem.item_type m = "drawing")
  /\ (forall t, t ∈ Intake.required_list project_type ->
        Claims.type_present drawings t = false ->
        Intake.missing_drawing_item t ∈ items
        /\ MissingItem.severity (Intake.missing_drawing_item t)
           = (if bool_decide (t = FLOOR_PLAN \/ t = SITE_PLAN)
              then "critical" else "important"))
  /\ (forall m, m ∈ items -> MissingItem.item_type m = "metadata" ->
        MissingItem.severity m = "minor" \/ MissingItem.severity m = "important")
  /\ (forall m, m ∈ items -> MissingItem.severity m = "critical" ->
        CompletenessReport.status r = "critical_gaps"
        /\ CompletenessReport.proceed_recommendation r = "hold"
        /\ MissingItem.description m ∈ CompletenessReport.hold_reasons r).
Proof.
  intros r items.
  split; [| split; [| split]].
  - intros m Hin Hsev.
    destruct (missing_items_cases project_type project_id drawings metadata m Hin)
      as [(t & Hreq & Hp & ->) | [(_ & _ & Hs) | (_ & _ & Hs)]];
      [| rewrite Hs in Hsev; discriminate ..].
    exists t. repeat split; try assumption.
    destruct t; try (vm_compute in Hsev; discriminate); auto.
  - intros t Hreq Hp. split.
    + apply missing_drawing_reported; assumption.
    + reflexivity.
  - intros m Hin Hty.
    destruct (missing_items_cases project_type project_id drawings metadata m Hin)
      as [(t & _ & _ & ->) | [(_ & _ & Hs) | (_ & _ & Hs)]]; auto.
    discriminate Hty.
  - intros m Hin Hsev.
    exact (critical_item_holds project_type project_id drawings metadata m Hin Hsev).
Qed.

(* ===================================================================== *)
(** * Properties of the directory parse *)
(* ===================================================================== *)

Section ParseDirectory.

Import PdfParser Claims.

Variables (fs : FileSystem) (self : PDFParser) (output_dir : option string).

(** A single-file parse raises only for want of the PDF library. *)
Lemma execute_raises (path : string) (arg : option bool) (e : exn) (msg : string) :
  execute fs self path output_dir arg = Raise e msg ->
  e = ImportError /\ fitz_installed fs = false.
Proof.
  unfold execute, _ensure_fitz.
  destruct (negb (f_exists (lookup_path fs path))); [discriminate |].
  destruct (negb (String.eqb _ _)); [discriminate |].
  destruct (fitz_installed fs).
  - destruct (f_document (lookup_path fs path)) as [[md raw] |]; [| discriminate].
    destruct (_detect_if_scanned _) as [sc ht].
    destruct (sc && negb ht); [discriminate |]. destruct sc; discriminate.
  - intros H. inversion H. auto.
Qed.

(** A file that parsed carries data; a file that did not carries none. *)
Lemma execute_success_data (path : string) (arg : option bool)
    (r : ToolResult.t PDFParserResult.t) :
  execute fs self path output_dir arg = Return r ->
  (ToolResult.success r = true <-> exists d, ToolResult.data r = Some d).
Proof.
  unfold execute, _ensure_fitz.
  destruct (negb (f_exists (lookup_path fs path))).
  { intros H; inversion H; subst; simpl. split; [discriminate | intros [? ?]; discriminate]. }
  destruct (negb (String.eqb _ _)).
  { intros H; inversion H; subst; simpl. split; [discriminate | intros [? ?]; discriminate]. }
  destruct (fitz_installed fs); [| discriminate].
  destruct (f_document (lookup_path fs path)) as [[md raw] |].
  - destruct (_detect_if_scanned _) as [sc ht].
    destruct (sc && negb ht); [| destruct sc];
      intros H; inversion H; subst; simpl; split; eauto.
  - intros H; inversion H; subst; simpl.
    split; [discriminate | intros [? ?]; discriminate].
Qed.

(** The loop over the files found: what it accumulates. *)
Lemma parse_each_spec (files : list string) :
  forall results errors warnings,
  match parse_each fs self output_dir files results errors warnings with
  | Return (rs, es, ws) =>
      rs = results ++ omap (file_parsed fs self output_dir) files
      /\ es = errors ++ concat (List.map (file_errors fs self output_dir) files)
      /\ ws = warnings ++ concat (List.map (file_warnings fs self output_dir) files)
  | Raise e _ => e = ImportError /\ fitz_installed fs = false
  end.
Proof.
  induction files as [| f files IH]; intros results errors warnings.
  - simpl. rewrite !app_nil_r. auto.
  - cbn [parse_each].
    destruct (execute fs self f output_dir None) as [r | e msg] eqn:E.
    + pose proof (execute_success_data f None r E) as Hsd.
      assert (Hp : file_parsed fs self output_dir f
                   = if ToolResult.success r then ToolResult.data r else None)
        by (unfold file_parsed; rewrite E; reflexivity).
      assert (He : file_errors fs self output_dir f
                   = match file_parsed fs self output_dir f with
                     | Some _ => [] | None => ToolResult.errors r end)
        by (unfold file_errors; rewrite E; reflexivity).
      assert (Hw : file_warnings fs self output_dir f = ToolResult.warnings r)
        by (unfold file_warnings; rewrite E; reflexivity).
      cbn [omap list_omap List.map concat]. rewrite He, Hw, Hp.
      destruct (ToolResult.success r) eqn:S, (ToolResult.data r) as [d |] eqn:D.
      * specialize (IH (results ++ [d]) errors
                       (warnings ++ ToolResult.warnings r)).
        destruct (parse_each _ _ _ _ _ _ _) as [[[rs es] ws] | e' m']; [| exact IH].
        destruct IH as (-> & -> & ->). rewrite <- !app_assoc. auto.
      * exfalso. destruct Hsd as [Hsd _]. destruct (Hsd eq_refl). discriminate.
      * exfalso. destruct Hsd as [_ Hsd]. specialize (Hsd (ex_intro _ d eq_refl)).
        discriminate.
      * specialize (IH results (errors ++ ToolResult.errors r)
                       (warnings ++ ToolResult.warnings r)).
        destruct (parse_each _ _ _ _ _ _ _) as [[[rs es] ws] | e' m']; [| exact IH].
        destruct IH as (-> & -> & ->). rewrite <- !app_assoc. auto.
    + apply execute_raises in E. exact E.
Qed.

End ParseDirectory.

(** C4, as the code has it.  [parse_directory] returns FAILED exactly when
    the directory does not exist or when PDF files were found and none of
    them parsed.  For a missing directory the result is the DIR_NOT_FOUND
    error alone; when files were found and none parsed, it carries no data
    and the errors and warnings of the files, in order.  An existing
    directory without PDF files gives PARTIAL with an empty list and one
    warning; and as soon as one found file parses the batch is SUCCESS or
    PARTIAL, its data the parsed files in order, its errors those of the
    files that did not parse and its warnings those of all files.  The call
    raises only when the PDF library is missing. *)
Theorem parse_directory_outcomes
    (fs : PdfParser.FileSystem) (self : PdfParser.PDFParser)
    (directory : string) (output_dir : option string) (recursive : bool) :
  let found :=
    PdfParser.glob fs directory (if recursive then "**/*.pdf" else "*.pdf") in
  let parsed := omap (Claims.file_parsed fs self output_dir) found in
  let present := PdfParser.f_exists (PdfParser.lookup_path fs directory) in
  match PdfParser.parse_directory fs self directory output_dir recursive with
  | Raise e _ =>
      e = ImportError /\ PdfParser.fitz_installed fs = false /\ present = true
  | Return r =>
      (ToolResult.status r = FAILED
       <-> present = false \/ (found <> [] /\ parsed = []))
      /\ (present = true -> found = [] ->
          ToolResult.status r = PARTIAL /\ ToolResult.data r = Some []
          /\ ToolResult.errors r = []
          /\ ToolResult.warnings r = ["No PDF files found in directory"])
      /\ (present = true -> parsed <> [] ->
          ToolResult.status r
          = match ToolResult.errors r with [] => SUCCESS | _ => PARTIAL end
          /\ ToolResult.data r = Some parsed
          /\ ToolResult.errors r
             = concat (List.map (Claims.file_errors fs self output_dir) found)
          /\ ToolResult.warnings r
             = concat (List.map (Claims.file_warnings fs self output_dir) found))
      /\ (present = false ->
          ToolResult.data r = None
          /\ ToolResult.errors r
             = [{| ToolError.code := "PDF_PARSER_DIR_NOT_FOUND";
                   ToolError.message :=
                     "Directory not found: "
                     +:+ PdfParser.f_str (PdfParser.lookup_path fs directory);
                   ToolError.recoverable := false;
                   ToolError.details := None |}]
          /\ ToolResult.warnings r = [])
      /\ (present = true -> found <> [] -> parsed = [] ->
          ToolResult.data r = None
          /\ ToolResult.errors r
             = concat (List.map (Claims.file_errors fs self output_dir) found)
          /\ ToolResult.warnings r
             = concat (List.map (Claims.file_warnings fs self output_dir) found))
  end.
Proof.
  intros found parsed present. unfold PdfParser.parse_directory.
  fold present. destruct present eqn:Hpres; cbn [negb].
  2:{ cbn [ToolResult.status ToolResult.data ToolResult.errors ToolResult.warnings].
      split; [split; auto |]. split; [discriminate |]. split; [discriminate |].
      split; [| discriminate]. intros _. repeat split. }
  fold found. destruct found as [| f fl] eqn:Hfound.
  { cbn [ToolResult.status ToolResult.data ToolResult.errors ToolResult.warnings].
    split; [| split; [| split; [| split]]].
    - split; [discriminate |]. intros [H | [H _]]; [discriminate | congruence].
    - intros _ _. auto.
    - intros _ Hp. exfalso. apply Hp. reflexivity.
    - discriminate.
    - intros _ H. congruence. }
  pose proof (parse_each_spec fs self output_dir (f :: fl) [] [] []) as Hs.
  destruct (PdfParser.parse_each fs self output_dir (f :: fl) [] [] [])
    as [[[rs es] ws] | e m].
  - destruct Hs as (Hrs & Hes & Hws). cbn [app] in Hrs, Hes, Hws.
    fold parsed in Hrs. subst rs es ws.
    destruct parsed as [| p ps] eqn:Hparsed;
      cbn [ToolResult.status ToolResult.data ToolResult.errors ToolResult.warnings].
    + split; [| split; [| split; [| split]]].
      * split; [| reflexivity]. intros _. right. split; [discriminate | reflexivity].
      * discriminate.
      * intros _ Hp. exfalso. apply Hp. reflexivity.
      * discriminate.
      * intros _ _ _. auto.
    + split; [| split; [| split; [| split]]].
      * split.
        -- intros H. match type of H with match ?x with _ => _ end = _ => destruct x end; discriminate H.
        -- intros [H | [_ H]]; discriminate.
      * discriminate.
      * intros _ _. auto.
      * discriminate.
      * intros _ _ H. discriminate.
  - destruct Hs. auto.
Qed.

(** C4, as stated, fails: the directory [drawings/] exists and holds one
    PDF that cannot be opened, and the batch result is FAILED. *)
Lemma parse_directory_fails_in_existing_directory :
  PdfParser.f_exists (PdfParser.lookup_path fs_one_corrupt "drawings") = true
  /\ exists r,
       PdfParser.parse_directory fs_one_corrupt default_parser "drawings" None true
       = Return r
       /\ ToolResult.status r = FAILED
       /\ List.map ToolError.code (ToolResult.errors r)
          = ["PDF_PARSER_PARSE_ERROR"].
Proof. split; [reflexivity |]. eexists. split; [vm_compute; reflexivity |]. split; reflexivity. Qed.

(** One good file among the failures keeps the batch alive. *)
Example parse_directory_mixed :
  exists r,
    PdfParser.parse_directory fs_mixed default_parser "drawings" None true = Return r
    /\ ToolResult.status r = PARTIAL
    /\ option_map (List.map PdfParser.PDFParserResult.file_name) (ToolResult.data r)
       = Some ["plan.pdf"]
    /\ List.map ToolError.code (ToolResult.errors r) = ["PDF_PARSER_PARSE_ERROR"].
Proof. eexists. split; [vm_compute; reflexivity |]. repeat split. Qed.

Example parse_directory_without_pdfs :
  PdfParser.parse_directory fs_empty_dir default_parser "drawings" None true
  = Return (ToolResult.mk PARTIAL (Some []) [] ["No PDF files found in directory"]).
Proof. reflexivity. Qed.

(* ===================================================================== *)
(** * Properties of the orchestrator *)
(* ===================================================================== *)

(** C3.  When step 1 yields no parsed document, [analyze] returns an empty
    manifest (no document, no page, no drawing) and the "critical_gaps" /
    "hold" completeness report, and of all its steps only the creation of
    the output directory and the parse were carried out: no metadata
    extraction, geocoding, classification, manifest assembly over documents,
    completeness or scope computation, and no saving of outputs; the
    geocoder's cache is as before. *)
Theorem analyze_without_documents
    (determine_scope : string -> list DrawingInfo.t -> MeasurementScope.t)
    (w : Intake.World) (self : Intake.IntakeAnalyst)
    (cache : gmap string Geocoder.GeocodingResult.t)
    (input_path : string) (project_id : option string)
    (errors : list ToolError.t) (warnings : list string) :
  Intake.parse_input w self input_path = Return ([], errors, warnings) ->
  exists r trace,
    Intake.analyze determine_scope w self cache input_path project_id
    = Return (r, cache, trace)
    /\ trace = [Intake.EvMkdir (Intake.output_dir self); Intake.EvParse input_path]
    /\ forallb (fun e => negb (Intake.later_step e)) trace = true
    /\ DocumentManifest.documents (Intake.IntakeResult.manifest r) = []
    /\ DocumentManifest.total_pages (Intake.IntakeResult.manifest r) = 0%Z
    /\ DocumentManifest.total_drawings (Intake.IntakeResult.manifest r) = 0%Z
    /\ Intake.IntakeResult.completeness r
       = Intake._create_empty_completeness (Intake.IntakeResult.project_id r)
    /\ CompletenessReport.status (Intake.IntakeResult.completeness r)
       = "critical_gaps"
    /\ CompletenessReport.proceed_recommendation (Intake.IntakeResult.completeness r)
       = "hold"
    /\ Intake.IntakeResult.measurement_scope r
       = Intake._create_empty_scope (Intake.IntakeResult.project_id r)
    /\ Intake.IntakeResult.errors r = errors
    /\ Intake.IntakeResult.warnings r = warnings ++ ["No PDF documents processed"].
Proof.
  intros Hparse. unfold Intake.analyze. rewrite Hparse.
  eexists. eexists. split; [reflexivity |].
  repeat split; reflexivity.
Qed.

(** The theorem applies to an input path that does not exist. *)
Lemma analyze_without_documents_witness :
  exists r trace,
    Intake.analyze blank_scope (world_with fs_empty_dir) (Intake.init no_config)
                   ∅ "nowhere" (Some "P1")
    = Return (r, ∅, trace)
    /\ forallb (fun e => negb (Intake.later_step e)) trace = true
    /\ DocumentManifest.total_drawings (Intake.IntakeResult.manifest r) = 0%Z
    /\ CompletenessReport.status (Intake.IntakeResult.completeness r)
       = "critical_gaps"
    /\ CompletenessReport.proceed_recommendation (Intake.IntakeResult.completeness r)
       = "hold".
Proof.
  destruct (analyze_without_documents blank_scope (world_with fs_empty_dir)
              (Intake.init no_config) ∅ "nowhere" (Some "P1")
              [_create_error "pdf_parser" "DIR_NOT_FOUND"
                 "Directory not found: nowhere" false None] [])
    as (r & trace & H).
  - vm_compute. reflexivity.
  - exists r, trace. tauto.
Defined.

(* ===================================================================== *)
(** * Properties of the classifier's response parsing *)
(* ===================================================================== *)

(** The enumeration lookup finds a member exactly by its value. *)
Lemma DrawingType_of_value_spec (s : string) (t : DrawingType) :
  DrawingType_of_value s = Some t <-> s = value t.
Proof.
  split.
  - unfold DrawingType_of_value, members. cbn [List.find].
    repeat match goal with
           | |- context [String.eqb ?a s] =>
               destruct (String.eqb_spec a s) as [<- | _];
               [intros H; inversion H; subst; reflexivity |]
           end.
    discriminate.
  - intros ->. destruct t; reflexivity.
Qed.

Lemma DrawingType_of_value_none (s : string) :
  DrawingType_of_value s = None <-> forall t, s <> value t.
Proof.
  split.
  - intros H t Ht. apply DrawingType_of_value_spec in Ht. congruence.
  - intros H. destruct (DrawingType_of_value s) as [t |] eqn:E; [| reflexivity].
    apply DrawingType_of_value_spec in E. exfalso. exact (H t E).
Qed.

Section ParseResponse.

Import Classifier Claims.

Variable loads : string -> outcome json.
Variable float_of_str : string -> option float.

(** [_parse_response], case by case. *)
Lemma parse_response_cases (response_text : string) :
  _parse_response loads float_of_str response_text
  = match extracted_json response_text with
    | None =>
        Return (ClassificationResult.unknown "Failed to parse model response"
                  (Some response_text))
    | Some json_str =>
        match loads json_str with
        | Raise JSONDecodeError msg =>
            Return (ClassificationResult.unknown ("JSON parse error: " +:+ msg)
                      (Some response_text))
        | Raise e msg => Raise e msg
        | Return (JObj items) =>
            match dict_get items "drawing_type" (JStr "unknown") with
            | JStr s =>
                match py_float float_of_str
                        (dict_get items "confidence" (JFloat 0.5%float)) with
                | Raise e msg => Raise e msg
                | Return c =>
                    Return
                      {| ClassificationResult.drawing_type :=
                           default UNKNOWN (DrawingType_of_value (lower s));
                         ClassificationResult.drawing_number :=
                           dict_get items "drawing_number" JNull;
                         ClassificationResult.drawing_title :=
                           dict_get items "drawing_title" JNull;
                         ClassificationResult.revision :=
                           dict_get items "revision" JNull;
                         ClassificationResult.scale := dict_get items "scale" JNull;
                         ClassificationResult.dimensions_present :=
                           dict_get items "dimensions_present" (JBool false);
                         ClassificationResult.annotations_present :=
                           dict_get items "annotations_present" (JBool false);
                         ClassificationResult.confidence := c;
                         ClassificationResult.measurement_potential :=
                           dict_get items "measurement_potential" (JArr []);
                         ClassificationResult.notes := dict_get items "notes" (JArr []);
                         ClassificationResult.raw_response := Some response_text |}
                end
            | v => Raise AttributeError
                     ("'" +:+ type_name v +:+ "' object has no attribute 'lower'")
            end
        | Return v =>
            Raise AttributeError
              ("'" +:+ type_name v +:+ "' object has no attribute 'get'")
        end
    end.
Proof.
  unfold _parse_response, extracted_json.
  destruct (search_fenced response_text) as [g |];
    [| destruct (search_braces response_text) as [g |]; [| reflexivity]];
    (destruct (loads g) as [[| | | | | |items] | [] msg]; try reflexivity;
     destruct (dict_get items "drawing_type" (JStr "unknown")); try reflexivity;
     destruct (py_float _ _); try reflexivity;
     destruct (DrawingType_of_value _); reflexivity).
Qed.

(** [float()] never raises the decoder's error. *)
Lemma py_float_not_decode_error (v : json) (msg : string) :
  py_float float_of_str v <> Raise JSONDecodeError msg.
Proof.
  destruct v; simpl; try discriminate.
  - destruct (PrimFloat.eqb _ _); discriminate.
  - destruct (float_of_str s); discriminate.
Qed.

End ParseResponse.

(** The readings of a response, case by case. *)
Lemma parse_response_readings
    (loads : string -> outcome json) (float_of_str : string -> option float)
    (response_text : string) :
  let parse := Classifier._parse_response loads float_of_str response_text in
  let text := Claims.extracted_json response_text in
  (forall msg, parse <> Raise JSONDecodeError msg)
  /\ (text = None ->
      parse = Return (Classifier.ClassificationResult.unknown
                        "Failed to parse model response" (Some response_text)))
  /\ (forall json_str msg,
        text = Some json_str -> loads json_str = Raise JSONDecodeError msg ->
        parse = Return (Classifier.ClassificationResult.unknown
                          ("JSON parse error: " +:+ msg) (Some response_text)))
  /\ (forall json_str items s c,
        text = Some json_str -> loads json_str = Return (JObj items) ->
        dict_get items "drawing_type" (JStr "unknown") = JStr s ->
        Classifier.py_float float_of_str
          (dict_get items "confidence" (JFloat 0.5%float)) = Return c ->
        exists r,
          parse = Return r
          /\ Classifier.ClassificationResult.confidence r = c
          /\ Classifier.ClassificationResult.raw_response r = Some response_text
          /\ (forall t, lower s = value t ->
                Classifier.ClassificationResult.drawing_type r = t)
          /\ ((forall t, lower s <> value t) ->
                Classifier.ClassificationResult.drawing_type r = UNKNOWN))
  /\ (forall json_str v,
        text = Some json_str -> loads json_str = Return v ->
        (forall items, v <> JObj items) ->
        exists msg, parse = Raise AttributeError msg)
  /\ (forall json_str items v,
        text = Some json_str -> loads json_str = Return (JObj items) ->
        dict_get items "drawing_type" (JStr "unknown") = v ->
        (forall s, v <> JStr s) ->
        exists msg, parse = Raise AttributeError msg)
  /\ (forall json_str items s e msg,
        text = Some json_str -> loads json_str = Return (JObj items) ->
        dict_get items "drawing_type" (JStr "unknown") = JStr s ->
        Classifier.py_float float_of_str
          (dict_get items "confidence" (JFloat 0.5%float)) = Raise e msg ->
        parse = Raise e msg)
  /\ (forall json_str e msg,
        text = Some json_str -> loads json_str = Raise e msg ->
        e <> JSONDecodeError -> parse = Raise e msg).
Proof.
  intros parse text. subst parse text.
  rewrite parse_response_cases.
  destruct (Claims.extracted_json response_text) as [g |].
  2:{ repeat split; try discriminate. }
  split; [| split; [| split; [| split; [| split; [| split; [| split]]]]]].
  - intros msg.
    destruct (loads g) as [[| | | | | |items] | [] m]; try discriminate.
    destruct (dict_get items "drawing_type" (JStr "unknown")); try discriminate.
    destruct (Classifier.py_float _ _) as [c | e m] eqn:E; [discriminate |].
    intros H. inversion H; subst.
    exact (py_float_not_decode_error float_of_str _ _ E).
  - discriminate.
  - intros json_str msg H Hl. injection H as ->. rewrite Hl. reflexivity.
  - intros json_str items s c H Hl Hd Hc. injection H as ->.
    rewrite Hl, Hd, Hc. eexists. split; [reflexivity |].
    cbn [Classifier.ClassificationResult.confidence
         Classifier.ClassificationResult.raw_response
         Classifier.ClassificationResult.drawing_type].
    repeat split.
    + intros t Ht. apply DrawingType_of_value_spec in Ht. rewrite Ht. reflexivity.
    + intros Hn. apply DrawingType_of_value_none in Hn. rewrite Hn. reflexivity.
  - intros json_str v H Hl Hv. injection H as ->. rewrite Hl.
    destruct v; try (eexists; reflexivity). exfalso. exact (Hv l eq_refl).
  - intros json_str items v H Hl Hd Hv. injection H as ->. rewrite Hl, Hd.
    destruct v; try (eexists; reflexivity). exfalso. exact (Hv s eq_refl).
  - intros json_str items s e msg H Hl Hd Hc. injection H as ->.
    rewrite Hl, Hd, Hc. reflexivity.
  - intros json_str e msg H Hl He. injection H as ->. rewrite Hl.
    destruct e; try reflexivity. exfalso. apply He. reflexivity.
Qed.

(** C5, as the code has it.  [_parse_response] takes the JSON text from the
    fenced block when the fenced pattern matches and else from the first
    opening brace to the last closing brace.  Without such a text, or when
    the decoder rejects it, the result is UNKNOWN with confidence 0.0 and
    one diagnostic note.  When the decoder gives an object whose
    drawing_type is a string (or is missing) and whose confidence converts to
    a float, the result carries the member whose value is the lower-cased
    string, or UNKNOWN when there is none.  The function never raises the
    decoder's error, but it does raise: [AttributeError] when the decoded
    value is not an object or its drawing_type is not a string, whatever
    [float()] raises on the confidence, and any other exception of the
    decoder.  What it raises does not leave [DrawingClassifier.execute]: a
    call that got this response from its provider returns FAILED, with no
    data and the one recoverable error CLASSIFICATION_ERROR that carries the
    message and the name of the exception. *)
Theorem parse_response_outcomes
    (loads : string -> outcome json) (float_of_str : string -> option float)
    (response_text : string) :
  let parse := Classifier._parse_response loads float_of_str response_text in
  let text := Claims.extracted_json response_text in
  (forall msg, parse <> Raise JSONDecodeError msg)
  /\ (text = None ->
      parse = Return (Classifier.ClassificationResult.unknown
                        "Failed to parse model response" (Some response_text)))
  /\ (forall json_str msg,
        text = Some json_str -> loads json_str = Raise JSONDecodeError msg ->
        parse = Return (Classifier.ClassificationResult.unknown
                          ("JSON parse error: " +:+ msg) (Some response_text)))
  /\ (forall json_str items s c,
        text = Some json_str -> loads json_str = Return (JObj items) ->
        dict_get items "drawing_type" (JStr "unknown") = JStr s ->
        Classifier.py_float float_of_str
          (dict_get items "confidence" (JFloat 0.5%float)) = Return c ->
        exists r,
          parse = Return r
          /\ Classifier.ClassificationResult.confidence r = c
          /\ Classifier.ClassificationResult.raw_response r = Some response_text
          /\ (forall t, lower s = value t ->
                Classifier.ClassificationResult.drawing_type r = t)
          /\ ((forall t, lower s <> value t) ->
                Classifier.ClassificationResult.drawing_type r = UNKNOWN))
  /\ (forall json_str v,
        text = Some json_str -> loads json_str = Return v ->
        (forall items, v <> JObj items) ->
        exists msg, parse = Raise AttributeError msg)
  /\ (forall json_str items v,
        text = Some json_str -> loads json_str = Return (JObj items) ->
        dict_get items "drawing_type" (JStr "unknown") = v ->
        (forall s, v <> JStr s) ->
        exists msg, parse = Raise AttributeError msg)
  /\ (forall json_str items s e msg,
        text = Some json_str -> loads json_str = Return (JObj items) ->
        dict_get items "drawing_type" (JStr "unknown") = JStr s ->
        Classifier.py_float float_of_str
          (dict_get items "confidence" (JFloat 0.5%float)) = Raise e msg ->
        parse = Raise e msg)
  /\ (forall json_str e msg,
        text = Some json_str -> loads json_str = Raise e msg ->
        e <> JSONDecodeError -> parse = Raise e msg)
  /\ (forall (w : Classifier.Vision) (self : Classifier.DrawingClassifier)
             (image_path : string) (source_file : option string)
             (page_number : Z) e msg,
        Classifier.image_exists w image_path = true ->
        existsb (String.eqb (lower (Classifier.image_suffix w image_path)))
                Classifier.valid_extensions = true ->
        existsb (String.eqb (Classifier.provider self))
                Classifier.SUPPORTED_PROVIDERS = true ->
        Classifier.respond w (Classifier.provider self) image_path page_number
        = Return response_text ->
        parse = Raise e msg ->
        Classifier.execute loads float_of_str w self image_path source_file
                           page_number
        = ToolResult.mk FAILED None
            [{| ToolError.code := "DRAWING_CLASSIFIER_CLASSIFICATION_ERROR";
                ToolError.message := "Failed to classify drawing: " +:+ msg;
                ToolError.recoverable := true;
                ToolError.details := Some [("exception", exn_name e)] |}] []).
Proof.
  intros parse text.
  pose proof (parse_response_readings loads float_of_str response_text) as H.
  cbv zeta in H. fold parse text in H.
  destruct H as (H1 & H2 & H3 & H4 & H5 & H6 & H7 & H8).
  repeat (split; [assumption |]).
  intros w self image_path source_file page_number e msg Hex Hsuf Hprov Hresp Hp.
  unfold Classifier.execute. rewrite Hex, Hsuf, Hprov, Hresp.
  cbn [negb]. fold parse. rewrite Hp. reflexivity.
Qed.

(** C5, as stated, fails: a response whose JSON object has a null
    drawing_type makes [_parse_response] raise, and so do a confidence that
    is not a number and a JSON block that is not an object.  And the brace
    pattern does not take the first brace-delimited span: with two spans in
    the response, the text from the first opening to the last closing brace
    is decoded, and rejected. *)
Lemma parse_response_raises :
  Classifier._parse_response Json.loads Json.float_of_str
    (Json.dq "{'drawing_type': null, 'confidence': 0.9}")
  = Raise AttributeError "'NoneType' object has no attribute 'lower'"
  /\ Classifier._parse_response Json.loads Json.float_of_str
       (Json.dq "{'drawing_type': 'floor_plan', 'confidence': 'high'}")
     = Raise ValueError "could not convert string to float: 'high'"
  /\ Classifier._parse_response Json.loads Json.float_of_str
       ("```json" +:+ " [1, 2] " +:+ "```")
     = Raise AttributeError "'list' object has no attribute 'get'"
  /\ Classifier.ClassificationResult.drawing_type
       <$> match Classifier._parse_response Json.loads Json.float_of_str
                   (Json.dq "{'drawing_type': 'floor_plan'} as in {this example}")
           with Return r => Some r | Raise _ _ => None end
     = Some UNKNOWN.
Proof. vm_compute. repeat split. Qed.

(** ** What the two patterns match *)

Section Patterns.

Import Classifier Claims.

Lemma append_cons (c : ascii) (a b : string) :
  String c a +:+ b = String c (a +:+ b).
Proof. reflexivity. Qed.

Lemma append_nil (b : string) : EmptyString +:+ b = b.
Proof. reflexivity. Qed.

Ltac sapp := rewrite ?append_cons, ?append_nil.

Lemma up_to_last_brace_none (s : string) :
  up_to_last_brace s = None -> absent "}" s.
Proof.
  induction s as [| c s IH]; simpl; [trivial |].
  destruct (up_to_last_brace s); [discriminate |].
  destruct (Ascii.eqb_spec c "}") as [-> | Hc]; [discriminate |].
  intros _. split; [exact Hc | apply IH; reflexivity].
Qed.

Lemma up_to_last_brace_spec (s r : string) :
  up_to_last_brace s = Some r ->
  exists mid post,
    r = mid +:+ "}" /\ s = r +:+ post /\ absent "}" post.
Proof.
  revert r. induction s as [| c s IH]; intros r; simpl; [discriminate |].
  destruct (up_to_last_brace s) as [r' |] eqn:E.
  - intros H. injection H as <-.
    destruct (IH r' eq_refl) as (mid & post & Hr & Hs & Hp).
    exists (String c mid), post.
    rewrite Hr in Hs |- *. rewrite Hs at 1. auto.
  - destruct (Ascii.eqb_spec c "}") as [-> | Hc]; [| discriminate].
    intros H. injection H as <-.
    exists EmptyString, s. sapp. auto using up_to_last_brace_none.
Qed.

(** The brace pattern matches from the first opening brace of the response
    to the last closing brace after it. *)
Lemma search_braces_spec (text g : string) :
  search_braces text = Some g ->
  exists pre mid post,
    text = pre +:+ g +:+ post /\ g = "{" +:+ mid +:+ "}"
    /\ absent "{" pre /\ absent "}" post.
Proof.
  revert g. induction text as [| c s IH]; intros g; simpl; [discriminate |].
  destruct (Ascii.eqb_spec c "{") as [-> | Hc].
  - destruct (up_to_last_brace s) as [r |] eqn:E; [| discriminate].
    intros H. injection H as <-.
    destruct (up_to_last_brace_spec s r E) as (mid & post & Hr & Hs & Hp).
    exists EmptyString, mid, post.
    rewrite Hr in Hs |- *. rewrite Hs at 1. simpl. auto.
  - intros H. destruct (IH g H) as (pre & mid & post & Hs & Hg & Hpre & Hpost).
    exists (String c pre), mid, post. rewrite Hs at 1. simpl. auto.
Qed.

(** It fails only when no closing brace follows the first opening brace. *)
Lemma search_braces_none (text : string) :
  search_braces text = None ->
  absent "{" text
  \/ exists pre post,
       text = pre +:+ "{" +:+ post /\ absent "{" pre /\ absent "}" post.
Proof.
  induction text as [| c s IH]; simpl; [auto |].
  destruct (Ascii.eqb_spec c "{") as [-> | Hc].
  - destruct (up_to_last_brace s) eqn:E; [discriminate |]. intros _. right.
    exists EmptyString, s. sapp. simpl. auto using up_to_last_brace_none.
  - intros H. destruct (IH H) as [Ha | (pre & post & Hs & Hpre & Hpost)].
    + left. auto.
    + right. exists (String c pre), post. rewrite Hs at 1. simpl. auto.
Qed.

Lemma drop_prefix_spec (p s rest : string) :
  Json.drop_prefix p s = Some rest -> s = p +:+ rest.
Proof.
  revert s. induction p as [| a p IH]; intros s; simpl.
  - intros H. injection H as ->. reflexivity.
  - destruct s as [| b s]; [discriminate |].
    destruct (Ascii.eqb_spec a b) as [-> | _]; [| discriminate].
    intros H. rewrite (IH s H) at 1. reflexivity.
Qed.

Lemma after_first_spec (needle s rest : string) :
  after_first needle s = Some rest -> exists pre, s = pre +:+ needle +:+ rest.
Proof.
  revert rest. induction s as [| c s IH]; intros rest; simpl.
  - destruct (Json.drop_prefix needle EmptyString) eqn:E; [| discriminate].
    intros H. injection H as ->. exists EmptyString. sapp.
    exact (drop_prefix_spec _ _ _ E).
  - destruct (Json.drop_prefix needle (String c s)) eqn:E.
    + intros H. injection H as ->. exists EmptyString. sapp.
      exact (drop_prefix_spec _ _ _ E).
    + intros H. destruct (IH rest H) as (pre & Hs).
      exists (String c pre). rewrite Hs at 1. reflexivity.
Qed.

Lemma lstrip_spec (s : string) :
  exists ws, s = ws +:+ lstrip s /\ all_space ws.
Proof.
  induction s as [| c s (ws & Hs & Hw)]; simpl.
  - exists EmptyString. simpl. auto.
  - destruct (isspace c) eqn:E.
    + exists (String c ws). rewrite Hs at 1. simpl. auto.
    + exists EmptyString. simpl. auto.
Qed.

Lemma lazy_until_fence_spec (s g : string) :
  lazy_until_fence s = Some g ->
  exists ws post, s = g +:+ ws +:+ fence +:+ post /\ all_space ws.
Proof.
  revert g. induction s as [| c s IH]; intros g.
  - simpl. discriminate.
  - change (lazy_until_fence (String c s))
      with (match Json.drop_prefix fence (lstrip (String c s)) with
            | Some _ => Some EmptyString
            | None => match lazy_until_fence s with
                      | Some g => Some (String c g)
                      | None => None
                      end
            end).
    destruct (Json.drop_prefix fence (lstrip (String c s))) as [post |] eqn:E.
    + intros H. injection H as <-. apply drop_prefix_spec in E.
      destruct (lstrip_spec (String c s)) as (ws & Hs & Hw).
      exists ws, post. rewrite Hs at 1. rewrite E. auto.
    + destruct (lazy_until_fence s) as [g' |] eqn:El; [| discriminate].
      intros H. injection H as <-.
      destruct (IH g' eq_refl) as (ws & post & Hs & Hw).
      exists ws, post. rewrite Hs at 1. auto.
Qed.

(** The fenced pattern matches a fence followed by the word json, white
    space, the group, white space and a closing fence. *)
Lemma search_fenced_spec (text g : string) :
  search_fenced text = Some g ->
  exists pre ws1 ws2 post,
    text = pre +:+ (fence +:+ "json") +:+ ws1 +:+ g +:+ ws2 +:+ fence +:+ post
    /\ all_space ws1 /\ all_space ws2.
Proof.
  unfold search_fenced.
  destruct (after_first (fence +:+ "json") text) as [rest |] eqn:E; [| discriminate].
  intros H. destruct (after_first_spec _ _ _ E) as (pre & Ht).
  destruct (lstrip_spec rest) as (ws1 & Hr & Hw1).
  destruct (lazy_until_fence_spec _ _ H) as (ws2 & post & Hl & Hw2).
  exists pre, ws1, ws2, post. rewrite Ht, Hr at 1. rewrite Hl. auto.
Qed.

End Patterns.

(** ** The patterns on sample texts *)

(** The fenced and the brace pattern on sample responses; each line was
    compared with the answer of the interpreter's [re] module. *)
Example search_pattern_checks :
  (Classifier.search_fenced "```json
{'a':1}
```" = Some "{'a':1}" /\ Classifier.search_braces "```json
{'a':1}
```" = Some "{'a':1}")
  /\ (Classifier.search_fenced "text ```json   ``` more" = Some "" /\ Classifier.search_braces "text ```json   ``` more" = None)
  /\ (Classifier.search_fenced "```json {a} ``` ``` " = Some "{a}" /\ Classifier.search_braces "```json {a} ``` ``` " = Some "{a}")
  /\ (Classifier.search_fenced "```json a ` `` b```" = Some "a ` `` b" /\ Classifier.search_braces "```json a ` `` b```" = None)
  /\ (Classifier.search_fenced "```json abc" = None /\ Classifier.search_braces "```json abc" = None)
  /\ (Classifier.search_fenced "```json```" = Some "" /\ Classifier.search_braces "```json```" = None)
  /\ (Classifier.search_fenced "``` ```json x ```json y ```" = Some "x" /\ Classifier.search_braces "``` ```json x ```json y ```" = None)
  /\ (Classifier.search_fenced "```json x 

 ``` z ```" = Some "x" /\ Classifier.search_braces "```json x 

 ``` z ```" = None)
  /\ (Classifier.search_fenced "````json a ```" = Some "a" /\ Classifier.search_braces "````json a ```" = None)
  /\ (Classifier.search_fenced "```json``````" = Some "" /\ Classifier.search_braces "```json``````" = None)
  /\ (Classifier.search_fenced "```json a``` b ```" = Some "a" /\ Classifier.search_braces "```json a``` b ```" = None)
  /\ (Classifier.search_fenced "```json  ````" = Some "" /\ Classifier.search_braces "```json  ````" = None)
  /\ (Classifier.search_fenced "```json 	 a b 	
```" = Some "a b" /\ Classifier.search_braces "```json 	 a b 	
```" = None)
  /\ (Classifier.search_fenced "```jso ```json q```" = Some "q" /\ Classifier.search_braces "```jso ```json q```" = None)
  /\ (Classifier.search_fenced "``json ```json   r  s  ``` ```" = Some "r  s" /\ Classifier.search_braces "``json ```json   r  s  ``` ```" = None)
  /\ (Classifier.search_fenced "```json ` ```" = Some "`" /\ Classifier.search_braces "```json ` ```" = None)
  /\ (Classifier.search_fenced "```json `` ```" = Some "``" /\ Classifier.search_braces "```json `` ```" = None)
  /\ (Classifier.search_fenced "```json x `` ``` y" = Some "x ``" /\ Classifier.search_braces "```json x `` ``` y" = None)
  /\ (Classifier.search_fenced "no fence {a} and {b} end" = None /\ Classifier.search_braces "no fence {a} and {b} end" = Some "{a} and {b}")
  /\ (Classifier.search_fenced "}{" = None /\ Classifier.search_braces "}{" = None)
  /\ (Classifier.search_fenced "{" = None /\ Classifier.search_braces "{" = None)
  /\ (Classifier.search_fenced "a{}" = None /\ Classifier.search_braces "a{}" = Some "{}")
  /\ (Classifier.search_fenced "x{a}b{c}d}e" = None /\ Classifier.search_braces "x{a}b{c}d}e" = Some "{a}b{c}d}")
  /\ (Classifier.search_fenced "{{{" = None /\ Classifier.search_braces "{{{" = None)
  /\ (Classifier.search_fenced "}}}{x" = None /\ Classifier.search_braces "}}}{x" = None)
  /\ (Classifier.search_fenced "" = None /\ Classifier.search_braces "" = None)
  /\ (Classifier.search_fenced "```json {'a'} ``" = None /\ Classifier.search_braces "```json {'a'} ``" = Some "{'a'}").
Proof. vm_compute. repeat split. Qed.

(* ===================================================================== *)
(** * The metadata extractor: status and confidence *)
(* ===================================================================== *)

Section ExtractorStatus.

Import Extractor.

Lemma rstrip_nonempty (s : string) (c : ascii) :
  isspace c = false -> rstrip (String c s) <> EmptyString.
Proof.
  intros Hc. simpl. destruct (rstrip s); [rewrite Hc |]; discriminate.
Qed.

(** [not text or not text.strip()] says exactly that the stripped text is
    empty. *)
Lemma empty_input_spec (text : string) :
  negb (truthy_str text) || negb (truthy_str (strip text)) = true
  <-> strip text = EmptyString.
Proof.
  split.
  - destruct text as [| c s]; [reflexivity |].
    cbn [truthy_str negb orb]. destruct (strip (String c s)); [reflexivity | discriminate].
  - intros ->. apply orb_true_r.
Qed.

(** Stripping leaves nothing exactly when every character is white space. *)
Lemma strip_empty_all_space (text : string) :
  strip text = EmptyString <-> Claims.all_space text.
Proof.
  unfold strip. induction text as [| c s IH]; simpl; [tauto |].
  destruct (isspace c) eqn:E.
  - rewrite IH. tauto.
  - split.
    + intros H. exfalso. revert H. apply (rstrip_nonempty s c E).
    + intros [H _]. discriminate.
Qed.

(** ** The limit on digits *)

(** [int] refuses a run of digits exactly when it is longer than the
    limit, and then with [ValueError]. *)
Lemma int_of_digits_cases (g : string) :
  (Claims.beyond_limit g /\ exists msg, int_of_digits g = Raise ValueError msg)
  \/ (~ Claims.beyond_limit g
      /\ int_of_digits g = Return (fst (fst (Json.read_digits 0 0 g)))).
Proof.
  unfold int_of_digits, Claims.beyond_limit.
  destruct (Nat.ltb_spec int_max_str_digits (String.length g)) as [H | H].
  - left. split; [exact H | eexists; reflexivity].
  - right. split; [lia | reflexivity].
Qed.

Lemma ints_of_groups_cases (matches : list (list string)) :
  match ints_of_groups matches with
  | Return ns =>
      ns = List.map (fun groups => fst (fst (Json.read_digits 0 0 (group1 groups))))
                    matches
      /\ forall groups, In groups matches -> ~ Claims.beyond_limit (group1 groups)
  | Raise e _ =>
      e = ValueError
      /\ exists groups, In groups matches /\ Claims.beyond_limit (group1 groups)
  end.
Proof.
  induction matches as [| groups rest IH]; cbn [ints_of_groups].
  - split; [reflexivity | intros ? []].
  - destruct (int_of_digits_cases (group1 groups)) as [(Hb & msg & ->) | (Hb & ->)].
    + split; [reflexivity |]. exists groups. split; [left; reflexivity | exact Hb].
    + destruct (ints_of_groups rest) as [ns | e msg].
      * destruct IH as (-> & Hall). split; [reflexivity |].
        intros g [<- | Hg]; [exact Hb | apply Hall, Hg].
      * destruct IH as (-> & g & Hg & Hgb). split; [reflexivity |].
        exists g. split; [right; exact Hg | exact Hgb].
Qed.

(** [_count_storeys] raises exactly when a run of digits that it reads is
    beyond the limit; what it raises is [ValueError]. *)
Lemma count_storeys_cases (rx : Engine) (text : string) :
  let explicit :=
    re_search rx "(\d+)\s*(?:storey|story|floor)" text IGNORECASE in
  let plus := re_finditer rx "\+(\d+)" text IGNORECASE in
  match _count_storeys rx text with
  | Raise e _ =>
      e = ValueError
      /\ ((exists groups, explicit = Some groups
                          /\ Claims.beyond_limit (group1 groups))
          \/ (explicit = None
              /\ exists groups, In groups plus
                                /\ Claims.beyond_limit (group1 groups)))
  | Return _ =>
      (forall groups, explicit = Some groups ->
                      ~ Claims.beyond_limit (group1 groups))
      /\ (explicit = None ->
          forall groups, In groups plus -> ~ Claims.beyond_limit (group1 groups))
  end.
Proof.
  cbv zeta. unfold _count_storeys.
  destruct (re_search rx "(\d+)\s*(?:storey|story|floor)" text IGNORECASE)
    as [groups |].
  - destruct (int_of_digits_cases (group1 groups)) as [(Hb & msg & ->) | (Hb & ->)].
    + split; [reflexivity |]. left. eauto.
    + split; [| discriminate]. intros g H. injection H as <-. exact Hb.
  - pose proof (ints_of_groups_cases (re_finditer rx "\+(\d+)" text IGNORECASE))
      as Hn.
    destruct (ints_of_groups _) as [ns | e msg].
    + destruct Hn as (_ & Hall).
      match goal with |- match (match ?l with _ => _ end) with _ => _ end =>
        destruct l end; (split; [discriminate | intros _; exact Hall]).
    + destruct Hn as (-> & Hex). split; [reflexivity |]. right. auto.
Qed.

(** The outcomes of [execute] on a text that strips to something: it raises
    when the storeys are beyond the limit, and else returns a result whose
    status follows the confidence. *)
Lemma execute_nonempty (rx : Engine) (text : string) (src : option string) :
  strip text <> EmptyString ->
  (Claims.storeys_beyond_limit rx text
   /\ exists msg, execute rx text src = Raise ValueError msg)
  \/ (~ Claims.storeys_beyond_limit rx text
      /\ exists res w,
           ExtractionResult.confidence res
             = _calculate_confidence (ExtractionResult.metadata res)
           /\ ExtractionResult.raw_text_used res = Some (first_500 text)
           /\ execute rx text src
              = Return
                  (if PrimFloat.ltb (ExtractionResult.confidence res) 0.2%float
                   then ToolResult.mk PARTIAL (Some res) []
                          (w ++ [Claims.low_confidence_warning])
                   else ToolResult.mk SUCCESS (Some res) [] w)).
Proof.
  intros Hne. unfold execute.
  destruct (negb (truthy_str text) || negb (truthy_str (strip text))) eqn:E.
  { apply empty_input_spec in E. contradiction. }
  cbv zeta.
  pose proof (count_storeys_cases rx text) as Hcs. cbv zeta in Hcs.
  assert (Hpos : (0 < 10 ^ Z.of_nat int_max_str_digits)%Z)
    by (apply Z.pow_pos_nonneg; lia).
  destruct (_count_storeys rx text) as [storeys | e msg] eqn:Ecs.
  2:{ left. destruct Hcs as (-> & Hwhy). split; [| eexists; reflexivity].
      unfold Claims.storeys_beyond_limit. tauto. }
  destruct Hcs as (Hexp & Hplus).
  assert (Hread : (forall n, storeys = Some n ->
                     (Z.abs n < 10 ^ Z.of_nat int_max_str_digits)%Z) ->
                  ~ Claims.storeys_beyond_limit rx text).
  { intros Hn [(g & Hg & Hb) | [(Hnone & g & Hg & Hb) | (n & Hc & Hbig)]].
    - exact (Hexp g Hg Hb).
    - exact (Hplus Hnone g Hg Hb).
    - rewrite Ecs in Hc. injection Hc as ->. specialize (Hn n eq_refl). lia. }
  destruct storeys as [n |].
  - destruct (truthy_Z n) eqn:Et.
    + unfold str_of_int.
      destruct (Z.leb_spec (10 ^ Z.of_nat int_max_str_digits) (Z.abs n)) as [Hbig | Hsmall].
      * left. split; [| eexists; reflexivity].
        right. right. exists n. auto.
      * right. split.
        { apply Hread. intros m Hm. injection Hm as <-. lia. }
        match goal with
        | |- context [ToolResult.mk SUCCESS (Some ?r) [] ?w] => exists r, w
        end.
        cbn [ExtractionResult.confidence ExtractionResult.metadata
             ExtractionResult.raw_text_used].
        repeat split.
        match goal with |- context [if ?c then _ else _] => destruct c end.
        -- rewrite <- app_assoc. reflexivity.
        -- reflexivity.
    + right. split.
      { apply Hread. intros m Hm. injection Hm as <-.
        unfold truthy_Z in Et. apply negb_false_iff, Z.eqb_eq in Et. subst n.
        cbn [Z.abs]. exact Hpos. }
      match goal with
      | |- context [ToolResult.mk SUCCESS (Some ?r) [] ?w] => exists r, w
      end.
      cbn [ExtractionResult.confidence ExtractionResult.metadata
           ExtractionResult.raw_text_used].
      repeat split.
      match goal with |- context [if ?c then _ else _] => destruct c end.
      * rewrite <- app_assoc. reflexivity.
      * reflexivity.
  - right. split.
    { apply Hread. intros m Hm. discriminate. }
    match goal with
    | |- context [ToolResult.mk SUCCESS (Some ?r) [] ?w] => exists r, w
    end.
    cbn [ExtractionResult.confidence ExtractionResult.metadata
         ExtractionResult.raw_text_used].
    repeat split.
    match goal with |- context [if ?c then _ else _] => destruct c end.
    + rewrite <- app_assoc. reflexivity.
    + reflexivity.
Qed.

End ExtractorStatus.



(** ** Two texts beyond the limit *)

Section BeyondLimit.

Import Extractor.









End BeyondLimit.


(* ===================================================================== *)
(** * Confidence values *)
(* ===================================================================== *)

Section Confidence.

Import Extractor Claims.

(** Whatever fields are found, the running sum of the weights stays between
    0 and 1: in binary64 the ten weights, added in the order of the source,
    give exactly 1.0, and no partial selection exceeds it. *)
Lemma weighted_sum_bounded (b1 b2 b3 b4 b5 b6 b7 b8 b9 b10 : bool) :
  in_unit_interval
    (add_if b10 "storeys"
      (add_if b9 "gross_internal_area_m2"
        (add_if b8 "building_type"
          (add_if b7 "stage"
            (add_if b6 "issue_date"
              (add_if b5 "location"
                (add_if b4 "architect"
                  (add_if b3 "client_name"
                    (add_if b2 "project_number"
                      (add_if b1 "project_name" 0%float)))))))))) = true.
Proof.
  destruct b1, b2, b3, b4, b5, b6, b7, b8, b9, b10; vm_compute; reflexivity.
Qed.

(** The extractor's confidence is always between 0 and 1. *)
Lemma calculate_confidence_in_unit_interval (metadata : ProjectMetadata.t) :
  in_unit_interval (_calculate_confidence metadata) = true.
Proof. unfold _calculate_confidence. cbv zeta. apply weighted_sum_bounded. Qed.

(** With every field found the confidence is exactly 1, with none 0. *)
Lemma weighted_sum_extremes :
  fold_left (fun s kv => (s + snd kv)%float) weights 0%float = 1%float
  /\ _calculate_confidence ProjectMetadata.default = 0%float.
Proof. split; vm_compute; reflexivity. Qed.

(** Every [ExtractionResult] of [execute] carries such a confidence. *)
Lemma execute_confidence_in_unit_interval
    (rx : Engine) (text : string) (src : option string) :
  match execute rx text src with
  | Return r =>
      match ToolResult.data r with
      | Some res => in_unit_interval (ExtractionResult.confidence res) = true
      | None => True
      end
  | Raise _ _ => True
  end.
Proof.
  destruct (strip text) eqn:E.
  - apply empty_input_spec in E. unfold execute. rewrite E. exact I.
  - destruct (execute_nonempty rx text src)
      as [(_ & msg & ->) | (_ & res & w & Hc & _ & ->)].
    + rewrite E. discriminate.
    + exact I.
    + destruct (PrimFloat.ltb _ _); cbn [ToolResult.data]; rewrite Hc;
        apply calculate_confidence_in_unit_interval.
Qed.

End Confidence.

(** C8.  The confidence of a [ClassificationResult] is whatever number the
    model's response holds: on a well-formed response with confidence 1.5
    (or -0.25) [_parse_response] stores that number, outside the interval
    from 0 to 1, [execute] returns it with status SUCCESS (or PARTIAL), and
    [to_drawing_info] hands it on to the [DrawingInfo]. *)
Theorem classifier_confidence_outside_unit_interval :
  (exists r,
     Classifier._parse_response Json.loads Json.float_of_str overconfident_answer
     = Return r
     /\ Classifier.ClassificationResult.drawing_type r = FLOOR_PLAN
     /\ Classifier.ClassificationResult.confidence r = 1.5%float
     /\ Claims.in_unit_interval (Classifier.ClassificationResult.confidence r)
        = false
     /\ DrawingInfo.confidence
          (Classifier.ClassificationResult.to_drawing_info r "plan.pdf" 1)
        = 1.5%float
     /\ Classifier.execute Json.loads Json.float_of_str
          (vision_answering overconfident_answer) default_classifier
          "page_001.png" None 1
        = ToolResult.mk SUCCESS (Some r) [] [])
  /\ (exists r,
        Classifier._parse_response Json.loads Json.float_of_str negative_answer
        = Return r
        /\ Classifier.ClassificationResult.confidence r = (-0.25)%float
        /\ Claims.in_unit_interval (Classifier.ClassificationResult.confidence r)
           = false
        /\ ToolResult.status
             (Classifier.execute Json.loads Json.float_of_str
                (vision_answering negative_answer) default_classifier
                "page_001.png" None 1)
           = PARTIAL).
Proof.
  split; eexists; (split; [vm_compute; reflexivity |]);
    repeat split; vm_compute; reflexivity.
Qed.

(* ===================================================================== *)
(** * The geocoder: cache and enrichment *)
(* ===================================================================== *)

Section GeocoderCache.

Import Geocoder Claims.

Variable self : Geocoder.

Local Abbreviation cache_t := (gmap string GeocodingResult.t).

(** The three situations of a call. *)
Lemma execute_empty (w : Providers) (cache : cache_t) (q : string)
    (p : option string) :
  strip q = EmptyString ->
  execute w self cache q p
  = {| result := ToolResult.mk FAILED None
                   [_create_error name "EMPTY_QUERY"
                      "No address or postcode provided" false None] [];
       cache_after := cache; contacted := [] |}.
Proof. intros E. unfold execute. rewrite E. reflexivity. Qed.

Lemma execute_hit (w : Providers) (cache : cache_t) (q : string)
    (p : option string) (hit : GeocodingResult.t) :
  strip q <> EmptyString ->
  cache !! cache_key self q p = Some hit ->
  execute w self cache q p
  = {| result := ToolResult.mk SUCCESS (Some hit) [] [];
       cache_after := cache; contacted := [] |}.
Proof.
  intros Hq Hc. unfold execute.
  destruct (strip q) eqn:E; [contradiction |].
  cbn [truthy_str negb]. cbv zeta.
  unfold cache_key in Hc. rewrite E in Hc. rewrite Hc. reflexivity.
Qed.

Lemma execute_miss (w : Providers) (cache : cache_t) (q : string)
    (p : option string) :
  strip q <> EmptyString ->
  cache !! cache_key self q p = None ->
  (exists res warnings,
     execute w self cache q p
     = {| result := ToolResult.mk SUCCESS (Some res) [] warnings;
          cache_after := <[cache_key self q p := res]> cache;
          contacted := contacted (execute w self cache q p) |})
  \/ (ToolResult.status (result (execute w self cache q p)) = FAILED
      /\ ToolResult.data (result (execute w self cache q p)) = None
      /\ cache_after (execute w self cache q p) = cache).
Proof.
  intros Hq Hc. unfold execute.
  destruct (strip q) eqn:E; [contradiction |].
  cbn [truthy_str negb]. cbv zeta.
  unfold cache_key in Hc |- *. rewrite E in Hc |- *. rewrite Hc.
  match goal with
  | |- context [match ?a with Some _ => _ | None => _ end] =>
      destruct a as [[warnings [[res | e msg] contacts]] |]
  end.
  - left. eexists _, _. reflexivity.
  - right. destruct (is_ValueError e); repeat split.
  - right. repeat split.
Qed.

(** A call leaves the cache as it was or adds one entry under its own key,
    and only when it succeeds with the data it returns. *)
Lemma execute_status (w : Providers) (cache : cache_t) (q : string)
    (p : option string) :
  (ToolResult.status (result (execute w self cache q p)) = FAILED
   /\ ToolResult.data (result (execute w self cache q p)) = None
   /\ cache_after (execute w self cache q p) = cache
   /\ (strip q <> EmptyString -> cache !! cache_key self q p = None))
  \/ (exists res,
        strip q <> EmptyString
        /\ ToolResult.status (result (execute w self cache q p)) = SUCCESS
        /\ ToolResult.data (result (execute w self cache q p)) = Some res
        /\ ToolResult.errors (result (execute w self cache q p)) = []
        /\ cache_after (execute w self cache q p)
           = <[cache_key self q p := res]> cache
        /\ cache_after (execute w self cache q p) !! cache_key self q p
           = Some res).
Proof.
  destruct (decide (strip q = EmptyString)) as [E | E].
  - left. rewrite (execute_empty w cache q p E). repeat split. contradiction.
  - destruct (cache !! cache_key self q p) as [hit |] eqn:Hc.
    + right. exists hit. rewrite (execute_hit w cache q p hit E Hc).
      cbn [result cache_after ToolResult.status ToolResult.data ToolResult.errors].
      repeat split; auto.
      symmetry. apply insert_id, Hc.
    + destruct (execute_miss w cache q p E Hc)
        as [(res & warnings & Hex) | (Hs & Hd & Hk)].
      * right. exists res. rewrite Hex.
        cbn [result cache_after ToolResult.status ToolResult.data ToolResult.errors].
        repeat split; auto. apply lookup_insert_eq.
      * left. auto.
Qed.

(** Entries are never removed or replaced. *)
Lemma execute_keeps_entries (w : Providers) (cache : cache_t) (q : string)
    (p : option string) (k : string) (d : GeocodingResult.t) :
  cache !! k = Some d -> cache_after (execute w self cache q p) !! k = Some d.
Proof.
  intros Hk.
  destruct (decide (strip q = EmptyString)) as [E | E].
  - rewrite (execute_empty w cache q p E). exact Hk.
  - destruct (cache !! cache_key self q p) as [hit |] eqn:Hc.
    + rewrite (execute_hit w cache q p hit E Hc). exact Hk.
    + destruct (execute_miss w cache q p E Hc)
        as [(res & warnings & ->) | (_ & _ & ->)]; [| exact Hk].
      cbn [cache_after]. rewrite lookup_insert_ne; [exact Hk |].
      intros <-. congruence.
Qed.

Lemma calls_keep_entries (calls : list Call) (cache : cache_t) (k : string)
    (d : GeocodingResult.t) :
  cache !! k = Some d -> cache_after_calls self cache calls !! k = Some d.
Proof.
  revert cache. induction calls as [| c calls IH]; intros cache Hk; [exact Hk |].
  apply IH, execute_keeps_entries, Hk.
Qed.

End GeocoderCache.

Lemma lower_empty (s : string) : lower s = EmptyString -> s = EmptyString.
Proof. destruct s; [reflexivity | discriminate]. Qed.

(** C10.  The cache holds results of successful calls only.  A call of
    [execute] that returns FAILED leaves the cache as it was, with no entry
    under the call's key, so the same query is attempted afresh by the next
    call; every entry of the cache after a call was there before or is the
    data the call returned with SUCCESS, under the call's key.  After a
    successful call, however many calls follow and whatever the providers
    then answer, a call with the same lower-cased query and the same
    requested provider returns the same [GeocodingResult] with status
    SUCCESS, contacts no provider and leaves the cache unchanged. *)
Theorem cache_holds_successful_results_only (self : Geocoder.Geocoder) :
  (forall w cache q p,
     ToolResult.status (Geocoder.result (Geocoder.execute w self cache q p))
     = FAILED ->
     Geocoder.cache_after (Geocoder.execute w self cache q p) = cache
     /\ (strip q <> EmptyString ->
         Geocoder.cache_after (Geocoder.execute w self cache q p)
           !! Geocoder.cache_key self q p = None)
     /\ forall w',
          Geocoder.execute w' self
            (Geocoder.cache_after (Geocoder.execute w self cache q p)) q p
          = Geocoder.execute w' self cache q p)
  /\ (forall w cache q p k d,
        Geocoder.cache_after (Geocoder.execute w self cache q p) !! k = Some d ->
        cache !! k = Some d
        \/ (k = Geocoder.cache_key self q p
            /\ Geocoder.result (Geocoder.execute w self cache q p)
               = ToolResult.mk SUCCESS (Some d) []
                   (ToolResult.warnings
                      (Geocoder.result (Geocoder.execute w self cache q p)))))
  /\ (forall w cache q p d calls w' q' p',
        ToolResult.status (Geocoder.result (Geocoder.execute w self cache q p))
        = SUCCESS ->
        ToolResult.data (Geocoder.result (Geocoder.execute w self cache q p))
        = Some d ->
        lower (strip q') = lower (strip q) ->
        Geocoder.provider_or_primary self p' = Geocoder.provider_or_primary self p ->
        Geocoder.execute w' self
          (Claims.cache_after_calls self
             (Geocoder.cache_after (Geocoder.execute w self cache q p)) calls)
          q' p'
        = {| Geocoder.result := ToolResult.mk SUCCESS (Some d) [] [];
             Geocoder.cache_after :=
               Claims.cache_after_calls self
                 (Geocoder.cache_after (Geocoder.execute w self cache q p)) calls;
             Geocoder.contacted := [] |}).
Proof.
  split; [| split].
  - intros w cache q p Hst.
    destruct (execute_status self w cache q p)
      as [(_ & _ & Hc & Hk) | (res & _ & Hs & _)]; [| congruence].
    rewrite Hc. repeat split; auto.
  - intros w cache q p k d Hk.
    destruct (decide (strip q = EmptyString)) as [E | E].
    { left. rewrite (execute_empty self w cache q p E) in Hk. exact Hk. }
    destruct (cache !! Geocoder.cache_key self q p) as [hit |] eqn:Hc.
    { left. rewrite (execute_hit self w cache q p hit E Hc) in Hk. exact Hk. }
    destruct (execute_miss self w cache q p E Hc)
      as [(res & warnings & Hex) | (_ & _ & Hsame)].
    + rewrite Hex in Hk |- *. cbn [Geocoder.cache_after] in Hk.
      destruct (decide (Geocoder.cache_key self q p = k)) as [<- | Hne].
      * rewrite lookup_insert_eq in Hk. injection Hk as ->.
        right. split; reflexivity.
      * rewrite lookup_insert_ne in Hk by exact Hne. left. exact Hk.
    + left. rewrite Hsame in Hk. exact Hk.
  - intros w cache q p d calls w' q' p' Hst Hd Hq Hp.
    destruct (execute_status self w cache q p)
      as [(Hf & _) | (res & Hne & _ & Hres & _ & _ & Hk)]; [congruence |].
    assert (res = d) as -> by congruence.
    assert (Hkey : Geocoder.cache_key self q' p' = Geocoder.cache_key self q p).
    { unfold Geocoder.cache_key. rewrite Hq, Hp. reflexivity. }
    apply execute_hit.
    + intros E. apply Hne, lower_empty. rewrite <- Hq, E. reflexivity.
    + rewrite Hkey. apply calls_keep_entries, Hk.
Qed.

(** A failing query is sent to the provider again by the next call; a
    query that succeeded is not. *)
Example cache_runs :
  let miss := Geocoder.execute postcodes_io_only default_geocoder ∅ "EC1A 1BB" None in
  let again := Geocoder.execute postcodes_io_only default_geocoder
                 (Geocoder.cache_after miss) "EC1A 1BB" None in
  let first := Geocoder.execute postcodes_io_only default_geocoder ∅ " sw1a1aa " None in
  let second := Geocoder.execute offline_providers default_geocoder
                  (Geocoder.cache_after first) "SW1A1AA" (Some "postcodes_io") in
  ToolResult.status (Geocoder.result miss) = FAILED
  /\ Geocoder.contacted miss = [Geocoder.ContactPostcodesIo "EC1A 1BB"]
  /\ Geocoder.cache_after miss = ∅
  /\ again = miss
  /\ Geocoder.result first = ToolResult.mk SUCCESS (Some palace) [] []
  /\ Geocoder.contacted first = [Geocoder.ContactPostcodesIo "SW1A 1AA"]
  /\ Geocoder.cache_after first = {[ "sw1a1aa:postcodes_io" := palace ]}
  /\ Geocoder.result second = ToolResult.mk SUCCESS (Some palace) [] []
  /\ Geocoder.contacted second = [].
Proof. vm_compute. repeat split. Qed.

(** * Enrichment *)

Lemma enrich_query_empty (location : LocationInfo.t) :
  negb (truthy_opt truthy_str (LocationInfo.postcode location))
  && negb (truthy_opt truthy_str (LocationInfo.address location)) = true ->
  default EmptyString (Geocoder.enrich_query location) = EmptyString.
Proof.
  unfold Geocoder.enrich_query, py_or.
  destruct (LocationInfo.postcode location) as [[| ? ?] |],
           (LocationInfo.address location) as [[| ? ?] |];
    simpl; intros H; try reflexivity; discriminate.
Qed.

(** C7.  When the geocoding of the location's postcode-or-address
    succeeds, [enrich_location] returns SUCCESS with a location whose
    address, postcode, local authority, region and country are the input's
    where the input's are non-empty and the geocoded ones where they are
    empty, whose what3words is the input's, and whose latitude and
    longitude are the geocoded ones whatever the input held. *)
Theorem enrich_location_keeps_input_fields
    (w : Geocoder.Providers) (self : Geocoder.Geocoder)
    (cache : gmap string Geocoder.GeocodingResult.t)
    (location : LocationInfo.t) (data : Geocoder.GeocodingResult.t) :
  ToolResult.status
    (Geocoder.result
       (Geocoder.execute w self cache
          (default EmptyString (Geocoder.enrich_query location)) None))
  = SUCCESS ->
  ToolResult.data
    (Geocoder.result
       (Geocoder.execute w self cache
          (default EmptyString (Geocoder.enrich_query location)) None))
  = Some data ->
  exists enriched,
    fst (fst (Geocoder.enrich_location w self cache location))
    = ToolResult.mk SUCCESS (Some enriched) []
        (ToolResult.warnings
           (Geocoder.result
              (Geocoder.execute w self cache
                 (default EmptyString (Geocoder.enrich_query location)) None)))
    /\ Claims.merged_field LocationInfo.address location
         (Geocoder.GeocodingResult.location data) enriched
    /\ Claims.merged_field LocationInfo.postcode location
         (Geocoder.GeocodingResult.location data) enriched
    /\ Claims.merged_field LocationInfo.local_authority location
         (Geocoder.GeocodingResult.location data) enriched
    /\ Claims.merged_field LocationInfo.region location
         (Geocoder.GeocodingResult.location data) enriched
    /\ Claims.merged_field LocationInfo.country location
         (Geocoder.GeocodingResult.location data) enriched
    /\ LocationInfo.what3words enriched = LocationInfo.what3words location
    /\ LocationInfo.latitude enriched
       = LocationInfo.latitude (Geocoder.GeocodingResult.location data)
    /\ LocationInfo.longitude enriched
       = LocationInfo.longitude (Geocoder.GeocodingResult.location data).
Proof.
  intros Hst Hd. unfold Geocoder.enrich_location.
  destruct (negb (truthy_opt truthy_str (LocationInfo.postcode location))
            && negb (truthy_opt truthy_str (LocationInfo.address location)))
    eqn:Hempty.
  - rewrite (enrich_query_empty location Hempty) in Hst.
    rewrite (execute_empty self w cache EmptyString None eq_refl) in Hst.
    discriminate.
  - cbv zeta. unfold ToolResult.success. rewrite Hst, Hd.
    eexists. split; [reflexivity |].
    unfold Claims.merged_field, py_or.
    cbn [LocationInfo.address LocationInfo.postcode LocationInfo.local_authority
         LocationInfo.region LocationInfo.country LocationInfo.what3words
         LocationInfo.latitude LocationInfo.longitude].
    repeat split;
      match goal with
      | |- context [truthy_opt truthy_str ?x] =>
          destruct (truthy_opt truthy_str x); reflexivity
      end.
Qed.

(** The theorem at a title-block location whose postcode postcodes.io
    knows: the address, the lower-case postcode and the country stay, the
    empty region and the missing local authority are filled, and the
    coordinates are replaced. *)
Lemma enrich_location_keeps_input_fields_witness :
  exists enriched,
    fst (fst (Geocoder.enrich_location postcodes_io_only default_geocoder ∅
                title_block_location))
    = ToolResult.mk SUCCESS (Some enriched) [] []
    /\ LocationInfo.address enriched = Some "Buckingham Palace"
    /\ LocationInfo.postcode enriched = Some "sw1a 1aa"
    /\ LocationInfo.country enriched = Some "UK"
    /\ LocationInfo.region enriched = Some "London"
    /\ LocationInfo.local_authority enriched = Some "Westminster"
    /\ LocationInfo.what3words enriched = Some "fence.gross.bats"
    /\ LocationInfo.latitude enriched = Some 51.501009%float
    /\ LocationInfo.longitude enriched = Some (-0.141588)%float.
Proof.
  destruct (enrich_location_keeps_input_fields postcodes_io_only
              default_geocoder ∅ title_block_location palace)
    as (enriched & Hr & Ha & Hp & Hl & Hg & Hc & Hw & Hlat & Hlon).
  - vm_compute. reflexivity.
  - vm_compute. reflexivity.
  - exists enriched. repeat split; assumption.
Defined.

(** ** The postcode pattern on sample texts *)

Example postcode_match_checks :
  Geocoder.postcode_match (strip "SW1A 1AA") = Some ("SW1A", "1AA")
  /\ Geocoder.postcode_match (strip "sw1a1aa") = Some ("sw1a", "1aa")
  /\ Geocoder.postcode_match (strip "M1 1AA") = Some ("M1", "1AA")
  /\ Geocoder.postcode_match (strip "M11AA") = Some ("M1", "1AA")
  /\ Geocoder.postcode_match (strip "M111AA") = Some ("M11", "1AA")
  /\ Geocoder.postcode_match (strip "EC1A  1BB") = Some ("EC1A", "1BB")
  /\ Geocoder.postcode_match (strip "B33 8TH") = Some ("B33", "8TH")
  /\ Geocoder.postcode_match (strip "CR2 6XH") = Some ("CR2", "6XH")
  /\ Geocoder.postcode_match (strip "DN55 1PT") = Some ("DN55", "1PT")
  /\ Geocoder.postcode_match (strip "W1A0AX") = Some ("W1A", "0AX")
  /\ Geocoder.postcode_match (strip "123") = None
  /\ Geocoder.postcode_match (strip "") = None
  /\ Geocoder.postcode_match (strip "A") = None
  /\ Geocoder.postcode_match (strip "AB1") = None
  /\ Geocoder.postcode_match (strip "AB1 1A") = None
  /\ Geocoder.postcode_match (strip "AB1 1AAA") = None
  /\ Geocoder.postcode_match (strip "ABC1 1AA") = None
  /\ Geocoder.postcode_match (strip "A1A 1AA") = Some ("A1A", "1AA")
  /\ Geocoder.postcode_match (strip "A11 1AA") = Some ("A11", "1AA")
  /\ Geocoder.postcode_match (strip "A1 AA") = None
  /\ Geocoder.postcode_match (strip "AA1A1AA") = Some ("AA1A", "1AA")
  /\ Geocoder.postcode_match (strip "A 1 1AA") = None
  /\ Geocoder.postcode_match (strip "M1	1aa") = Some ("M1", "1aa")
  /\ Geocoder.postcode_match (strip "ab12 3cd") = Some ("ab12", "3cd")
  /\ Geocoder.postcode_match (strip "A1B2CD") = Some ("A1B", "2CD")
  /\ Geocoder.postcode_match (strip "AB1C2DE") = Some ("AB1C", "2DE")
  /\ Geocoder.postcode_match (strip "a11aa") = Some ("a1", "1aa")
  /\ Geocoder.postcode_match (strip "A1 1A1") = None
  /\ Geocoder.postcode_match (strip "AA11AA") = Some ("AA1", "1AA").
Proof. vm_compute. repeat split. Qed.

(* ===================================================================== *)
(** * The JSON export of a bill of quantities *)
(* ===================================================================== *)

Section ExportTotals.

Import QSPlus Claims.

(** [round] and [sum] on known values. *)
Example round2_checks :
  round2 2.675%float = 2.67%float
  /\ round2 0.125%float = 0.12%float
  /\ round2 1.005%float = 1%float
  /\ round2 (-0.005)%float = (-0.01)%float
  /\ py_sum [0.1%float; 0.2%float; 0.3%float] = 0.6000000000000001%float
  /\ round2 (py_sum [0.1%float; 0.2%float; 0.3%float]) = 0.6%float.
Proof. vm_compute. repeat split. Qed.

(** Seven items of the repository's sample bill, priced by quantity and
    rate. *)
Example sample_bill_total :
  json_path
    (snd (export_to_json
            (exporter_of
               [ boq "1.1" 150.50%float 25%float None;
                 boq "1.2" 132%float 30%float None;
                 boq "1.3" 46.20%float 85%float None;
                 boq "1.4" 132%float 15.50%float None;
                 boq "1.5" 7.70%float 950%float None;
                 boq "1.6" 0.77%float 12500%float None;
                 boq "3.2" 258.72%float 8.50%float None ])
            "out/boq.json" true))
    ["summary"; "total_amount"]
  = Some (JFloat 32834.62%float).
Proof. vm_compute. reflexivity. Qed.



End ExportTotals.



(* ===================================================================== *)
(** * The PDF parser: single files *)
(* ===================================================================== *)

Section PdfExecute.

Import PdfParser.

Lemma read_pages_length (ext : bool) (raw : list RawPage) (first : Z) :
  length (read_pages ext first raw) = length raw.
Proof.
  revert first. induction raw as [| p raw IH]; intros first; simpl;
    [reflexivity | rewrite IH; reflexivity].
Qed.

Lemma read_pages_numbers (ext : bool) (raw : list RawPage) (first : Z) :
  List.map PageContent.page_number (read_pages ext first raw)
  = seqZ first (Z.of_nat (length raw)).
Proof.
  revert first. induction raw as [| p raw IH]; intros first.
  - reflexivity.
  - cbn [read_pages List.map PageContent.page_number length].
    rewrite seqZ_cons by lia. rewrite IH. f_equal. f_equal; lia.
Qed.

Lemma read_pages_no_images (raw : list RawPage) (first : Z) :
  Forall (fun p => PageContent.extracted_image_path p = None)
         (read_pages false first raw).
Proof.
  revert first. induction raw as [| p raw IH]; intros first; simpl;
    constructor; auto.
Qed.

Lemma sum_nat_positive (l : list nat) :
  (0 < sum_nat l)%nat -> exists n, In n l /\ (0 < n)%nat.
Proof.
  induction l as [| x l IH]; simpl; [lia |].
  intros H. destruct x as [| x].
  - destruct (IH H) as (n & Hn & Hp). eauto.
  - exists (S x). split; [auto | lia].
Qed.

(** Zero divided by anything is not above ten. *)
Lemma zero_average_not_above (d : float) :
  PrimFloat.ltb 10%float (0 / d)%float = false.
Proof.
  rewrite FloatAxioms.ltb_spec, FloatAxioms.div_spec.
  change (Prim2SF 0%float) with (S754_zero false).
  destruct (Prim2SF d) as [s | s | | s m e]; try destruct s; reflexivity.
Qed.

(** The two flags of [_detect_if_scanned] rest on evidence in the pages: a
    document is called scanned only when some page holds an embedded
    image, and is said to have a text layer only when some page holds text
    other than white space.  A document without pages gets neither flag. *)
Lemma detect_if_scanned_evidence (pages : list PageContent.t) :
  (fst (_detect_if_scanned pages) = true ->
     exists p, In p pages /\ (0 < PageContent.image_count p)%nat)
  /\ (snd (_detect_if_scanned pages) = true ->
        exists p, In p pages /\ strip (PageContent.text p) <> EmptyString).
Proof.
  unfold _detect_if_scanned. destruct pages as [| p0 ps]; [split; discriminate |].
  set (pages := p0 :: ps).
  set (total_text := sum_nat (List.map (fun p => String.length (strip (PageContent.text p))) pages)).
  set (total_images := sum_nat (List.map PageContent.image_count pages)).
  assert (Htext : (0 < total_text)%nat ->
            exists p, In p pages /\ strip (PageContent.text p) <> EmptyString).
  { intros H. destruct (sum_nat_positive _ H) as (n & Hn & Hp).
    apply in_map_iff in Hn. destruct Hn as (p & <- & Hin).
    exists p. split; [exact Hin |]. intros E. rewrite E in Hp. simpl in Hp. lia. }
  assert (Himg : (0 < total_images)%nat ->
            exists p, In p pages /\ (0 < PageContent.image_count p)%nat).
  { intros H. destruct (sum_nat_positive _ H) as (n & Hn & Hp).
    apply in_map_iff in Hn. destruct Hn as (p & <- & Hin). eauto. }
  destruct (PrimFloat.ltb _ 50 && (0 <? total_images)%nat) eqn:E; cbn [fst snd].
  - apply andb_prop in E. destruct E as [_ E]. apply Nat.ltb_lt in E.
    split; [auto |].
    intros H. apply Htext.
    destruct total_text as [| n] eqn:Et; [| lia].
    exfalso. change (float_of_nat 0) with 0%float in H.
    rewrite zero_average_not_above in H. discriminate.
  - split; [discriminate |]. intros H. apply Nat.ltb_lt in H. auto.
Qed.

End PdfExecute.

(** X2.  How [PDFParser.execute] fails.  A path that does not exist gives
    FAILED with the one error FILE_NOT_FOUND, and an existing path whose
    suffix is not .pdf (in any letter case) gives FAILED with the one error
    INVALID_FILE_TYPE, both whether or not the PDF library is installed.
    Only for an existing .pdf path is the library needed: without it the
    call raises ImportError; with it, a file that cannot be hashed or opened
    gives FAILED with the one error PARSE_ERROR, which carries the
    exception's class name.  Every such error is marked not recoverable,
    and a FAILED result has no data and no warning. *)
Theorem pdf_execute_failure_modes
    (fs : PdfParser.FileSystem) (self : PdfParser.PDFParser)
    (file_path : string) (output_dir : option string)
    (extract_images : option bool) :
  let f := PdfParser.lookup_path fs file_path in
  let is_pdf := String.eqb (lower (PdfParser.f_suffix f)) ".pdf" in
  let run := PdfParser.execute fs self file_path output_dir extract_images in
  (PdfParser.f_exists f = false ->
     run = Return (ToolResult.mk FAILED None
                     [ {| ToolError.code := "PDF_PARSER_FILE_NOT_FOUND";
                          ToolError.message :=
                            "File not found: " +:+ PdfParser.f_str f;
                          ToolError.recoverable := false;
                          ToolError.details := None |} ] []))
  /\ (PdfParser.f_exists f = true -> is_pdf = false ->
        run = Return (ToolResult.mk FAILED None
                        [ {| ToolError.code := "PDF_PARSER_INVALID_FILE_TYPE";
                             ToolError.message :=
                               "Expected PDF file, got: " +:+ PdfParser.f_suffix f;
                             ToolError.recoverable := false;
                             ToolError.details := None |} ] []))
  /\ (PdfParser.f_exists f = true -> is_pdf = true ->
        PdfParser.fitz_installed fs = false ->
        exists msg, run = Raise ImportError msg)
  /\ (PdfParser.f_exists f = true -> is_pdf = true ->
        PdfParser.fitz_installed fs = true ->
        PdfParser.f_document f = None ->
        run = Return (ToolResult.mk FAILED None
                        [ {| ToolError.code := "PDF_PARSER_PARSE_ERROR";
                             ToolError.message :=
                               "Failed to parse PDF: "
                               +:+ fst (PdfParser.f_error f);
                             ToolError.recoverable := false;
                             ToolError.details :=
                               Some [("exception", snd (PdfParser.f_error f))] |} ]
                        []))
  /\ (PdfParser.f_exists f = true -> is_pdf = true ->
        PdfParser.fitz_installed fs = true ->
        PdfParser.f_document f <> None ->
        exists st d,
          run = Return (ToolResult.mk st (Some d) []
                          (match st with
                           | SUCCESS => []
                           | _ => [ if PdfParser.PDFParserResult.has_text_layer d
                                    then "PDF appears to be scanned with OCR. Text extraction may be imperfect."
                                    else "PDF appears to be scanned without OCR. Text extraction limited." ]
                           end))
          /\ (st = SUCCESS \/ st = PARTIAL)).
Proof.
  intros f is_pdf run. subst run. unfold PdfParser.execute. fold f.
  split; [| split; [| split; [| split]]].
  - intros ->. reflexivity.
  - intros -> Hp. subst is_pdf. rewrite Hp. reflexivity.
  - intros -> Hp Hf. subst is_pdf. rewrite Hp. unfold PdfParser._ensure_fitz.
    rewrite Hf. eexists. reflexivity.
  - intros -> Hp Hf Hd. subst is_pdf. rewrite Hp. unfold PdfParser._ensure_fitz.
    rewrite Hf, Hd. reflexivity.
  - intros -> Hp Hf Hd. subst is_pdf. rewrite Hp. unfold PdfParser._ensure_fitz.
    rewrite Hf. destruct (PdfParser.f_document f) as [[md raw] |]; [| contradiction].
    cbn [negb].
    destruct (PdfParser._detect_if_scanned _) as [sc ht].
    destruct sc, ht; cbn [andb negb].
    all: match goal with
         | |- exists st d, Return (ToolResult.mk ?s (Some ?x) _ _) = _ /\ _ =>
             exists s, x
         end; split; [reflexivity | auto].
Qed.

(** An existing file with an upper-case suffix is read; a text file is
    refused before the library is looked for. *)
Example pdf_execute_suffix_cases :
  let upper_fs :=
    {| PdfParser.lookup_path := fun p =>
         {| PdfParser.f_exists := true; PdfParser.f_is_file := true;
            PdfParser.f_str := p; PdfParser.f_name := "PLAN.PDF";
            PdfParser.f_suffix := ".PDF"; PdfParser.f_size := 10;
            PdfParser.f_md5 := "0"; PdfParser.f_document := Some ([], []);
            PdfParser.f_error := ("", "") |};
       PdfParser.glob := fun _ _ => [];
       PdfParser.fitz_installed := true |} in
  let no_library :=
    {| PdfParser.lookup_path := fun p =>
         {| PdfParser.f_exists := true; PdfParser.f_is_file := true;
            PdfParser.f_str := p; PdfParser.f_name := "notes.txt";
            PdfParser.f_suffix := ".txt"; PdfParser.f_size := 10;
            PdfParser.f_md5 := "0"; PdfParser.f_document := None;
            PdfParser.f_error := ("", "") |};
       PdfParser.glob := fun _ _ => [];
       PdfParser.fitz_installed := false |} in
  (exists r, PdfParser.execute upper_fs default_parser "PLAN.PDF" None None = Return r
             /\ ToolResult.status r = SUCCESS
             /\ option_map PdfParser.PDFParserResult.page_count (ToolResult.data r)
                = Some 0%Z
             /\ option_map PdfParser.PDFParserResult.has_text_layer (ToolResult.data r)
                = Some false)
  /\ (exists r, PdfParser.execute no_library default_parser "notes.txt" None None
                = Return r
                /\ List.map ToolError.code (ToolResult.errors r)
                   = ["PDF_PARSER_INVALID_FILE_TYPE"]).
Proof. split; eexists; (split; [vm_compute; reflexivity |]); repeat split. Qed.

Section PdfResult.

Import PdfParser.

(** What a parsed file looks like. *)
Lemma execute_parsed (fs : FileSystem) (self : PDFParser) (file_path : string)
    (output_dir : option string) (arg : option bool)
    (r : ToolResult.t PDFParserResult.t) (d : PDFParserResult.t) :
  execute fs self file_path output_dir arg = Return r ->
  ToolResult.data r = Some d ->
  exists md raw,
    f_document (lookup_path fs file_path) = Some (md, raw)
    /\ PDFParserResult.pages d
       = read_pages (match arg with Some b => b | None => extract_images self end)
                    1 raw
    /\ PDFParserResult.page_count d = Z.of_nat (length raw)
    /\ PDFParserResult.is_scanned d = fst (_detect_if_scanned (PDFParserResult.pages d))
    /\ PDFParserResult.has_text_layer d
       = snd (_detect_if_scanned (PDFParserResult.pages d))
    /\ PDFParserResult.extraction_quality d
       = (if PDFParserResult.is_scanned d
          then if PDFParserResult.has_text_layer d then "partial" else "poor"
          else "good")
    /\ ToolResult.status r
       = (if PDFParserResult.is_scanned d then PARTIAL else SUCCESS)
    /\ length (ToolResult.warnings r)
       = (if PDFParserResult.is_scanned d then 1 else 0)%nat
    /\ ToolResult.errors r = [].
Proof.
  unfold execute, _ensure_fitz.
  destruct (negb (f_exists (lookup_path fs file_path))).
  { intros H; inversion H; subst; discriminate. }
  destruct (negb (String.eqb _ _)).
  { intros H; inversion H; subst; discriminate. }
  destruct (fitz_installed fs); [| discriminate].
  destruct (f_document (lookup_path fs file_path)) as [[md raw] |].
  2:{ intros H; inversion H; subst; discriminate. }
  destruct (_detect_if_scanned _) as [sc ht] eqn:Ed.
  intros H Hd. exists md, raw. split; [reflexivity |].
  destruct sc, ht; cbn [andb negb] in H; inversion H; subst; clear H;
    cbn [ToolResult.data] in Hd; inversion Hd; subst; clear Hd;
    cbn [PDFParserResult.pages PDFParserResult.page_count
         PDFParserResult.is_scanned PDFParserResult.has_text_layer
         PDFParserResult.extraction_quality ToolResult.status
         ToolResult.warnings ToolResult.errors];
    rewrite Ed, read_pages_length; repeat split.
Qed.

Lemma execute_without_data (fs : FileSystem) (self : PDFParser)
    (file_path : string) (output_dir : option string) (arg : option bool)
    (r : ToolResult.t PDFParserResult.t) :
  execute fs self file_path output_dir arg = Return r ->
  ToolResult.data r = None ->
  ToolResult.status r = FAILED /\ length (ToolResult.errors r) = 1%nat
  /\ ToolResult.warnings r = [].
Proof.
  unfold execute, _ensure_fitz.
  destruct (negb (f_exists (lookup_path fs file_path))).
  { intros H; inversion H; subst; auto. }
  destruct (negb (String.eqb _ _)).
  { intros H; inversion H; subst; auto. }
  destruct (fitz_installed fs); [| discriminate].
  destruct (f_document (lookup_path fs file_path)) as [[md raw] |].
  2:{ intros H; inversion H; subst; auto. }
  destruct (_detect_if_scanned _) as [sc ht].
  destruct sc, ht; cbn [andb negb]; intros H; inversion H; subst; discriminate.
Qed.

End PdfResult.

(** X3.  What a parsed PDF looks like.  The result of [PDFParser.execute]
    has one [PageContent] per page of the document, numbered 1, 2, ... in
    order, and [page_count] is their number; no page has an image path when
    image extraction is switched off.  The file is marked scanned only if
    some page holds an embedded image, and is given a text layer only if
    some page holds text other than white space.  The status is SUCCESS with
    quality "good" and no warning when the file is not marked scanned, and
    PARTIAL with exactly one warning when it is, the quality being
    "partial" with a text layer and "poor" without; there is never an
    error beside the data. *)
Theorem pdf_execute_result_shape
    (fs : PdfParser.FileSystem) (self : PdfParser.PDFParser)
    (file_path : string) (output_dir : option string)
    (extract_images : option bool) :
  match PdfParser.execute fs self file_path output_dir extract_images with
  | Raise _ _ => True
  | Return r =>
      match ToolResult.data r with
      | None => ToolResult.status r = FAILED
      | Some d =>
          let pages := PdfParser.PDFParserResult.pages d in
          PdfParser.PDFParserResult.page_count d = Z.of_nat (length pages)
          /\ List.map PdfParser.PageContent.page_number pages
             = seqZ 1 (Z.of_nat (length pages))
          /\ (default (PdfParser.extract_images self) extract_images = false ->
              Forall (fun p => PdfParser.PageContent.extracted_image_path p = None)
                     pages)
          /\ (PdfParser.PDFParserResult.is_scanned d = true ->
              exists p, In p pages /\ (0 < PdfParser.PageContent.image_count p)%nat)
          /\ (PdfParser.PDFParserResult.has_text_layer d = true ->
              exists p, In p pages
                        /\ strip (PdfParser.PageContent.text p) <> EmptyString)
          /\ ToolResult.status r
             = (if PdfParser.PDFParserResult.is_scanned d then PARTIAL else SUCCESS)
          /\ PdfParser.PDFParserResult.extraction_quality d
             = (if PdfParser.PDFParserResult.is_scanned d
                then if PdfParser.PDFParserResult.has_text_layer d
                     then "partial" else "poor"
                else "good")
          /\ length (ToolResult.warnings r)
             = (if PdfParser.PDFParserResult.is_scanned d then 1 else 0)%nat
          /\ ToolResult.errors r = []
      end
  end.
Proof.
  destruct (PdfParser.execute fs self file_path output_dir extract_images)
    as [r | e msg] eqn:E; [| exact I].
  destruct (ToolResult.data r) as [d |] eqn:Hd.
  - destruct (execute_parsed fs self file_path output_dir extract_images r d E Hd)
      as (md & raw & _ & Hp & Hc & Hs & Ht & Hq & Hst & Hw & He).
    cbv zeta.
    split; [| split; [| split; [| split; [| split; [| repeat split; auto]]]]].
    + rewrite Hp, read_pages_length. exact Hc.
    + rewrite Hp, read_pages_length. apply read_pages_numbers.
    + intros Hx. rewrite Hp.
      replace (match extract_images with Some b => b
               | None => PdfParser.extract_images self end) with false
        by (destruct extract_images; simpl in Hx; auto).
      apply read_pages_no_images.
    + intros H. rewrite Hs in H.
      exact (proj1 (detect_if_scanned_evidence _) H).
    + intros H. rewrite Ht in H.
      exact (proj2 (detect_if_scanned_evidence _) H).
  - exact (proj1 (execute_without_data fs self file_path output_dir
                    extract_images r E Hd)).
Qed.

(* ===================================================================== *)
(** * The PDF parser: directories *)
(* ===================================================================== *)

Section PdfDirectory.

Import PdfParser Claims.

Variables (fs : FileSystem) (self : PDFParser) (output_dir : option string).

(** Each file of the loop adds one result or one error. *)
Lemma parse_each_counts (files : list string) :
  forall results errors warnings rs es ws,
  parse_each fs self output_dir files results errors warnings
  = Return (rs, es, ws) ->
  (length rs + length es = length results + length errors + length files)%nat.
Proof.
  induction files as [| f files IH]; intros results errors warnings rs es ws.
  - simpl. intros H. inversion H. subst. lia.
  - cbn [parse_each].
    destruct (execute fs self f output_dir None) as [r | e msg] eqn:E;
      [| discriminate].
    pose proof (execute_success_data fs self output_dir f None r E) as Hsd.
    destruct (ToolResult.data r) as [d |] eqn:D.
    + assert (Hs : ToolResult.success r = true) by (apply Hsd; eauto).
      rewrite Hs. intros H. apply IH in H. rewrite length_app in H.
      simpl in *. lia.
    + destruct (execute_without_data fs self f output_dir None r E D)
        as (_ & Hone & _).
      replace (match ToolResult.success r with
               | true => (results, errors ++ ToolResult.errors r)
               | false => (results, errors ++ ToolResult.errors r)
               end) with (results, errors ++ ToolResult.errors r)
        by (destruct (ToolResult.success r); reflexivity).
      intros H. apply IH in H. rewrite length_app in H. simpl in *. lia.
Qed.

Lemma omap_length_le {A B} (f : A -> option B) (l : list A) :
  (length (omap f l) <= length l)%nat.
Proof.
  unfold omap. induction l as [| x l IH]; [reflexivity |].
  cbn [list_omap]. destruct (f x); cbn [length]; lia.
Qed.

Lemma omap_full_length {A B} (f : A -> option B) (l : list A) :
  length (omap f l) = length l -> Forall (fun x => is_Some (f x)) l.
Proof.
  induction l as [| x l IH]; [constructor |].
  pose proof (omap_length_le f l) as Hle. revert IH Hle.
  unfold omap. cbn [list_omap]. intros IH Hle.
  destruct (f x) as [y |] eqn:E; cbn [length]; intros H.
  - constructor; [rewrite E; eauto | apply IH; lia].
  - lia.
Qed.

Lemma omap_all_some {A B} (f : A -> option B) (l : list A) :
  Forall (fun x => is_Some (f x)) l -> length (omap f l) = length l.
Proof.
  unfold omap. induction 1 as [| x l [y Hy] _ IH]; [reflexivity |].
  cbn [list_omap]. rewrite Hy. cbn [length]. rewrite IH. reflexivity.
Qed.

End PdfDirectory.

(** X4.  [PDFParser.parse_directory] accounts for every PDF it finds.  In
    an existing directory in which PDF files were found, each file found
    contributes exactly one entry to the outcome: a parsed result in the
    data, or one error in the error list, so the two counts add up to the
    number of files found.  The status is SUCCESS exactly when every file
    found parsed, and the data then has one result per file. *)
Theorem parse_directory_accounts_for_every_file
    (fs : PdfParser.FileSystem) (self : PdfParser.PDFParser)
    (directory : string) (output_dir : option string) (recursive : bool) :
  let found :=
    PdfParser.glob fs directory (if recursive then "**/*.pdf" else "*.pdf") in
  match PdfParser.parse_directory fs self directory output_dir recursive with
  | Raise _ _ => True
  | Return r =>
      PdfParser.f_exists (PdfParser.lookup_path fs directory) = true ->
      found <> [] ->
      (length (default [] (ToolResult.data r)) + length (ToolResult.errors r)
       = length found)%nat
      /\ (ToolResult.status r = SUCCESS
          <-> Forall (fun p => is_Some (Claims.file_parsed fs self output_dir p))
                     found)
      /\ (ToolResult.status r = SUCCESS ->
          length (default [] (ToolResult.data r)) = length found)
  end.
Proof.
  intros found. unfold PdfParser.parse_directory. fold found.
  destruct (negb (PdfParser.f_exists (PdfParser.lookup_path fs directory))) eqn:Hx.
  { intros Hp. rewrite Hp in Hx. discriminate. }
  destruct found as [| f fl] eqn:Hfound.
  { intros _ H. contradiction. }
  pose proof (parse_each_spec fs self output_dir (f :: fl) [] [] []) as Hs.
  pose proof (parse_each_counts fs self output_dir (f :: fl) [] [] []) as Hc.
  destruct (PdfParser.parse_each fs self output_dir (f :: fl) [] [] [])
    as [[[rs es] ws] | e m]; [| exact I].
  destruct Hs as (Hrs & _ & _). cbn [app] in Hrs.
  specialize (Hc rs es ws eq_refl). cbn [length Nat.add] in Hc.
  assert (Hall : es = [] <-> Forall (fun p => is_Some (Claims.file_parsed fs self output_dir p)) (f :: fl)).
  { split.
    - intros ->. apply omap_full_length. rewrite <- Hrs. simpl in *. lia.
    - intros H. apply omap_all_some in H. rewrite <- Hrs in H.
      destruct es; [reflexivity | simpl in *; lia]. }
  destruct rs as [| d ds].
  - intros _ _.
    cbn [ToolResult.data ToolResult.errors ToolResult.status default].
    split; [simpl in *; lia |]. split; [| discriminate].
    split; [discriminate |].
    intros H. apply Hall in H. subst es. simpl in Hc. lia.
  - intros _ _.
    cbn [ToolResult.data ToolResult.errors ToolResult.status default].
    split; [simpl in *; lia |]. split.
    + rewrite <- Hall. destruct es; split; auto; discriminate.
    + destruct es; [intros _; simpl in *; lia | discriminate].
Qed.

(* ===================================================================== *)
(** * The drawing classifier: single images and batches *)
(* ===================================================================== *)

Section ClassifierExecute.

Import Classifier.

Variable loads : string -> outcome json.
Variable float_of_str : string -> option float.
Variable w : Vision.
Variable self : DrawingClassifier.

(** A call either fails with one error and nothing else, or returns a
    classification without error. *)
Lemma classifier_execute_cases (image_path : string)
    (source_file : option string) (page_number : Z) :
  let r := execute loads float_of_str w self image_path source_file page_number in
  (exists e, r = ToolResult.mk FAILED None [e] [])
  \/ (exists st d ws,
        r = ToolResult.mk st (Some d) [] ws /\ (st = SUCCESS \/ st = PARTIAL)).
Proof.
  cbv zeta. unfold execute.
  destruct (negb (image_exists w image_path)); [left; eauto |].
  destruct (negb (existsb _ valid_extensions)); [left; eauto |].
  destruct (negb (existsb _ SUPPORTED_PROVIDERS)); [left; eauto |].
  destruct (respond w (provider self) image_path page_number) as [text | e msg];
    [| left; eauto].
  destruct (_parse_response loads float_of_str text) as [c | e msg];
    [| left; eauto].
  right.
  destruct (bool_decide (ClassificationResult.drawing_type c = UNKNOWN)).
  - eexists _, _, _. split; [reflexivity | auto].
  - destruct (PrimFloat.ltb _ _); eexists _, _, _; (split; [reflexivity | auto]).
Qed.

Lemma classify_each_spec (source_file : option string)
    (image_paths : list string) (i : Z) :
  let '(results, errors, warnings) :=
    classify_each loads float_of_str w self source_file i image_paths in
  length results = length image_paths
  /\ (forall k image_path,
        image_paths !! k = Some image_path ->
        results !! k
        = Some (Props.kept_result loads float_of_str w self image_path source_file (i + Z.of_nat k + 1)))
  /\ errors
     = concat (imap (fun k image_path =>
                       ToolResult.errors
                         (execute loads float_of_str w self image_path
                            source_file (i + Z.of_nat k + 1)))
                    image_paths)
  /\ warnings
     = concat (imap (fun k image_path =>
                       ToolResult.warnings
                         (execute loads float_of_str w self image_path
                            source_file (i + Z.of_nat k + 1)))
                    image_paths).
Proof.
  revert i. induction image_paths as [| p ps IH]; intros i.
  - simpl. repeat split. intros k image_path H. discriminate.
  - cbn [classify_each]. specialize (IH (i + 1)%Z).
    destruct (classify_each loads float_of_str w self source_file (i + 1) ps)
      as [[results errors] warnings].
    destruct IH as (Hlen & Hnth & Herr & Hwarn).
    set (one := execute loads float_of_str w self p source_file (i + 1)).
    assert (Hk : forall A (f : string -> Z -> list A),
              concat (imap (fun k q => f q (i + 1 + Z.of_nat k + 1)%Z) ps)
              = concat (imap ((fun k q => f q (i + Z.of_nat k + 1)%Z) ∘ S) ps)).
    { intros A f. f_equal. apply imap_ext. intros k q _. simpl. f_equal. lia. }
    pose proof (classifier_execute_cases p source_file (i + 1)) as Hc.
    cbv zeta in Hc. fold one in Hc.
    assert (Hkept : Props.kept_result loads float_of_str w self p source_file (i + 1)
                    = match ToolResult.success one, ToolResult.data one with
                      | true, Some d => d
                      | _, _ => ClassificationResult.unknown
                                  "Classification failed" None
                      end) by reflexivity.
    assert (Herrs : ToolResult.errors one
                    = match ToolResult.success one, ToolResult.data one with
                      | true, Some _ => []
                      | _, _ => ToolResult.errors one
                      end).
    { destruct Hc as [(e & ->) | (st & d & ws & -> & [-> | ->])]; reflexivity. }
    assert (Hres :
      (let '(rs, es, wsn) :=
         match ToolResult.success one, ToolResult.data one with
         | true, Some d => (d :: results, errors, ToolResult.warnings one ++ warnings)
         | _, _ => (ClassificationResult.unknown "Classification failed" None
                      :: results,
                    ToolResult.errors one ++ errors,
                    ToolResult.warnings one ++ warnings)
         end in
       rs = Props.kept_result loads float_of_str w self p source_file (i + 1) :: results
       /\ es = ToolResult.errors one ++ errors
       /\ wsn = ToolResult.warnings one ++ warnings)).
    { rewrite Hkept.
      destruct Hc as [(e & ->) | (st & d & ws & -> & [-> | ->])];
        cbn; auto. }
    destruct (match ToolResult.success one, ToolResult.data one with
              | true, Some d => (d :: results, errors, ToolResult.warnings one ++ warnings)
              | _, _ => (ClassificationResult.unknown "Classification failed" None
                           :: results,
                         ToolResult.errors one ++ errors,
                         ToolResult.warnings one ++ warnings)
              end) as [[rs es] wsn].
    destruct Hres as (-> & -> & ->).
    split; [simpl; rewrite Hlen; reflexivity |].
    split; [| split].
    + intros [| k] image_path H.
      * simpl in H. inversion H. subst. simpl.
        replace (i + Z.of_nat 0 + 1)%Z with (i + 1)%Z by lia. reflexivity.
      * simpl in H. simpl. rewrite (Hnth k image_path H).
        do 2 f_equal. lia.
    + cbn [imap concat]. replace (i + Z.of_nat 0 + 1)%Z with (i + 1)%Z by lia.
      fold one. f_equal. rewrite Herr.
      exact (Hk _ (fun q n => ToolResult.errors
                                (execute loads float_of_str w self q source_file n))).
    + cbn [imap concat]. replace (i + Z.of_nat 0 + 1)%Z with (i + 1)%Z by lia.
      fold one. f_equal. rewrite Hwarn.
      exact (Hk _ (fun q n => ToolResult.warnings
                                (execute loads float_of_str w self q source_file n))).
Qed.

End ClassifierExecute.

(** X5.  [DrawingClassifier.classify_batch] returns one result per image,
    in the order of the images: the classification of the image when the
    call for it succeeded, and otherwise a placeholder of type UNKNOWN with
    confidence 0.0 and the note "Classification failed".  The image at
    position k is classified as page k + 1.  The batch never fails: its
    status is SUCCESS when no call failed and PARTIAL otherwise, and its
    errors and warnings are those of the single calls, in order. *)
Theorem classify_batch_one_result_per_image
    (loads : string -> outcome json) (float_of_str : string -> option float)
    (w : Classifier.Vision) (self : Classifier.DrawingClassifier)
    (image_paths : list string) (source_file : option string) :
  let one k image_path :=
    Classifier.execute loads float_of_str w self image_path source_file
      (Z.of_nat k + 1) in
  let r := Classifier.classify_batch loads float_of_str w self image_paths
             source_file in
  exists results,
    ToolResult.data r = Some results
    /\ length results = length image_paths
    /\ (forall k image_path,
          image_paths !! k = Some image_path ->
          results !! k
          = Some (if ToolResult.success (one k image_path)
                  then default (Classifier.ClassificationResult.unknown
                                  "Classification failed" None)
                               (ToolResult.data (one k image_path))
                  else Classifier.ClassificationResult.unknown
                         "Classification failed" None))
    /\ ToolResult.errors r
       = concat (imap (fun k p => ToolResult.errors (one k p)) image_paths)
    /\ ToolResult.warnings r
       = concat (imap (fun k p => ToolResult.warnings (one k p)) image_paths)
    /\ ToolResult.status r
       = (if forallb (fun st => negb (bool_decide (st = FAILED)))
                     (imap (fun k p => ToolResult.status (one k p)) image_paths)
          then SUCCESS else PARTIAL).
Proof.
  cbv zeta. unfold Classifier.classify_batch.
  pose proof (classify_each_spec loads float_of_str w self source_file
                image_paths 0) as Hs.
  destruct (Classifier.classify_each loads float_of_str w self source_file 0
              image_paths) as [[results errors] warnings].
  destruct Hs as (Hlen & Hnth & Herr & Hwarn).
  exists results.
  cbn [ToolResult.data ToolResult.errors ToolResult.warnings ToolResult.status].
  split; [reflexivity |]. split; [exact Hlen |].
  split; [| split; [| split]].
  - intros k image_path H. rewrite (Hnth k image_path H).
    unfold Props.kept_result. cbn [Z.add].
    destruct (ToolResult.success _); [| reflexivity].
    destruct (ToolResult.data _); reflexivity.
  - rewrite Herr. reflexivity.
  - rewrite Hwarn. reflexivity.
  - rewrite Herr. clear Hlen Hnth Herr Hwarn.
    assert (Hgen : forall (l : list string) (f : nat -> nat),
      match concat (imap (fun k p =>
              ToolResult.errors
                (Classifier.execute loads float_of_str w self p source_file
                   (Z.of_nat (f k) + 1))) l) with
      | [] => SUCCESS | _ => PARTIAL end
      = if forallb (fun st => negb (bool_decide (st = FAILED)))
             (imap (fun k p =>
                ToolResult.status
                  (Classifier.execute loads float_of_str w self p source_file
                     (Z.of_nat (f k) + 1))) l)
        then SUCCESS else PARTIAL).
    { induction l as [| p l IH]; intros f; [reflexivity |].
      cbn [imap concat forallb].
      pose proof (classifier_execute_cases loads float_of_str w self p
                    source_file (Z.of_nat (f 0%nat) + 1)) as Hc.
      cbv zeta in Hc.
      specialize (IH (f ∘ S)).
      destruct Hc as [(e & ->) | (st & d & ws & -> & [-> | ->])];
        cbn [ToolResult.errors ToolResult.status app]; try reflexivity;
        exact IH. }
    exact (Hgen image_paths (fun k => k)).
Qed.

(** X6.  The outcomes of [DrawingClassifier.execute].  It never raises.  A
    missing image, an unsupported suffix or an unsupported provider gives
    FAILED with one error that is not recoverable, whatever the back end
    would answer; an exception of the back end, or of the parsing of its
    answer, gives FAILED with the one recoverable error
    CLASSIFICATION_ERROR that names the exception's class.  Otherwise the
    parsed classification is returned without error: with status PARTIAL
    and one warning when its type is UNKNOWN or its confidence is below
    0.5, and with status SUCCESS and no warning in the remaining case. *)
Theorem classifier_execute_outcomes
    (loads : string -> outcome json) (float_of_str : string -> option float)
    (w : Classifier.Vision) (self : Classifier.DrawingClassifier)
    (image_path : string) (source_file : option string) (page_number : Z) :
  let r := Classifier.execute loads float_of_str w self image_path source_file
             page_number in
  let suffix := Classifier.image_suffix w image_path in
  let failure code message recoverable details :=
    ToolResult.mk FAILED None
      [ {| ToolError.code := code; ToolError.message := message;
           ToolError.recoverable := recoverable;
           ToolError.details := details |} ] [] in
  if negb (Classifier.image_exists w image_path) then
    r = failure "DRAWING_CLASSIFIER_FILE_NOT_FOUND"
          ("Image not found: " +:+ image_path) false None
  else if negb (existsb (String.eqb (lower suffix))
                        [".png"; ".jpg"; ".jpeg"; ".gif"; ".webp"]) then
    r = failure "DRAWING_CLASSIFIER_INVALID_FORMAT"
          ("Unsupported image format: " +:+ suffix) false None
  else if negb (existsb (String.eqb (Classifier.provider self))
                        ["claude"; "anthropic"; "openai"]) then
    r = failure "DRAWING_CLASSIFIER_INVALID_PROVIDER"
          ("Unsupported provider: " +:+ Classifier.provider self) false None
  else
    match Classifier.respond w (Classifier.provider self) image_path page_number with
    | Raise e msg =>
        r = failure "DRAWING_CLASSIFIER_CLASSIFICATION_ERROR"
              ("Failed to classify drawing: " +:+ msg) true
              (Some [("exception", exn_name e)])
    | Return text =>
        match Classifier._parse_response loads float_of_str text with
        | Raise e msg =>
            r = failure "DRAWING_CLASSIFIER_CLASSIFICATION_ERROR"
                  ("Failed to classify drawing: " +:+ msg) true
                  (Some [("exception", exn_name e)])
        | Return c =>
            ToolResult.data r = Some c /\ ToolResult.errors r = []
            /\ (ToolResult.status r = SUCCESS
                <-> Classifier.ClassificationResult.drawing_type c <> UNKNOWN
                    /\ PrimFloat.ltb (Classifier.ClassificationResult.confidence c)
                                     0.5%float = false)
            /\ (ToolResult.status r = SUCCESS \/ ToolResult.status r = PARTIAL)
            /\ length (ToolResult.warnings r)
               = (if bool_decide (ToolResult.status r = SUCCESS) then 0 else 1)%nat
        end
    end.
Proof.
  cbv zeta. unfold Classifier.execute.
  destruct (negb (Classifier.image_exists w image_path)); [reflexivity |].
  change Classifier.valid_extensions
    with [".png"; ".jpg"; ".jpeg"; ".gif"; ".webp"].
  destruct (negb (existsb _ [".png"; ".jpg"; ".jpeg"; ".gif"; ".webp"]));
    [reflexivity |].
  change Classifier.SUPPORTED_PROVIDERS with ["claude"; "anthropic"; "openai"].
  destruct (negb (existsb _ ["claude"; "anthropic"; "openai"])); [reflexivity |].
  destruct (Classifier.respond w _ image_path page_number) as [text | e msg];
    [| reflexivity].
  destruct (Classifier._parse_response loads float_of_str text) as [c | e msg];
    [| reflexivity].
  destruct (bool_decide (Classifier.ClassificationResult.drawing_type c = UNKNOWN))
    eqn:Eu.
  - apply bool_decide_eq_true in Eu.
    cbn [ToolResult.data ToolResult.errors ToolResult.status ToolResult.warnings].
    repeat split; auto; try discriminate. intros [H _]. contradiction.
  - apply bool_decide_eq_false in Eu.
    destruct (PrimFloat.ltb _ _) eqn:El;
      cbn [ToolResult.data ToolResult.errors ToolResult.status ToolResult.warnings];
      repeat split; auto; try discriminate.
    intros [_ H]. discriminate.
Qed.

(** A well-formed answer without a confidence is taken at 0.5 and passes;
    one whose confidence is not a number at all (NaN) passes too, for it is
    not below 0.5; and the answers on which the parsing raises end as
    recoverable failures. *)
Example classifier_execute_cases_run :
  let run answer :=
    Classifier.execute Json.loads Json.float_of_str (vision_answering answer)
      default_classifier "page_001.png" None 1 in
  ToolResult.status (run (Json.dq "{'drawing_type': 'Site_Plan'}")) = SUCCESS
  /\ option_map Classifier.ClassificationResult.drawing_type
       (ToolResult.data (run (Json.dq "{'drawing_type': 'Site_Plan'}")))
     = Some SITE_PLAN
  /\ ToolResult.status
       (run (Json.dq "{'drawing_type': 'section', 'confidence': NaN}")) = SUCCESS
  /\ ToolResult.status
       (run (Json.dq "{'drawing_type': 'section', 'confidence': 0.49}")) = PARTIAL
  /\ ToolResult.warnings
       (run (Json.dq "{'drawing_type': 'section', 'confidence': 0.49}"))
     = ["Low confidence classification: 0.49"]
  /\ List.map (fun e => (ToolError.code e, ToolError.recoverable e, ToolError.details e))
       (ToolResult.errors (run (Json.dq "{'drawing_type': null}")))
     = [("DRAWING_CLASSIFIER_CLASSIFICATION_ERROR", true,
         Some [("exception", "AttributeError")])].
Proof. vm_compute. repeat split. Qed.

(* ===================================================================== *)
(** * The metadata extractor: its helpers *)
(* ===================================================================== *)

(** X7.  [MetadataExtractor._normalize_stage] always returns a text, made
    from the stage lower-cased and stripped.  The six stage words give
    "RIBA Stage" followed by their number (concept 2, developed design and
    planning 3, technical design and tender 4, construction 5).  A stage
    given as one of the digits 0 to 7 is returned as that digit alone,
    without the words "RIBA Stage": the digit is itself a key of the stage
    table, whose entry for it is a name and not a number.  Every other
    stage written in characters of U+0000..U+007F is returned in title
    case. *)
Theorem normalize_stage_cases (stage_str : string) :
  let key := strip (lower stage_str) in
  let words :=
    [ ("concept", "2"); ("developed design", "3"); ("technical design", "4");
      ("construction", "5"); ("planning", "3"); ("tender", "4") ] in
  let digits := ["0"; "1"; "2"; "3"; "4"; "5"; "6"; "7"] in
  (forall n, In (key, n) words ->
     Extractor._normalize_stage stage_str = Some ("RIBA Stage " +:+ n))
  /\ (In key digits -> Extractor._normalize_stage stage_str = Some key)
  /\ (~ In key digits -> ~ In key (List.map fst words) ->
      Props.ascii_only key = true ->
      Extractor._normalize_stage stage_str = Some (title key)).
Proof.
  intros key words digits. unfold Extractor._normalize_stage. fold key.
  generalize key. clear key. intros key.
  split; [| split].
  - intros n H. simpl in H.
    repeat (destruct H as [H | H]; [injection H as <- <-; reflexivity |]).
    contradiction.
  - intros H. simpl in H.
    repeat (destruct H as [<- | H]; [reflexivity |]).
    contradiction.
  - intros Hd Hw _.
    assert (E : Extractor.dict_mem Extractor.RIBA_STAGES key = false).
    { apply not_true_is_false. intros H. unfold Extractor.dict_mem in H.
      apply existsb_exists in H. destruct H as ([k v] & Hin & Heq).
      apply String.eqb_eq in Heq. simpl in Heq. subst k.
      simpl in Hin.
      repeat (destruct Hin as [Hin | Hin];
              [injection Hin as <- _;
               first [apply Hd; simpl; tauto | apply Hw; simpl; tauto] |]).
      contradiction. }
    rewrite E, andb_false_r. reflexivity.
Qed.

Example normalize_stage_runs :
  Extractor._normalize_stage "3" = Some "3"
  /\ Extractor._normalize_stage " Concept " = Some "RIBA Stage 2"
  /\ Extractor._normalize_stage "TENDER" = Some "RIBA Stage 4"
  /\ Extractor._normalize_stage "8" = Some "8"
  /\ Extractor._normalize_stage "stage x" = Some "Stage X"
  /\ Extractor._normalize_stage "" = Some "".
Proof. vm_compute. repeat split. Qed.

Section ExtractorHelpers.

Import Extractor.

Lemma fold_max_spec (d : Z) (m : list Z) :
  (forall y, In y m -> (y <= fold_right Z.max d m)%Z)
  /\ (d <= fold_right Z.max d m)%Z
  /\ (In (fold_right Z.max d m) m \/ fold_right Z.max d m = d).
Proof.
  induction m as [| b m (IH1 & IH2 & IH3)]; simpl.
  - split; [contradiction |]. split; [lia | auto].
  - split; [| split].
    + intros y [<- | Hy]; [lia | specialize (IH1 y Hy); lia].
    + lia.
    + destruct (Z.max_spec b (fold_right Z.max d m)) as [[_ ->] | [_ ->]];
        [| auto]. destruct IH3; auto.
Qed.

Lemma fold_min_spec (d : Z) (m : list Z) :
  (forall y, In y m -> (fold_right Z.min d m <= y)%Z)
  /\ (fold_right Z.min d m <= d)%Z
  /\ (In (fold_right Z.min d m) m \/ fold_right Z.min d m = d).
Proof.
  induction m as [| b m (IH1 & IH2 & IH3)]; simpl.
  - split; [contradiction |]. split; [lia | auto].
  - split; [| split].
    + intros y [<- | Hy]; [lia | specialize (IH1 y Hy); lia].
    + lia.
    + destruct (Z.min_spec b (fold_right Z.min d m)) as [[_ ->] | [_ ->]];
        [auto |]. destruct IH3; auto.
Qed.

Lemma max_list_spec (l : list Z) :
  l <> [] -> In (max_list l) l /\ forall x, In x l -> (x <= max_list l)%Z.
Proof.
  destruct l as [| a l]; [contradiction |]. intros _. unfold max_list. cbn [hd].
  destruct (fold_max_spec a (a :: l)) as (H1 & _ & [H3 | H3]); [auto |].
  split; [| exact H1]. rewrite H3. left. reflexivity.
Qed.

Lemma min_list_spec (l : list Z) :
  l <> [] -> In (min_list l) l /\ forall x, In x l -> (min_list l <= x)%Z.
Proof.
  destruct l as [| a l]; [contradiction |]. intros _. unfold min_list. cbn [hd].
  destruct (fold_min_spec a (a :: l)) as (H1 & _ & [H3 | H3]); [auto |].
  split; [| exact H1]. rewrite H3. left. reflexivity.
Qed.

End ExtractorHelpers.

(** X8.  [MetadataExtractor._count_storeys], when it returns.  An explicit
    count in the text (a number before storey, story or floor) is returned
    as it is, whatever floor levels the text names.  Without one, the count
    is inferred from the floor levels referred to (basement -1, ground
    floor 0, first to fifth floor 1 to 5, and +n): it is the highest level
    minus the lowest plus one, so at least 1, and there is no count when no
    level is referred to.  What it raises is [ValueError]. *)
Theorem count_storeys_levels (rx : Extractor.Engine) (text : string) :
  match Extractor._count_storeys rx text with
  | Raise e _ => e = ValueError
  | Return storeys =>
      match Extractor.re_search rx "(\d+)\s*(?:storey|story|floor)" text
              Extractor.IGNORECASE with
      | Some groups =>
          storeys = Some (Props.digits_value (Extractor.group1 groups))
      | None =>
          match storeys with
          | None => Props.referenced_levels rx text = []
          | Some n =>
              exists lo hi,
                In lo (Props.referenced_levels rx text)
                /\ In hi (Props.referenced_levels rx text)
                /\ (forall x, In x (Props.referenced_levels rx text) ->
                      (lo <= x <= hi)%Z)
                /\ n = (hi - lo + 1)%Z /\ (1 <= n)%Z
          end
      end
  end.
Proof.
  unfold Extractor._count_storeys.
  destruct (Extractor.re_search rx _ text Extractor.IGNORECASE) as [groups |].
  { destruct (int_of_digits_cases (Extractor.group1 groups))
      as [(_ & msg & ->) | (_ & ->)]; reflexivity. }
  pose proof (ints_of_groups_cases
                (Extractor.re_finditer rx "\+(\d+)" text Extractor.IGNORECASE)) as Hn.
  destruct (Extractor.ints_of_groups _) as [ns | e msg]; [| tauto].
  destruct Hn as (-> & _).
  fold (Props.named_levels rx text).
  change (Props.named_levels rx text
          ++ List.map (fun groups => fst (fst (Json.read_digits 0 0 (Extractor.group1 groups))))
               (Extractor.re_finditer rx "\+(\d+)" text Extractor.IGNORECASE))
    with (Props.referenced_levels rx text).
  destruct (Props.referenced_levels rx text) as [| a l] eqn:E; [reflexivity |].
  assert (Hne : a :: l <> []) by discriminate.
  destruct (max_list_spec (a :: l) Hne) as (Hmax & Hle).
  destruct (min_list_spec (a :: l) Hne) as (Hmin & Hge).
  exists (Extractor.min_list (a :: l)), (Extractor.max_list (a :: l)).
  split; [exact Hmin |]. split; [exact Hmax |].
  split; [intros x Hx; split; auto |]. split; [reflexivity |].
  specialize (Hle _ Hmin). lia.
Qed.

(** A basement and a level +3 make five storeys. *)
Example count_storeys_run :
  let rx :=
    {| Extractor.re_search := fun pattern _ _ =>
         if String.eqb pattern "basement" then Some [] else None;
       Extractor.re_finditer := fun _ _ _ => [["3"]];
       Extractor.strptime := fun _ _ => None |} in
  Extractor._count_storeys rx "Basement plan, level +3" = Return (Some 5%Z).
Proof. reflexivity. Qed.

Section AllMatches.

Import Extractor.

Variable rx : Engine.

Lemma add_matches_spec (groups : list (list string)) :
  forall matches,
  NoDup matches ->
  NoDup (add_matches matches groups)
  /\ forall v, In v (add_matches matches groups)
               <-> In v matches
                   \/ (v <> EmptyString
                       /\ In v (List.map (fun g => strip (group1 g)) groups)).
Proof.
  unfold add_matches.
  induction groups as [| g groups IH]; intros matches Hnd.
  - simpl. split; [exact Hnd |]. intros v. tauto.
  - cbn [fold_left List.map].
    set (value := strip (group1 g)).
    destruct (truthy_str value && negb (existsb (String.eqb value) matches)) eqn:E.
    + apply andb_prop in E. destruct E as [Ht Hn].
      assert (Hnew : ~ In value matches).
      { intros Hin. apply negb_true_iff in Hn.
        assert (existsb (String.eqb value) matches = true).
        { apply existsb_exists. exists value. split; [exact Hin |].
          apply String.eqb_refl. }
        congruence. }
      assert (Hnd' : NoDup (matches ++ [value])).
      { apply NoDup_app. split; [exact Hnd |]. split.
        - intros x Hx Hx'. apply list_elem_of_In in Hx, Hx'.
          destruct Hx' as [<- | []]. contradiction.
        - apply NoDup_singleton. }
      destruct (IH _ Hnd') as (H1 & H2). split; [exact H1 |].
      intros v. rewrite H2, in_app_iff. simpl.
      assert (Hval : value <> EmptyString)
        by (destruct value; [discriminate Ht | discriminate]).
      split.
      * intros [[H | [<- | []]] | [Hv H]];
          [ left; exact H
          | right; split; [exact Hval | left; reflexivity]
          | right; split; [exact Hv | right; exact H] ].
      * intros [H | [Hv [<- | H]]];
          [ left; left; exact H
          | left; right; left; reflexivity
          | right; split; assumption ].
    + destruct (IH _ Hnd) as (H1 & H2). split; [exact H1 |].
      intros v. rewrite H2. simpl.
      split; [tauto |].
      intros [H | [Hv [<- | H]]]; auto.
      left. apply andb_false_iff in E. destruct E as [E | E].
      * destruct value; [contradiction | discriminate].
      * apply negb_false_iff, existsb_exists in E.
        destruct E as (x & Hx & Heq). apply String.eqb_eq in Heq. subst x.
        exact Hx.
Qed.

Lemma extract_all_matches_spec (text : string) (patterns : list string) :
  forall matches,
  NoDup matches ->
  let result :=
    fold_left
      (fun matches pattern =>
         add_matches matches (re_finditer rx pattern text IGNORECASE_MULTILINE))
      patterns matches in
  NoDup result
  /\ forall v, In v result
               <-> In v matches
                   \/ (v <> EmptyString /\ In v (Props.all_values rx text patterns)).
Proof.
  induction patterns as [| p patterns IH]; intros matches Hnd.
  - simpl. split; [exact Hnd |]. intros v. unfold Props.all_values. simpl. tauto.
  - cbn [fold_left].
    destruct (add_matches_spec (re_finditer rx p text IGNORECASE_MULTILINE)
                matches Hnd) as (H1 & H2).
    destruct (IH _ H1) as (H3 & H4). split; [exact H3 |].
    intros v. cbv zeta in H4. rewrite H4, H2.
    unfold Props.all_values. cbn [List.map concat]. rewrite in_app_iff.
    tauto.
Qed.

End AllMatches.

(** X9.  [MetadataExtractor._extract_all_matches] returns each value once.
    Its result has no duplicates and no empty text, and it holds exactly
    the non-empty stripped first groups of the matches of the patterns. *)
Theorem extract_all_matches_distinct
    (rx : Extractor.Engine) (text : string) (patterns : list string) :
  NoDup (Extractor._extract_all_matches rx text patterns)
  /\ (forall v,
        In v (Extractor._extract_all_matches rx text patterns)
        <-> v <> EmptyString /\ In v (Props.all_values rx text patterns)).
Proof.
  destruct (extract_all_matches_spec rx text patterns [] (NoDup_nil_2 (A:=string)))
    as (H1 & H2).
  split; [exact H1 |]. intros v. cbv zeta in H2.
  unfold Extractor._extract_all_matches. rewrite H2. simpl. tauto.
Qed.

Example extract_all_matches_run :
  let rx :=
    {| Extractor.re_search := fun _ _ _ => None;
       Extractor.re_finditer := fun pattern _ _ =>
         if String.eqb pattern "rev" then [[" B "]; ["A"]; [""]; ["B"]]
         else [["A"]; ["C"]];
       Extractor.strptime := fun _ _ => None |} in
  Extractor._extract_all_matches rx "text" ["rev"; "revision"] = ["B"; "A"; "C"].
Proof. reflexivity. Qed.

(* ===================================================================== *)
(** * The metadata extractor: locations and the two passes *)
(* ===================================================================== *)


(* ===================================================================== *)
(** * The metadata extractor: fields and location *)
(* ===================================================================== *)

Section ExtractorFields.

Import Extractor.

Variable rx : Engine.

(** What [execute] puts into the fields that matter below, when it
    returns. *)
Lemma execute_fields (text : string) (src : option string)
    (r : ToolResult.t ExtractionResult.t) :
  strip text <> EmptyString ->
  execute rx text src = Return r ->
  exists res w,
    r = (if PrimFloat.ltb (ExtractionResult.confidence res) 0.2%float
         then ToolResult.mk PARTIAL (Some res) []
                (w ++ [Claims.low_confidence_warning])
         else ToolResult.mk SUCCESS (Some res) [] w)
    /\ ExtractionResult.confidence res
       = _calculate_confidence (ExtractionResult.metadata res)
    /\ ProjectMetadata.location (ExtractionResult.metadata res)
       = (if truthy_opt truthy_str
               (LocationInfo.postcode (_extract_location rx text))
             || truthy_opt truthy_str
                  (LocationInfo.address (_extract_location rx text))
          then Some (_extract_location rx text) else None)
    /\ ProjectMetadata.building_type (ExtractionResult.metadata res) = None
    /\ ExtractionResult.extraction_sources res
       = match src with
         | Some d => if truthy_str d then [d] else []
         | None => []
         end.
Proof.
  intros Hne. unfold execute.
  destruct (negb (truthy_str text) || negb (truthy_str (strip text))) eqn:E.
  { apply empty_input_spec in E. contradiction. }
  cbv zeta.
  destruct (_count_storeys rx text) as [[n |] | e msg]; [| | discriminate].
  - destruct (truthy_Z n); [destruct (str_of_int n); [| discriminate] |];
      cbv beta iota;
      match goal with
      | |- context [if ?c then Return ?a else Return ?b] =>
          replace (if c then Return a else Return b)
            with (Return (if c then a else b)) by (destruct c; reflexivity)
      end;
      intros H; injection H as <-;
      match goal with
      | |- context [ToolResult.mk SUCCESS (Some ?r) [] ?w] => exists r, w
      end;
      cbn [ExtractionResult.confidence ExtractionResult.metadata
           ExtractionResult.extraction_sources
           ProjectMetadata.location ProjectMetadata.building_type];
      (split; [| repeat split]);
      match goal with |- context [if ?c then _ else _] => destruct c end;
      [rewrite <- app_assoc; reflexivity | reflexivity
       | rewrite <- app_assoc; reflexivity | reflexivity].
  - cbv beta iota.
    match goal with
    | |- context [if ?c then Return ?a else Return ?b] =>
        replace (if c then Return a else Return b)
          with (Return (if c then a else b)) by (destruct c; reflexivity)
    end.
    intros H. injection H as <-.
    match goal with
    | |- context [ToolResult.mk SUCCESS (Some ?r) [] ?w] => exists r, w
    end.
    cbn [ExtractionResult.confidence ExtractionResult.metadata
         ExtractionResult.extraction_sources
         ProjectMetadata.location ProjectMetadata.building_type].
    split; [| repeat split].
    match goal with |- context [if ?c then _ else _] => destruct c end.
    + rewrite <- app_assoc. reflexivity.
    + reflexivity.
Qed.

Lemma replace_two_spaces_nonempty (s : string) :
  s <> EmptyString -> replace_two_spaces s <> EmptyString.
Proof.
  destruct s as [| c s]; [contradiction |]. intros _.
  destruct c as [[] [] [] [] [] [] [] []]; try discriminate.
  destruct s as [| d s]; [discriminate |].
  destruct d as [[] [] [] [] [] [] [] []]; discriminate.
Qed.

Lemma upper_ascii_nonempty (s : string) :
  s <> EmptyString -> upper_ascii s <> EmptyString.
Proof. destruct s; [contradiction | discriminate]. Qed.

(** The location read from a text. *)
Lemma extract_location_spec (text : string) :
  let loc := _extract_location rx text in
  let raw := _extract_pattern rx text (patterns_of "postcode") in
  LocationInfo.latitude loc = None /\ LocationInfo.longitude loc = None
  /\ LocationInfo.local_authority loc = None /\ LocationInfo.region loc = None
  /\ LocationInfo.country loc = Some "UK" /\ LocationInfo.what3words loc = None
  /\ (truthy_opt truthy_str raw = false ->
      LocationInfo.postcode loc = None /\ LocationInfo.address loc = None)
  /\ (forall p, raw = Some p -> p <> EmptyString ->
      LocationInfo.postcode loc = Some (replace_two_spaces (upper_ascii p))
      /\ truthy_opt truthy_str (LocationInfo.postcode loc) = true
      /\ forall a, LocationInfo.address loc = Some a ->
           exists lines, lines <> EmptyString /\ a = lines +:+ ", " +:+ p).
Proof.
  cbv zeta. unfold _extract_location.
  cbn [LocationInfo.latitude LocationInfo.longitude LocationInfo.local_authority
       LocationInfo.region LocationInfo.country LocationInfo.what3words
       LocationInfo.postcode LocationInfo.address].
  do 6 (split; [reflexivity |]).
  destruct (_extract_pattern rx text (patterns_of "postcode")) as [[| c p] |].
  - split; [intros _; split; reflexivity |].
    intros q Hq Hne. injection Hq as <-. contradiction.
  - cbn [truthy_opt truthy_str]. split; [discriminate |].
    intros q Hq _. injection Hq as <-.
    split; [reflexivity |]. split.
    + assert (Hcp : String c p <> EmptyString) by discriminate.
      pose proof (replace_two_spaces_nonempty (upper_ascii (String c p))
                    (upper_ascii_nonempty _ Hcp)) as Hn.
      destruct (replace_two_spaces (upper_ascii (String c p)));
        [contradiction | reflexivity].
    + intros a.
      destruct (re_search rx _ text IGNORECASE_MULTILINE) as [groups |];
        [| discriminate].
      match goal with
      | |- context [truthy_str ?addr] => destruct addr as [| x xs] eqn:Ea
      end; [discriminate |].
      cbn [truthy_str]. intros Ha. injection Ha as <-.
      eexists. split; [| reflexivity]. discriminate.
  - split; [intros _; split; reflexivity |]. discriminate.
Qed.

End ExtractorFields.

(** X10.  In every [ExtractionResult] of [MetadataExtractor.execute] the
    location rests on a postcode.  The metadata has a location exactly when
    the postcode pattern matched a non-empty text; its postcode is then
    that text in upper case (so the location passes the postcode test of
    the completeness check), an address is present only beside a postcode
    and ends with the postcode as the text spells it, coordinates are never
    set, and the country is "UK". *)
Theorem extracted_location_rests_on_postcode
    (rx : Extractor.Engine) (text : string) (src : option string) :
  match Extractor.execute rx text src with
  | Raise _ _ => True
  | Return r =>
  match ToolResult.data r with
  | None => True
  | Some res =>
      let raw :=
        Extractor._extract_pattern rx text (Extractor.patterns_of "postcode") in
      match ProjectMetadata.location (Extractor.ExtractionResult.metadata res) with
      | None => truthy_opt truthy_str raw = false
      | Some loc =>
          exists p,
            raw = Some p /\ p <> EmptyString
            /\ LocationInfo.postcode loc
               = Some (Extractor.replace_two_spaces (upper_ascii p))
            /\ Intake.has_postcode (Extractor.ExtractionResult.metadata res) = true
            /\ (forall a, LocationInfo.address loc = Some a ->
                  exists lines,
                    lines <> EmptyString /\ a = lines +:+ ", " +:+ p)
            /\ LocationInfo.latitude loc = None
            /\ LocationInfo.longitude loc = None
            /\ LocationInfo.country loc = Some "UK"
      end
  end
  end.
Proof.
  destruct (Extractor.execute rx text src) as [r | e msg] eqn:Ex; [| exact I].
  destruct (decide (strip text = EmptyString)) as [E | E].
  { apply empty_input_spec in E. unfold Extractor.execute in Ex. rewrite E in Ex.
    injection Ex as <-. exact I. }
  destruct (execute_fields rx text src r E Ex) as (res & w & Hex & _ & Hloc & _).
  rewrite Hex.
  assert (Hd : ToolResult.data
                 (if PrimFloat.ltb (Extractor.ExtractionResult.confidence res) 0.2
                  then ToolResult.mk PARTIAL (Some res) []
                         (w ++ [Claims.low_confidence_warning])
                  else ToolResult.mk SUCCESS (Some res) [] w) = Some res)
    by (destruct (PrimFloat.ltb _ _); reflexivity).
  rewrite Hd. cbv zeta.
  destruct (extract_location_spec rx text)
    as (Hlat & Hlon & _ & _ & Hc & _ & Hnone & Hsome).
  unfold Intake.has_postcode. rewrite Hloc.
  destruct (Extractor._extract_pattern rx text (Extractor.patterns_of "postcode"))
    as [[| c p] |] eqn:Ep.
  - destruct (Hnone eq_refl) as (-> & ->). reflexivity.
  - assert (Hcp : String c p <> EmptyString) by discriminate.
    destruct (Hsome _ eq_refl Hcp) as (Hp & Ht & Ha).
    rewrite Ht. cbn [orb].
    exists (String c p). repeat split; auto.
  - destruct (Hnone eq_refl) as (-> & ->). reflexivity.
Qed.

Section ScoreMonotone.

Import Extractor.

Lemma three_spec (f : bool -> bool -> bool) :
  Props.three f = true -> forall b c, (b = true -> c = true) -> f b c = true.
Proof.
  unfold Props.three. intros H b c Hbc.
  apply andb_prop in H. destruct H as [H H3].
  apply andb_prop in H. destruct H as [H1 H2].
  destruct b, c; auto. discriminate (Hbc eq_refl).
Qed.

(** Checked on every pair of field sets of which one contains the other. *)
Lemma score_monotone_checked :
  Props.three (fun b1 c1 => Props.three (fun b2 c2 => Props.three (fun b3 c3 =>
  Props.three (fun b4 c4 => Props.three (fun b5 c5 => Props.three (fun b6 c6 =>
  Props.three (fun b7 c7 => Props.three (fun b8 c8 => Props.three (fun b9 c9 =>
  Props.three (fun b10 c10 =>
    PrimFloat.leb (Props.score b1 b2 b3 b4 b5 b6 b7 b8 b9 b10)
                  (Props.score c1 c2 c3 c4 c5 c6 c7 c8 c9 c10))))))))))) = true.
Proof. vm_compute. reflexivity. Qed.

(** Finding more fields never gives a lower score. *)
Lemma score_monotone (b1 b2 b3 b4 b5 b6 b7 b8 b9 b10 : bool)
    (c1 c2 c3 c4 c5 c6 c7 c8 c9 c10 : bool) :
  (b1 = true -> c1 = true) -> (b2 = true -> c2 = true) ->
  (b3 = true -> c3 = true) -> (b4 = true -> c4 = true) ->
  (b5 = true -> c5 = true) -> (b6 = true -> c6 = true) ->
  (b7 = true -> c7 = true) -> (b8 = true -> c8 = true) ->
  (b9 = true -> c9 = true) -> (b10 = true -> c10 = true) ->
  PrimFloat.leb (Props.score b1 b2 b3 b4 b5 b6 b7 b8 b9 b10)
                (Props.score c1 c2 c3 c4 c5 c6 c7 c8 c9 c10) = true.
Proof.
  intros H1 H2 H3 H4 H5 H6 H7 H8 H9 H10.
  refine (three_spec _ (three_spec _ (three_spec _ (three_spec _ (three_spec _
          (three_spec _ (three_spec _ (three_spec _ (three_spec _ (three_spec _
            score_monotone_checked b1 c1 H1) b2 c2 H2) b3 c3 H3) b4 c4 H4) b5 c5 H5)
            b6 c6 H6) b7 c7 H7) b8 c8 H8) b9 c9 H9) b10 c10 H10).
Qed.

Lemma calculate_confidence_score (m : ProjectMetadata.t) :
  _calculate_confidence m
  = Props.score
      (truthy_opt truthy_str (ProjectMetadata.project_name m))
      (truthy_opt truthy_str (ProjectMetadata.project_number m))
      (truthy_opt truthy_str (ProjectMetadata.client_name m))
      (truthy_opt truthy_str (ProjectMetadata.architect m))
      (location_found m)
      (truthy_opt (fun _ => true) (ProjectMetadata.issue_date m))
      (truthy_opt truthy_str (ProjectMetadata.stage m))
      (truthy_opt truthy_str (ProjectMetadata.building_type m))
      (truthy_opt truthy_float (ProjectMetadata.gross_internal_area_m2 m))
      (truthy_opt truthy_Z (ProjectMetadata.storeys m)).
Proof. reflexivity. Qed.

Lemma py_or_truthy_l {A} (t : A -> bool) (a b : option A) :
  truthy_opt t a = true -> truthy_opt t (py_or t a b) = true.
Proof. unfold py_or. intros H. rewrite H. exact H. Qed.

Lemma py_or_truthy_r {A} (t : A -> bool) (a b : option A) :
  truthy_opt t b = true -> truthy_opt t (py_or t a b) = true.
Proof. unfold py_or. intros H. destruct (truthy_opt t a) eqn:E; auto. Qed.

End ScoreMonotone.

(* ===================================================================== *)
(** * The metadata extractor: the two passes over the pages *)
(* ===================================================================== *)

Section TwoPasses.

Import Extractor Claims.

Lemma all_space_app (a b : string) :
  all_space (a +:+ b) <-> all_space a /\ all_space b.
Proof.
  induction a as [| c a IH]; simpl; [tauto |].
  change (String.append a b) with (a +:+ b). rewrite IH. tauto.
Qed.

Lemma join_app_all_space (sep : string) (A B : list string) :
  all_space (join sep (A ++ B)) -> all_space (join sep A).
Proof.
  induction A as [| p A IH]; [intros _; exact I |].
  destruct A as [| q A].
  - cbn [app join]. destruct B as [| b B]; [auto |].
    intros H. apply all_space_app in H. tauto.
  - change (join sep ((p :: q :: A) ++ B))
      with (p +:+ sep +:+ join sep ((q :: A) ++ B)).
    change (join sep (p :: q :: A)) with (p +:+ sep +:+ join sep (q :: A)).
    intros H. apply all_space_app in H. destruct H as [Hp H].
    apply all_space_app in H. destruct H as [Hs H].
    apply all_space_app. split; [exact Hp |].
    apply all_space_app. split; [exact Hs |]. apply IH, H.
Qed.

(** The text of the first pages is part of the text of all pages: if the
    latter is blank, so is the former. *)
Lemma join_texts_firstn (n : nat) (pages : list PageDict) :
  all_space (join_texts pages) -> all_space (join_texts (firstn n pages)).
Proof.
  unfold join_texts. intros H.
  rewrite <- (firstn_skipn n pages) in H.
  rewrite List.filter_app, List.map_app in H.
  exact (join_app_all_space _ _ _ H).
Qed.

Variable rx : Engine.

Lemma execute_blank (text : string) (src : option string) :
  all_space text ->
  execute rx text src
  = Return (ToolResult.mk FAILED None
              [_create_error name "EMPTY_INPUT" "No text provided for extraction"
                 false None] []).
Proof.
  intros H. apply strip_empty_all_space, empty_input_spec in H.
  unfold execute. rewrite H. reflexivity.
Qed.

Lemma execute_data (text : string) (src : option string)
    (r : ToolResult.t ExtractionResult.t) :
  execute rx text src = Return r ->
  match ToolResult.data r with
  | None => all_space text /\ ToolResult.status r = FAILED
  | Some res =>
      ~ all_space text
      /\ ToolResult.success r = true
      /\ ToolResult.errors r = []
      /\ ExtractionResult.confidence res
         = _calculate_confidence (ExtractionResult.metadata res)
      /\ ProjectMetadata.building_type (ExtractionResult.metadata res) = None
      /\ (forall loc,
            ProjectMetadata.location (ExtractionResult.metadata res) = Some loc ->
            location_found (ExtractionResult.metadata res) = true)
  end.
Proof.
  intros Hr.
  destruct (decide (strip text = EmptyString)) as [E | E].
  - apply strip_empty_all_space in E. rewrite (execute_blank text src E) in Hr.
    injection Hr as <-. split; [exact E | reflexivity].
  - destruct (execute_fields rx text src r E Hr) as (res & w & -> & Hc & Hl & Hb & _).
    destruct (PrimFloat.ltb (ExtractionResult.confidence res) 0.2);
      cbn [ToolResult.data ToolResult.errors];
      (split; [intros H; apply E, strip_empty_all_space, H |]);
      (split; [reflexivity |]); (split; [reflexivity |]);
      (split; [exact Hc |]); (split; [exact Hb |]);
      intros loc Hloc; unfold location_found; rewrite Hloc; rewrite Hl in Hloc;
      destruct (truthy_opt truthy_str
                  (LocationInfo.postcode (_extract_location rx text))
                || truthy_opt truthy_str
                     (LocationInfo.address (_extract_location rx text))) eqn:Ef;
      try discriminate; injection Hloc as <-; exact Ef.
Qed.

End TwoPasses.

(** The cases of [extract_from_pages]. *)
Lemma extract_from_pages_cases
    (rx : Extractor.Engine) (pages : list Extractor.PageDict) :
  let first := Extractor.execute rx (Props.priority_text pages)
                 (Some "First 3 pages (title blocks)") in
  let full := Extractor.execute rx (Extractor.join_texts pages)
                (Some "Full document") in
  let r := Extractor.extract_from_pages rx pages in
  (pages = [] ->
     r = Return
           (ToolResult.mk FAILED None
              [ {| ToolError.code := "METADATA_EXTRACTOR_EMPTY_INPUT";
                   ToolError.message := "No pages provided";
                   ToolError.recoverable := false;
                   ToolError.details := None |} ] []))
  /\ (Claims.all_space (Props.priority_text pages) ->
      exists fr, first = Return fr /\ ToolResult.status fr = FAILED
                 /\ ToolResult.data fr = None)
  /\ (pages <> [] ->
      match first with
      | Raise e msg => r = Raise e msg
      | Return fr =>
          match ToolResult.data fr with
          | None => Claims.all_space (Props.priority_text pages) /\ r = Return fr
          | Some d =>
              if PrimFloat.ltb (Extractor.ExtractionResult.confidence d) 0.5%float
              then
                match full with
                | Raise e msg => r = Raise e msg
                | Return ur =>
                    exists fd res,
                      ToolResult.data ur = Some fd
                      /\ r = Return
                               (ToolResult.mk
                                  (if PrimFloat.leb 0.2%float
                                        (Extractor.ExtractionResult.confidence res)
                                   then SUCCESS else PARTIAL)
                                  (Some res) []
                                  (ToolResult.warnings fr ++ ToolResult.warnings ur))
                      /\ Extractor.ExtractionResult.extraction_sources res
                         = ["First 3 pages"; "Full document"]
                      /\ Extractor.ExtractionResult.confidence res
                         = Extractor._calculate_confidence
                             (Extractor.ExtractionResult.metadata res)
        /\ (let pm := Extractor.ExtractionResult.metadata d in
            let fm := Extractor.ExtractionResult.metadata fd in
            let m := Extractor.ExtractionResult.metadata res in
            Props.prefers truthy_str (ProjectMetadata.project_name pm)
              (ProjectMetadata.project_name fm) (ProjectMetadata.project_name m)
            /\ Props.prefers truthy_str (ProjectMetadata.project_number pm)
                 (ProjectMetadata.project_number fm)
                 (ProjectMetadata.project_number m)
            /\ Props.prefers truthy_str (ProjectMetadata.client_name pm)
                 (ProjectMetadata.client_name fm) (ProjectMetadata.client_name m)
            /\ Props.prefers truthy_str (ProjectMetadata.architect pm)
                 (ProjectMetadata.architect fm) (ProjectMetadata.architect m)
            /\ Props.prefers truthy_str (ProjectMetadata.structural_engineer pm)
                 (ProjectMetadata.structural_engineer fm)
                 (ProjectMetadata.structural_engineer m)
            /\ Props.prefers (fun _ => true) (ProjectMetadata.location pm)
                 (ProjectMetadata.location fm) (ProjectMetadata.location m)
            /\ Props.prefers (fun _ => true) (ProjectMetadata.issue_date pm)
                 (ProjectMetadata.issue_date fm) (ProjectMetadata.issue_date m)
            /\ Props.prefers truthy_str (ProjectMetadata.stage pm)
                 (ProjectMetadata.stage fm) (ProjectMetadata.stage m)
            /\ Props.prefers truthy_float (ProjectMetadata.gross_internal_area_m2 pm)
                 (ProjectMetadata.gross_internal_area_m2 fm)
                 (ProjectMetadata.gross_internal_area_m2 m)
            /\ Props.prefers Extractor.truthy_Z (ProjectMetadata.storeys pm)
                 (ProjectMetadata.storeys fm) (ProjectMetadata.storeys m))
                end
              else r = Return fr
          end
      end).
Proof.
  intros first full r. subst r. unfold Extractor.extract_from_pages.
  split; [intros ->; reflexivity |].
  split.
  { intros Hb. subst first. rewrite (execute_blank rx _ _ Hb).
    eexists. split; [reflexivity |]. split; reflexivity. }
  destruct pages as [| p0 ps]; [intros Hne; congruence |].
  set (pages := p0 :: ps) in *. intros _.
  change (Extractor.join_texts (firstn 3 pages)) with (Props.priority_text pages).
  fold first. fold full.
  pose proof (execute_data rx (Props.priority_text pages)
                (Some "First 3 pages (title blocks)")) as Hf.
  pose proof (execute_data rx (Extractor.join_texts pages) (Some "Full document"))
    as Hu.
  fold first in Hf. fold full in Hu.
  destruct first as [fr | e msg]; [| reflexivity].
  specialize (Hf fr eq_refl).
  destruct (ToolResult.data fr) as [d |] eqn:Ed.
  2:{ destruct Hf as (Hb & Hst). split; [exact Hb |].
      replace (ToolResult.success fr) with false
        by (unfold ToolResult.success; rewrite Hst; reflexivity).
      reflexivity. }
  destruct Hf as (Hnb & Hs & _). rewrite Hs.
  destruct (PrimFloat.ltb (Extractor.ExtractionResult.confidence d) 0.5);
    [| reflexivity].
  destruct full as [ur | e msg]; [| reflexivity].
  specialize (Hu ur eq_refl).
  destruct (ToolResult.data ur) as [fd |] eqn:Efd.
  2:{ exfalso. destruct Hu as (Hblank & _).
      exact (Hnb (join_texts_firstn 3 pages Hblank)). }
  destruct Hu as (_ & Hsu & _). rewrite Hsu.
  match goal with
  | |- exists _ res, _ /\ Return (ToolResult.mk _ (Some ?x) _ _) = _ /\ _ =>
      exists fd, x
  end.
  split; [reflexivity |]. split; [reflexivity |].
  cbn [Extractor.ExtractionResult.extraction_sources
       Extractor.ExtractionResult.confidence
       Extractor.ExtractionResult.metadata
       ProjectMetadata.project_name ProjectMetadata.project_number
       ProjectMetadata.client_name ProjectMetadata.architect
       ProjectMetadata.structural_engineer ProjectMetadata.location
       ProjectMetadata.issue_date ProjectMetadata.stage
       ProjectMetadata.gross_internal_area_m2 ProjectMetadata.storeys].
  split; [reflexivity |]. split; [reflexivity |].
  unfold Props.prefers, py_or, Extractor.or_present.
  repeat split;
    match goal with
    | |- (if truthy_opt ?t ?x then _ else _) =>
        destruct x; cbn [truthy_opt]; try reflexivity;
        match goal with
        | |- (if ?c then _ else _) => destruct c; reflexivity
        end
    end.
Qed.

(** X11.  The passes of [MetadataExtractor.extract_from_pages].  With no
    page the result is FAILED.  Otherwise the first pass reads the text of
    the first three pages only: when that text is blank the result is the
    failure of the first pass, whatever text the later pages hold; when the
    first pass reaches a confidence of 0.5 its result is returned as it is.
    Below 0.5 the full text is read as well; this second pass never comes
    back without data, and the result carries the merged metadata, in which
    every field is the one of the first pass when that is set and the one of
    the full pass otherwise, with the confidence computed anew from the
    merged fields, status SUCCESS from 0.2 on and PARTIAL below, and the
    warnings of both passes.  What a pass raises leaves
    [extract_from_pages] as it is. *)
Theorem extract_from_pages_passes
    (rx : Extractor.Engine) (pages : list Extractor.PageDict) :
  let first := Extractor.execute rx (Props.priority_text pages)
                 (Some "First 3 pages (title blocks)") in
  let full := Extractor.execute rx (Extractor.join_texts pages)
                (Some "Full document") in
  let r := Extractor.extract_from_pages rx pages in
  (pages = [] ->
     r = Return
           (ToolResult.mk FAILED None
              [ {| ToolError.code := "METADATA_EXTRACTOR_EMPTY_INPUT";
                   ToolError.message := "No pages provided";
                   ToolError.recoverable := false;
                   ToolError.details := None |} ] []))
  /\ (Claims.all_space (Props.priority_text pages) ->
      exists fr, first = Return fr /\ ToolResult.status fr = FAILED
                 /\ ToolResult.data fr = None)
  /\ (pages <> [] ->
      match first with
      | Raise e msg => r = Raise e msg
      | Return fr =>
          match ToolResult.data fr with
          | None => Claims.all_space (Props.priority_text pages) /\ r = Return fr
          | Some d =>
              if PrimFloat.ltb (Extractor.ExtractionResult.confidence d) 0.5%float
              then
                match full with
                | Raise e msg => r = Raise e msg
                | Return ur =>
                    exists fd res,
                      ToolResult.data ur = Some fd
                      /\ r = Return
                               (ToolResult.mk
                                  (if PrimFloat.leb 0.2%float
                                        (Extractor.ExtractionResult.confidence res)
                                   then SUCCESS else PARTIAL)
                                  (Some res) []
                                  (ToolResult.warnings fr ++ ToolResult.warnings ur))
                      /\ Extractor.ExtractionResult.extraction_sources res
                         = ["First 3 pages"; "Full document"]
                      /\ Extractor.ExtractionResult.confidence res
                         = Extractor._calculate_confidence
                             (Extractor.ExtractionResult.metadata res)
        /\ (let pm := Extractor.ExtractionResult.metadata d in
            let fm := Extractor.ExtractionResult.metadata fd in
            let m := Extractor.ExtractionResult.metadata res in
            Props.prefers truthy_str (ProjectMetadata.project_name pm)
              (ProjectMetadata.project_name fm) (ProjectMetadata.project_name m)
            /\ Props.prefers truthy_str (ProjectMetadata.project_number pm)
                 (ProjectMetadata.project_number fm)
                 (ProjectMetadata.project_number m)
            /\ Props.prefers truthy_str (ProjectMetadata.client_name pm)
                 (ProjectMetadata.client_name fm) (ProjectMetadata.client_name m)
            /\ Props.prefers truthy_str (ProjectMetadata.architect pm)
                 (ProjectMetadata.architect fm) (ProjectMetadata.architect m)
            /\ Props.prefers truthy_str (ProjectMetadata.structural_engineer pm)
                 (ProjectMetadata.structural_engineer fm)
                 (ProjectMetadata.structural_engineer m)
            /\ Props.prefers (fun _ => true) (ProjectMetadata.location pm)
                 (ProjectMetadata.location fm) (ProjectMetadata.location m)
            /\ Props.prefers (fun _ => true) (ProjectMetadata.issue_date pm)
                 (ProjectMetadata.issue_date fm) (ProjectMetadata.issue_date m)
            /\ Props.prefers truthy_str (ProjectMetadata.stage pm)
                 (ProjectMetadata.stage fm) (ProjectMetadata.stage m)
            /\ Props.prefers truthy_float (ProjectMetadata.gross_internal_area_m2 pm)
                 (ProjectMetadata.gross_internal_area_m2 fm)
                 (ProjectMetadata.gross_internal_area_m2 m)
            /\ Props.prefers Extractor.truthy_Z (ProjectMetadata.storeys pm)
                 (ProjectMetadata.storeys fm) (ProjectMetadata.storeys m))
                end
              else r = Return fr
          end
      end).
Proof. exact (extract_from_pages_cases rx pages). Qed.

Section MergedConfidence.

Import Extractor.

Lemma leb_confidence_refl (m : ProjectMetadata.t) :
  PrimFloat.leb (_calculate_confidence m) (_calculate_confidence m) = true.
Proof. rewrite calculate_confidence_score. apply score_monotone; auto. Qed.

End MergedConfidence.

(** X12.  Reading more never lowers the confidence.  The confidence of
    every [ExtractionResult] that [extract_from_pages] returns lies between
    0 and 1 and is at least the confidence of the first pass; when the full
    text was read as well, it is also at least the confidence of that
    second pass. *)
Theorem extract_from_pages_confidence
    (rx : Extractor.Engine) (pages : list Extractor.PageDict) :
  let first := Extractor.execute rx (Props.priority_text pages)
                 (Some "First 3 pages (title blocks)") in
  let full := Extractor.execute rx (Extractor.join_texts pages)
                (Some "Full document") in
  match Extractor.extract_from_pages rx pages with
  | Raise _ _ => True
  | Return r =>
  match ToolResult.data r with
  | None => True
  | Some res =>
      Claims.in_unit_interval (Extractor.ExtractionResult.confidence res) = true
      /\ (forall fr d, first = Return fr -> ToolResult.data fr = Some d ->
            PrimFloat.leb (Extractor.ExtractionResult.confidence d)
                          (Extractor.ExtractionResult.confidence res) = true)
      /\ (forall fr d ur fd,
            first = Return fr -> ToolResult.data fr = Some d ->
            PrimFloat.ltb (Extractor.ExtractionResult.confidence d) 0.5%float = true ->
            full = Return ur -> ToolResult.data ur = Some fd ->
            PrimFloat.leb (Extractor.ExtractionResult.confidence fd)
                          (Extractor.ExtractionResult.confidence res) = true)
  end
  end.
Proof.
  intros first full.
  destruct pages as [| p0 ps]; [exact I |].
  set (pages := p0 :: ps) in *.
  assert (Hne : pages <> []) by discriminate.
  destruct (extract_from_pages_cases rx pages) as (_ & _ & Hcases).
  specialize (Hcases Hne). fold first in Hcases. fold full in Hcases.
  pose proof (execute_data rx (Props.priority_text pages)
                (Some "First 3 pages (title blocks)")) as Hf.
  pose proof (execute_data rx (Extractor.join_texts pages) (Some "Full document"))
    as Hu.
  fold first in Hf. fold full in Hu.
  destruct first as [fr | e msg]; [| rewrite Hcases; exact I].
  specialize (Hf fr eq_refl).
  destruct (ToolResult.data fr) as [d |] eqn:Ed.
  2:{ destruct Hcases as (_ & ->). rewrite Ed. exact I. }
  destruct Hf as (_ & _ & _ & Hcd & Hbd & Hld).
  destruct (PrimFloat.ltb (Extractor.ExtractionResult.confidence d) 0.5) eqn:Ec.
  - destruct full as [ur | e msg]; [| rewrite Hcases; exact I].
    specialize (Hu ur eq_refl).
    destruct Hcases
      as (fd & res & Hfd & -> & _ & Hcr & Hn & Hnum & Hcl & Ha & _ & Hloc & Hdate
          & Hst & Hg & Hs).
    rewrite Hfd in Hu. destruct Hu as (_ & _ & _ & Hcf & Hbf & Hlf).
    cbn [ToolResult.data]. cbv zeta in *.
    set (pm := Extractor.ExtractionResult.metadata d) in *.
    set (fm := Extractor.ExtractionResult.metadata fd) in *.
    set (m := Extractor.ExtractionResult.metadata res) in *.
    assert (Hbm : truthy_opt truthy_str (ProjectMetadata.building_type pm) = false)
      by (rewrite Hbd; reflexivity).
    assert (Hbf' : truthy_opt truthy_str (ProjectMetadata.building_type fm) = false)
      by (rewrite Hbf; reflexivity).
    assert (Hlm_p : Extractor.location_found pm = true ->
                    Extractor.location_found m = true).
    { unfold Extractor.location_found. unfold Props.prefers in Hloc.
      destruct (ProjectMetadata.location pm) as [l |]; [| discriminate].
      cbn [truthy_opt] in Hloc. rewrite Hloc. auto. }
    assert (Hlm_f : Extractor.location_found fm = true ->
                    Extractor.location_found m = true).
    { unfold Props.prefers in Hloc.
      destruct (ProjectMetadata.location pm) as [l |] eqn:El;
        cbn [truthy_opt] in Hloc.
      - intros _. pose proof (Hld l eq_refl) as H.
        unfold Extractor.location_found in *. rewrite Hloc. rewrite El in H.
        exact H.
      - unfold Extractor.location_found. rewrite Hloc. auto. }
    assert (Hpref : forall A (t : A -> bool) (p f x : option A),
              Props.prefers t p f x ->
              (truthy_opt t p = true -> truthy_opt t x = true)
              /\ (truthy_opt t f = true -> truthy_opt t x = true)).
    { intros A t p f x. unfold Props.prefers.
      destruct (truthy_opt t p) eqn:E; intros ->; split; auto; discriminate. }
    split; [rewrite Hcr; apply calculate_confidence_in_unit_interval |].
    split.
    + intros fr' d' Hfr' Hd'. injection Hfr' as <-. rewrite Ed in Hd'.
      injection Hd' as <-. rewrite Hcd, Hcr.
      rewrite !calculate_confidence_score.
      apply score_monotone;
        [ exact (proj1 (Hpref _ _ _ _ _ Hn)) | exact (proj1 (Hpref _ _ _ _ _ Hnum))
        | exact (proj1 (Hpref _ _ _ _ _ Hcl)) | exact (proj1 (Hpref _ _ _ _ _ Ha))
        | exact Hlm_p | exact (proj1 (Hpref _ _ _ _ _ Hdate))
        | exact (proj1 (Hpref _ _ _ _ _ Hst)) | rewrite Hbm; discriminate
        | exact (proj1 (Hpref _ _ _ _ _ Hg)) | exact (proj1 (Hpref _ _ _ _ _ Hs)) ].
    + intros fr' d' ur' fd' _ _ _ Hur' Hfd'. injection Hur' as <-.
      rewrite Hfd in Hfd'. injection Hfd' as <-.
      rewrite Hcf, Hcr.
      rewrite !calculate_confidence_score.
      apply score_monotone;
        [ exact (proj2 (Hpref _ _ _ _ _ Hn)) | exact (proj2 (Hpref _ _ _ _ _ Hnum))
        | exact (proj2 (Hpref _ _ _ _ _ Hcl)) | exact (proj2 (Hpref _ _ _ _ _ Ha))
        | exact Hlm_f | exact (proj2 (Hpref _ _ _ _ _ Hdate))
        | exact (proj2 (Hpref _ _ _ _ _ Hst)) | rewrite Hbf'; discriminate
        | exact (proj2 (Hpref _ _ _ _ _ Hg)) | exact (proj2 (Hpref _ _ _ _ _ Hs)) ].
  - rewrite Hcases, Ed.
    split; [rewrite Hcd; apply calculate_confidence_in_unit_interval |].
    split.
    + intros fr' d' Hfr' Hd'. injection Hfr' as <-. rewrite Ed in Hd'.
      injection Hd' as <-. rewrite Hcd. apply leb_confidence_refl.
    + intros fr' d' ur' fd' Hfr' Hd' Hlt. injection Hfr' as <-.
      rewrite Ed in Hd'. injection Hd' as <-. congruence.
Qed.

(** Three blank title pages hide the text of the fourth. *)
Example extract_from_pages_blank_start :
  let page n text :=
    {| Extractor.pd_text := text; Extractor.pd_page_number := n;
       Extractor.pd_source := "set.pdf" |} in
  exists r,
    Extractor.extract_from_pages silent_engine
      [page 1%Z ""; page 2%Z " "; page 3%Z ""; page 4%Z "Project: Mill Lane"]
    = Return r
    /\ ToolResult.status r = FAILED
    /\ List.map ToolError.message (ToolResult.errors r)
       = ["No text provided for extraction"].
Proof. eexists. split; [vm_compute; reflexivity |]. split; reflexivity. Qed.

(* ===================================================================== *)
(** * The geocoder: enrichment that does not succeed *)
(* ===================================================================== *)

(** X13.  [Geocoder.enrich_location] never fails and never loses the
    location it was given.  Its status is SUCCESS or PARTIAL and it always
    carries a location.  Without a postcode and an address it returns the
    input with status PARTIAL and one warning, contacts no provider and
    leaves the cache alone.  Otherwise it geocodes the postcode, or the
    address when there is no postcode; when that call does not succeed, it
    returns the input unchanged with status PARTIAL, the errors of the call,
    and the call's warnings followed by "Could not enrich location". *)
Theorem enrich_location_never_fails
    (w : Geocoder.Providers) (self : Geocoder.Geocoder)
    (cache : gmap string Geocoder.GeocodingResult.t) (location : LocationInfo.t) :
  let out := Geocoder.enrich_location w self cache location in
  let r := fst (fst out) in
  let query :=
    if truthy_opt truthy_str (LocationInfo.postcode location)
    then LocationInfo.postcode location else LocationInfo.address location in
  let step := Geocoder.execute w self cache (default EmptyString query) None in
  (ToolResult.status r = SUCCESS \/ ToolResult.status r = PARTIAL)
  /\ (exists loc, ToolResult.data r = Some loc)
  /\ (ToolResult.status r = PARTIAL -> ToolResult.data r = Some location)
  /\ (truthy_opt truthy_str query = false ->
      out = (ToolResult.mk PARTIAL (Some location) []
               ["No postcode or address to enrich from"], cache, []))
  /\ (truthy_opt truthy_str query = true ->
      snd (fst out) = Geocoder.cache_after step
      /\ snd out = Geocoder.contacted step
      /\ (ToolResult.status (Geocoder.result step) = FAILED ->
          r = ToolResult.mk PARTIAL (Some location)
                (ToolResult.errors (Geocoder.result step))
                (ToolResult.warnings (Geocoder.result step)
                 ++ ["Could not enrich location"]))
      /\ (ToolResult.status (Geocoder.result step) = SUCCESS ->
          ToolResult.status r = SUCCESS
          /\ ToolResult.errors r = []
          /\ ToolResult.warnings r = ToolResult.warnings (Geocoder.result step))).
Proof.
  cbv zeta. unfold Geocoder.enrich_location, Geocoder.enrich_query, py_or.
  destruct (truthy_opt truthy_str (LocationInfo.postcode location)) eqn:Ep;
    cbn [negb andb].
  - pose proof (execute_status self w cache
                  (default EmptyString (LocationInfo.postcode location)) None)
      as Hs.
    destruct Hs as [(Hst & Hd & _) | (res & _ & Hst & Hd & He & _)].
    + unfold ToolResult.success. rewrite Hst; try rewrite Hd. cbn [fst snd ToolResult.status
        ToolResult.data ToolResult.errors ToolResult.warnings].
      repeat split; eauto; try discriminate; try congruence.
    + unfold ToolResult.success. rewrite Hst; try rewrite Hd. cbn [fst snd ToolResult.status
        ToolResult.data ToolResult.errors ToolResult.warnings].
      repeat split; eauto; try discriminate; try congruence.
  - destruct (truthy_opt truthy_str (LocationInfo.address location)) eqn:Ea;
      cbn [negb andb].
    + pose proof (execute_status self w cache
                    (default EmptyString (LocationInfo.address location)) None)
        as Hs.
      destruct Hs as [(Hst & Hd & _) | (res & _ & Hst & Hd & He & _)].
      * unfold ToolResult.success. rewrite Hst; try rewrite Hd. cbn [fst snd ToolResult.status
          ToolResult.data ToolResult.errors ToolResult.warnings].
        repeat split; eauto; try discriminate; try congruence.
      * unfold ToolResult.success. rewrite Hst; try rewrite Hd. cbn [fst snd ToolResult.status
          ToolResult.data ToolResult.errors ToolResult.warnings].
        repeat split; eauto; try discriminate; try congruence.
    + cbn [fst snd ToolResult.status ToolResult.data].
      repeat split; eauto; try discriminate; try congruence.
Qed.

(** A location whose postcode no provider knows comes back as it was. *)
Example enrich_location_unknown_postcode :
  let location :=
    {| LocationInfo.address := None; LocationInfo.postcode := Some "EC1A 1BB";
       LocationInfo.latitude := None; LocationInfo.longitude := None;
       LocationInfo.local_authority := None; LocationInfo.region := None;
       LocationInfo.country := Some "UK"; LocationInfo.what3words := None |} in
  let out := Geocoder.enrich_location postcodes_io_only default_geocoder ∅ location in
  fst (fst out)
  = ToolResult.mk PARTIAL (Some location)
      [ {| ToolError.code := "GEOCODER_NOT_FOUND";
           ToolError.message := "Postcode not found: EC1A 1BB";
           ToolError.recoverable := true; ToolError.details := None |} ]
      ["Could not enrich location"]
  /\ snd (fst out) = ∅
  /\ snd out = [Geocoder.ContactPostcodesIo "EC1A 1BB"].
Proof. vm_compute. repeat split. Qed.
Section Postcode.
Import Geocoder.

Lemma upper_char_classes (c : ascii) :
  Json.is_digit (Props.upper_char c) = Json.is_digit c
  /\ is_letter (Props.upper_char c) = is_letter c
  /\ isspace (Props.upper_char c) = isspace c
  /\ is_ascii_lower (Props.upper_char c) = false.
Proof. destruct c as [[] [] [] [] [] [] [] []]; vm_compute; auto. Qed.

Lemma char_classes_apart (c : ascii) :
  (Json.is_digit c = true ->
   is_letter c = false /\ isspace c = false /\ is_alnum c = true)
  /\ (is_letter c = true ->
      Json.is_digit c = false /\ isspace c = false /\ is_alnum c = true)
  /\ (is_alnum c = true -> isspace c = false).
Proof.
  destruct c as [[] [] [] [] [] [] [] []]; vm_compute;
    (split; [| split]); intros; auto; discriminate.
Qed.

Lemma upper_ascii_cons (c : ascii) (s : string) :
  upper_ascii (String c s) = String (Props.upper_char c) (upper_ascii s).
Proof. reflexivity. Qed.

Lemma upper_ascii_app (a b : string) :
  upper_ascii (a +:+ b) = upper_ascii a +:+ upper_ascii b.
Proof.
  induction a as [| c a IH]; [reflexivity |].
  change (String c a +:+ b) with (String c (a +:+ b)).
  rewrite !upper_ascii_cons, IH. reflexivity.
Qed.

Lemma upper_ascii_idem (s : string) : upper_ascii (upper_ascii s) = upper_ascii s.
Proof.
  induction s as [| c s IH]; [reflexivity |].
  rewrite !upper_ascii_cons, IH. f_equal.
  unfold Props.upper_char at 1.
  destruct (upper_char_classes c) as (_ & _ & _ & ->). reflexivity.
Qed.

Lemma lstrip_upper (s : string) : lstrip (upper_ascii s) = upper_ascii (lstrip s).
Proof.
  induction s as [| c s IH]; [reflexivity |].
  rewrite upper_ascii_cons. cbn [lstrip].
  destruct (upper_char_classes c) as (_ & _ & -> & _).
  destruct (isspace c); [exact IH | reflexivity].
Qed.

Lemma match_inward_upper (s : string) :
  match_inward (upper_ascii s) = option_map upper_ascii (match_inward s).
Proof.
  unfold match_inward. rewrite lstrip_upper.
  destruct (lstrip s) as [| d [| l1 [| l2 [| x r]]]]; try reflexivity.
  rewrite !upper_ascii_cons. cbn [upper_ascii].
  destruct (upper_char_classes d) as (-> & _).
  destruct (upper_char_classes l1) as (_ & -> & _).
  destruct (upper_char_classes l2) as (_ & -> & _).
  destruct (Json.is_digit d && is_letter l1 && is_letter l2); reflexivity.
Qed.

Local Ltac up_done :=
  cbn [option_map prod_map fst snd upper_ascii];
  rewrite ?upper_ascii_app; cbn [upper_ascii]; reflexivity.

Lemma match_after_letters_upper (letters s : string) :
  match_after_letters (upper_ascii letters) (upper_ascii s)
  = option_map (prod_map upper_ascii upper_ascii) (match_after_letters letters s).
Proof.
  destruct s as [| d s1]; [reflexivity |].
  rewrite upper_ascii_cons. cbn [match_after_letters].
  destruct (upper_char_classes d) as (-> & _).
  destruct (Json.is_digit d); [| reflexivity].
  rewrite (match_inward_upper s1).
  destruct s1 as [| x s2].
  - cbn [upper_ascii]. destruct (match_inward EmptyString); up_done.
  - rewrite upper_ascii_cons.
    unfold is_alnum.
    destruct (upper_char_classes x) as (-> & -> & _).
    rewrite (match_inward_upper s2).
    destruct (Json.is_digit x || is_letter x).
    + destruct (match_inward s2) as [i |]; [up_done |].
      destruct (match_inward (String x s2)); up_done.
    + destruct (match_inward (String x s2)); up_done.
Qed.

Lemma postcode_match_upper (s : string) :
  postcode_match (upper_ascii s)
  = option_map (prod_map upper_ascii upper_ascii) (postcode_match s).
Proof.
  destruct s as [| a s1]; [reflexivity |].
  rewrite upper_ascii_cons. cbn [postcode_match].
  destruct (upper_char_classes a) as (_ & -> & _).
  destruct (is_letter a); [| reflexivity].
  change (String (Props.upper_char a) EmptyString) with (upper_ascii (String a EmptyString)).
  rewrite (match_after_letters_upper (String a EmptyString) s1).
  destruct s1 as [| b s2].
  - reflexivity.
  - rewrite upper_ascii_cons.
    destruct (upper_char_classes b) as (_ & -> & _).
    destruct (is_letter b).
    + change (String (Props.upper_char a) (String (Props.upper_char b) EmptyString))
        with (upper_ascii (String a (String b EmptyString))).
      rewrite (match_after_letters_upper _ s2).
      destruct (match_after_letters (String a (String b EmptyString)) s2); reflexivity.
    + reflexivity.
Qed.

Lemma match_inward_spec (s g : string) :
  match_inward s = Some g ->
  Props.inward_ok g = true /\ exists ws, s = ws +:+ g /\ Claims.all_space ws.
Proof.
  unfold match_inward. destruct (lstrip_spec s) as (ws & Hs & Hw).
  destruct (lstrip s) as [| d [| l1 [| l2 [| x r]]]]; try discriminate.
  destruct (Json.is_digit d && is_letter l1 && is_letter l2) eqn:E; [| discriminate].
  intros H. injection H as <-. split; [exact E | eauto].
Qed.

Lemma match_after_letters_spec (letters s g1 g2 : string) :
  match_after_letters letters s = Some (g1, g2) ->
  Props.inward_ok g2 = true
  /\ exists d t ws,
       g1 = letters +:+ String d t /\ s = String d t +:+ ws +:+ g2
       /\ Claims.all_space ws /\ Json.is_digit d = true
       /\ match t with
          | EmptyString => True
          | String x EmptyString => is_alnum x = true
          | _ => False
          end.
Proof.
  destruct s as [| d s1]; [discriminate |]. cbn [match_after_letters].
  destruct (Json.is_digit d) eqn:Ed; [| discriminate].
  assert (Hshort : match match_inward s1 with
                   | Some inward => Some (letters +:+ String d EmptyString, inward)
                   | None => None
                   end = Some (g1, g2) ->
                   Props.inward_ok g2 = true
                   /\ exists d0 t ws,
                        g1 = letters +:+ String d0 t
                        /\ String d s1 = String d0 t +:+ ws +:+ g2
                        /\ Claims.all_space ws /\ Json.is_digit d0 = true
                        /\ match t with
                           | EmptyString => True
                           | String x EmptyString => is_alnum x = true
                           | _ => False
                           end).
  { destruct (match_inward s1) as [i |] eqn:Ei; [| discriminate].
    intros H. injection H as <- <-.
    destruct (match_inward_spec _ _ Ei) as (Hi & ws & -> & Hw).
    split; [exact Hi |]. exists d, EmptyString, ws. auto. }
  destruct s1 as [| x s2]; [exact Hshort |].
  destruct (is_alnum x) eqn:Ex; [| exact Hshort].
  destruct (match_inward s2) as [i |] eqn:Ei; [| exact Hshort].
  intros H. injection H as <- <-.
  destruct (match_inward_spec _ _ Ei) as (Hi & ws & -> & Hw).
  split; [exact Hi |]. exists d, (String x EmptyString), ws. auto.
Qed.

Lemma postcode_match_spec (s g1 g2 : string) :
  postcode_match s = Some (g1, g2) ->
  Props.outward_ok g1 = true /\ Props.inward_ok g2 = true
  /\ exists ws, s = g1 +:+ ws +:+ g2 /\ Claims.all_space ws.
Proof.
  destruct s as [| a s1]; [discriminate |]. cbn [postcode_match].
  destruct (is_letter a) eqn:Ea; [| discriminate].
  assert (Hone : match_after_letters (String a EmptyString) s1 = Some (g1, g2) ->
                 Props.outward_ok g1 = true /\ Props.inward_ok g2 = true
                 /\ exists ws, String a s1 = g1 +:+ ws +:+ g2 /\ Claims.all_space ws).
  { intros H. apply match_after_letters_spec in H.
    destruct H as (Hi & d & t & ws & -> & -> & Hw & Hd & Ht).
    split; [| split; [exact Hi |]].
    - destruct t as [| x [| y t]]; [| | contradiction];
        rewrite ?append_cons, ?append_nil; cbn [Props.outward_ok].
      + rewrite Ea, Hd. reflexivity.
      + rewrite Ea, Hd, Ht. reflexivity.
    - exists ws. split; [reflexivity | exact Hw]. }
  destruct s1 as [| b s2]; [exact Hone |].
  destruct (is_letter b) eqn:Eb; [| exact Hone].
  destruct (match_after_letters (String a (String b EmptyString)) s2)
    as [[h1 h2] |] eqn:Etwo; [| exact Hone].
  intros H. injection H as <- <-.
  apply match_after_letters_spec in Etwo.
  destruct Etwo as (Hi & d & t & ws & -> & -> & Hw & Hd & Ht).
  split; [| split; [exact Hi |]].
  - destruct t as [| x [| y t]]; [| | contradiction];
        rewrite ?append_cons, ?append_nil; cbn [Props.outward_ok].
    + rewrite Ea, Eb, Hd. destruct (Json.is_digit b && is_alnum d); reflexivity.
    + rewrite Ea, Eb, Hd, Ht. reflexivity.
  - exists ws. split; [reflexivity | exact Hw].
Qed.

Local Ltac classes :=
  repeat match goal with
  | H : Json.is_digit ?c = true |- _ =>
      let Hl := fresh "Hl" in let Hs := fresh "Hs" in let Ha := fresh "Ha" in
      destruct (proj1 (char_classes_apart c) H) as (Hl & Hs & Ha);
      revert H
  | H : is_letter ?c = true |- _ =>
      let Hd := fresh "Hd" in let Hs := fresh "Hs" in let Ha := fresh "Ha" in
      destruct (proj1 (proj2 (char_classes_apart c)) H) as (Hd & Hs & Ha);
      revert H
  end; intros.

Local Ltac run_match :=
  repeat (try unfold match_inward;
          cbn [postcode_match match_after_letters lstrip rstrip];
          rewrite ?append_cons, ?append_nil;
          repeat match goal with
          | H : _ = true |- _ => rewrite H
          | H : _ = false |- _ => rewrite H
          end).

Lemma normal_form_matches (g1 g2 : string) :
  Props.outward_ok g1 = true -> Props.inward_ok g2 = true ->
  strip (g1 +:+ " " +:+ g2) = g1 +:+ " " +:+ g2
  /\ postcode_match (g1 +:+ " " +:+ g2) = Some (g1, g2).
Proof.
  intros H1 H2.
  assert (Hsp : isspace " " = true) by reflexivity.
  assert (Han : is_alnum " " = false) by reflexivity.
  destruct g2 as [| d [| l1 [| l2 [| ? ?]]]]; try discriminate H2.
  cbn [Props.inward_ok] in H2.
  apply andb_true_iff in H2 as [H2 Hl2]. apply andb_true_iff in H2 as [Hd Hl1].
  destruct g1 as [| a [| b [| c [| x [| ? ?]]]]]; try discriminate H1;
    cbn [Props.outward_ok] in H1.
  - apply andb_true_iff in H1 as [Ha Hb]. classes.
    rewrite ?append_cons, ?append_nil. unfold strip. split; run_match; reflexivity.
  - apply andb_true_iff in H1 as [Ha H1]. apply orb_true_iff in H1 as [H1 | H1];
      apply andb_true_iff in H1 as [Hb Hc]; classes.
    + pose proof (proj2 (proj2 (char_classes_apart c)) Hc) as Hcs.
      rewrite ?append_cons, ?append_nil. unfold strip. split; run_match; reflexivity.
    + rewrite ?append_cons, ?append_nil. unfold strip. split; run_match; reflexivity.
  - apply andb_true_iff in H1 as [H1 Hx]. apply andb_true_iff in H1 as [H1 Hc].
    apply andb_true_iff in H1 as [Ha Hb]. classes.
    pose proof (proj2 (proj2 (char_classes_apart x)) Hx) as Hxs.
    rewrite ?append_cons, ?append_nil. unfold strip. split; run_match; reflexivity.
Qed.

End Postcode.

(** X14.  A text that [Geocoder._is_uk_postcode] accepts is, once stripped,
    an outward part, white space (possibly none) and an inward part, and
    [Geocoder._normalize_postcode] turns it into the two parts in upper case
    with one space between them: one or two letters, a digit and an optional
    digit or letter; then a digit and two letters.  The normalised postcode
    is itself accepted, and normalising it again changes nothing. *)
Theorem postcode_normal_form (text : string) :
  Geocoder._is_uk_postcode text = true ->
  exists a ws b,
    strip text = a +:+ ws +:+ b /\ Claims.all_space ws
    /\ let n := upper_ascii a +:+ " " +:+ upper_ascii b in
       Geocoder._normalize_postcode text = Some n
       /\ Props.outward_ok (upper_ascii a) = true
       /\ Props.inward_ok (upper_ascii b) = true
       /\ Geocoder._is_uk_postcode n = true
       /\ Geocoder._normalize_postcode n = Some n.
Proof.
  unfold Geocoder._is_uk_postcode at 1.
  destruct (Geocoder.postcode_match (strip text)) as [[a b] |] eqn:E; [| discriminate].
  intros _. destruct (postcode_match_spec _ _ _ E) as (_ & _ & ws & Hs & Hw).
  exists a, ws, b. split; [exact Hs |]. split; [exact Hw |]. cbv zeta.
  pose proof (postcode_match_upper (strip text)) as Hu. rewrite E in Hu.
  cbn [option_map prod_map fst snd] in Hu.
  destruct (postcode_match_spec _ _ _ Hu) as (Ho & Hi & _).
  destruct (normal_form_matches _ _ Ho Hi) as (Hst & Hm).
  split; [| split; [exact Ho | split; [exact Hi | split]]].
  - unfold Geocoder._normalize_postcode. rewrite Hu. reflexivity.
  - unfold Geocoder._is_uk_postcode. rewrite Hst, Hm. reflexivity.
  - unfold Geocoder._normalize_postcode. rewrite Hst.
    rewrite !upper_ascii_app, !upper_ascii_idem.
    change (upper_ascii " ") with " ". rewrite Hm. reflexivity.
Qed.

Lemma postcode_normal_form_witness :
  Geocoder._is_uk_postcode " sw1a1aa " = true
  /\ exists a ws b,
       strip " sw1a1aa " = a +:+ ws +:+ b /\ Claims.all_space ws
       /\ let n := upper_ascii a +:+ " " +:+ upper_ascii b in
          Geocoder._normalize_postcode " sw1a1aa " = Some n
          /\ Props.outward_ok (upper_ascii a) = true
          /\ Props.inward_ok (upper_ascii b) = true
          /\ Geocoder._is_uk_postcode n = true
          /\ Geocoder._normalize_postcode n = Some n.
Proof.
  split; [reflexivity | apply (postcode_normal_form " sw1a1aa "); reflexivity].
Defined.

Example normalize_postcode_runs :
  Geocoder._normalize_postcode " sw1a1aa " = Some "SW1A 1AA"
  /\ Geocoder._normalize_postcode "m1   1ae" = Some "M1 1AE"
  /\ Geocoder._normalize_postcode "SW1A 1A" = None
  /\ Geocoder._normalize_postcode "1 High Street" = None.
Proof. repeat split. Qed.
Section Routing.
Import Geocoder.

Lemma is_uk_postcode_normalizes (text : string) :
  _is_uk_postcode text = true ->
  exists n, _normalize_postcode text = Some n /\ _normalize_postcode n = Some n.
Proof.
  unfold _is_uk_postcode at 1.
  destruct (postcode_match (strip text)) as [[a b] |] eqn:E; [| discriminate].
  intros _. pose proof (postcode_match_upper (strip text)) as Hu. rewrite E in Hu.
  cbn [option_map prod_map fst snd] in Hu.
  destruct (postcode_match_spec _ _ _ Hu) as (Ho & Hi & _).
  destruct (normal_form_matches _ _ Ho Hi) as (Hst & Hm).
  unfold _normalize_postcode. rewrite Hu. eexists. split; [reflexivity |].
  rewrite Hst, !upper_ascii_app, !upper_ascii_idem.
  change (upper_ascii " ") with " ". rewrite Hm. reflexivity.
Qed.

End Routing.

(** X15.  Which provider [Geocoder.execute] contacts is settled by the
    query, the requested provider and the Google key, not by what the
    providers answer.  A call contacts at most one provider, and none when
    the query is empty or its result is in the cache.  Otherwise a UK
    postcode goes to postcodes.io in its normalised form, whatever provider
    was requested (and a successful result then warns about the change);
    another text with postcodes.io requested is refused with
    [INVALID_INPUT] and no contact; with Google requested and a key
    configured it goes to Google; and in every other case it goes to
    Nominatim, also for a provider name the code does not know, with a
    warning on success when Google was requested without a key. *)
Theorem execute_routing
    (w : Geocoder.Providers) (self : Geocoder.Geocoder)
    (cache : gmap string Geocoder.GeocodingResult.t)
    (query : string) (provider : option string) :
  let step := Geocoder.execute w self cache query provider in
  let r := Geocoder.result step in
  let q := strip query in
  let requested := Geocoder.provider_or_primary self provider in
  (length (Geocoder.contacted step) <= 1)%nat
  /\ (q = EmptyString -> Geocoder.contacted step = [])
  /\ (forall hit, cache !! Geocoder.cache_key self query provider = Some hit ->
      Geocoder.contacted step = [])
  /\ (q <> EmptyString ->
      cache !! Geocoder.cache_key self query provider = None ->
      if Geocoder._is_uk_postcode q then
        exists n,
          Geocoder._normalize_postcode q = Some n
          /\ Geocoder._normalize_postcode n = Some n
          /\ Geocoder.contacted step = [Geocoder.ContactPostcodesIo n]
          /\ (ToolResult.status r = SUCCESS -> requested <> "postcodes_io" ->
              In ("Using postcodes.io for UK postcode (requested: "
                  +:+ requested +:+ ")") (ToolResult.warnings r))
      else if String.eqb requested "postcodes_io" then
        step = {| Geocoder.result :=
                    ToolResult.mk FAILED None
                      [{| ToolError.code := "GEOCODER_INVALID_INPUT";
                          ToolError.message :=
                            "postcodes.io requires a valid UK postcode";
                          ToolError.recoverable := true;
                          ToolError.details := None |}]
                      ["Try using 'nominatim' or 'google' provider for addresses"];
                  Geocoder.cache_after := cache;
                  Geocoder.contacted := [] |}
      else if String.eqb requested "google"
              && truthy_opt truthy_str (Geocoder.google_api_key self) then
        Geocoder.contacted step = [Geocoder.ContactGoogle q]
      else
        Geocoder.contacted step = [Geocoder.ContactNominatim q]
        /\ (ToolResult.status r = SUCCESS -> requested = "google" ->
            In "Google API key not configured, falling back to Nominatim"
               (ToolResult.warnings r))).
Proof.
  cbv zeta.
  destruct (decide (strip query = EmptyString)) as [E | E].
  { rewrite (execute_empty self w cache query provider E).
    cbn [Geocoder.contacted length]. repeat split; auto; try (intros; contradiction). }
  destruct (cache !! Geocoder.cache_key self query provider) as [hit |] eqn:Hc.
  { rewrite (execute_hit self w cache query provider hit E Hc).
    cbn [Geocoder.contacted length]. repeat split; auto; try discriminate;
      try (intros; contradiction). }
  assert (Hmiss :
    if Geocoder._is_uk_postcode (strip query) then
        exists n,
          Geocoder._normalize_postcode (strip query) = Some n
          /\ Geocoder._normalize_postcode n = Some n
          /\ Geocoder.contacted (Geocoder.execute w self cache query provider)
             = [Geocoder.ContactPostcodesIo n]
          /\ (ToolResult.status (Geocoder.result (Geocoder.execute w self cache query provider)) = SUCCESS ->
              Geocoder.provider_or_primary self provider <> "postcodes_io" ->
              In ("Using postcodes.io for UK postcode (requested: "
                  +:+ Geocoder.provider_or_primary self provider +:+ ")")
                 (ToolResult.warnings (Geocoder.result (Geocoder.execute w self cache query provider))))
      else if String.eqb (Geocoder.provider_or_primary self provider) "postcodes_io" then
        Geocoder.execute w self cache query provider
        = {| Geocoder.result :=
                    ToolResult.mk FAILED None
                      [{| ToolError.code := "GEOCODER_INVALID_INPUT";
                          ToolError.message :=
                            "postcodes.io requires a valid UK postcode";
                          ToolError.recoverable := true;
                          ToolError.details := None |}]
                      ["Try using 'nominatim' or 'google' provider for addresses"];
                  Geocoder.cache_after := cache;
                  Geocoder.contacted := [] |}
      else if String.eqb (Geocoder.provider_or_primary self provider) "google"
              && truthy_opt truthy_str (Geocoder.google_api_key self) then
        Geocoder.contacted (Geocoder.execute w self cache query provider)
        = [Geocoder.ContactGoogle (strip query)]
      else
        Geocoder.contacted (Geocoder.execute w self cache query provider)
        = [Geocoder.ContactNominatim (strip query)]
        /\ (ToolResult.status (Geocoder.result (Geocoder.execute w self cache query provider)) = SUCCESS ->
            Geocoder.provider_or_primary self provider = "google" ->
            In "Google API key not configured, falling back to Nominatim"
               (ToolResult.warnings (Geocoder.result (Geocoder.execute w self cache query provider))))).
  { unfold Geocoder.execute.
    destruct (strip query) as [| c0 q0] eqn:Eq; [contradiction |].
    cbn [truthy_str negb]. cbv zeta.
    unfold Geocoder.cache_key in Hc. rewrite Eq in Hc. rewrite Hc.
    destruct (Geocoder._is_uk_postcode (String c0 q0)) eqn:Epc.
    - destruct (is_uk_postcode_normalizes _ Epc) as (n & Hn & Hnn).
      exists n. split; [exact Hn |]. split; [exact Hnn |].
      unfold Geocoder._geocode_postcodes_io. rewrite Hn.
      destruct (Geocoder.ask_postcodes_io w n) as [res | e msg].
      + split; [reflexivity |]. cbn [Geocoder.result ToolResult.warnings].
        intros _ Hne. apply String.eqb_neq in Hne. rewrite Hne.
        apply in_or_app. left. left. reflexivity.
      + split; [reflexivity |]. cbn [Geocoder.result].
        destruct (Geocoder.is_ValueError e); discriminate.
    - destruct (String.eqb (Geocoder.provider_or_primary self provider) "postcodes_io");
        [reflexivity |].
      destruct (String.eqb (Geocoder.provider_or_primary self provider) "google") eqn:Eg.
      + destruct (truthy_opt truthy_str (Geocoder.google_api_key self)) eqn:Ek;
          cbn [negb andb].
        * unfold Geocoder._geocode_google.
          destruct (Geocoder.google_api_key self) as [key |]; [| discriminate Ek].
          cbn [truthy_opt] in Ek. rewrite Ek.
          destruct (Geocoder.ask_google w (String c0 q0) key); reflexivity.
        * unfold Geocoder._geocode_nominatim.
          destruct (Geocoder.ask_nominatim w (String c0 q0)) as [res | e msg].
          -- split; [reflexivity |]. intros _ _. left. reflexivity.
          -- split; [reflexivity |]. cbn [Geocoder.result].
             destruct (Geocoder.is_ValueError e); discriminate.
      + cbn [andb]. unfold Geocoder._geocode_nominatim.
        destruct (Geocoder.ask_nominatim w (String c0 q0)) as [res | e msg].
        * split; [reflexivity |]. intros _ Hg. apply String.eqb_eq in Hg. congruence.
        * split; [reflexivity |]. intros _ Hg. apply String.eqb_eq in Hg. congruence. }
  split; [| split; [intros; contradiction | split; [discriminate | intros _ _; exact Hmiss]]].
  destruct (Geocoder._is_uk_postcode (strip query)).
  - destruct Hmiss as (n & _ & _ & -> & _). cbn [length]. lia.
  - destruct (String.eqb (Geocoder.provider_or_primary self provider) "postcodes_io").
    + rewrite Hmiss. cbn [Geocoder.contacted length]. lia.
    + destruct (String.eqb (Geocoder.provider_or_primary self provider) "google"
                && truthy_opt truthy_str (Geocoder.google_api_key self)).
      * rewrite Hmiss. cbn [length]. lia.
      * destruct Hmiss as (-> & _). cbn [length]. lia.
Qed.
(** X16.  [Geocoder.execute] reports what the contacted provider answered.
    When it contacted one, a result from the provider comes back with status
    SUCCESS, no errors, and is stored in the cache under the call's key, with
    a last warning "Match quality: ..." exactly when the match is not exact;
    an exception of the provider comes back as FAILED with one recoverable
    error, [NOT_FOUND] with the exception's message for a [ValueError] and
    [GEOCODING_ERROR] naming the exception otherwise, with no warnings (those
    collected before the contact are dropped) and the cache as it was.  When
    it contacted none, the cache is as it was and the result is the
    [EMPTY_QUERY] failure, the cached entry, or the [INVALID_INPUT]
    failure.  No other status and no other error code occurs. *)
Theorem execute_reports_the_answer
    (w : Geocoder.Providers) (self : Geocoder.Geocoder)
    (cache : gmap string Geocoder.GeocodingResult.t)
    (query : string) (provider : option string) :
  let step := Geocoder.execute w self cache query provider in
  let r := Geocoder.result step in
  let key := Geocoder.cache_key self query provider in
  match Geocoder.contacted step with
  | [] =>
      Geocoder.cache_after step = cache
      /\ ((strip query = EmptyString
           /\ r = ToolResult.mk FAILED None
                    [{| ToolError.code := "GEOCODER_EMPTY_QUERY";
                        ToolError.message := "No address or postcode provided";
                        ToolError.recoverable := false;
                        ToolError.details := None |}] [])
          \/ (exists hit, cache !! key = Some hit
                          /\ r = ToolResult.mk SUCCESS (Some hit) [] [])
          \/ (Geocoder._is_uk_postcode (strip query) = false
              /\ r = ToolResult.mk FAILED None
                       [{| ToolError.code := "GEOCODER_INVALID_INPUT";
                           ToolError.message :=
                             "postcodes.io requires a valid UK postcode";
                           ToolError.recoverable := true;
                           ToolError.details := None |}]
                       ["Try using 'nominatim' or 'google' provider for addresses"]))
  | [c] =>
      cache !! key = None
      /\ match Props.answer w self c with
         | Return res =>
             Geocoder.cache_after step = <[key := res]> cache
             /\ exists warnings,
                  r = ToolResult.mk SUCCESS (Some res) []
                        (warnings
                         ++ (if String.eqb (Geocoder.GeocodingResult.match_quality res)
                                           "exact"
                             then []
                             else ["Match quality: "
                                   +:+ Geocoder.GeocodingResult.match_quality res]))
         | Raise e msg =>
             Geocoder.cache_after step = cache
             /\ r = ToolResult.mk FAILED None
                      [if Geocoder.is_ValueError e
                       then {| ToolError.code := "GEOCODER_NOT_FOUND";
                               ToolError.message := msg;
                               ToolError.recoverable := true;
                               ToolError.details := None |}
                       else {| ToolError.code := "GEOCODER_GEOCODING_ERROR";
                               ToolError.message := "Geocoding failed: " +:+ msg;
                               ToolError.recoverable := true;
                               ToolError.details :=
                                 Some [("exception", exn_name e)] |}] []
         end
  | _ => False
  end.
Proof.
  cbv zeta.
  destruct (decide (strip query = EmptyString)) as [E | E].
  { rewrite (execute_empty self w cache query provider E).
    cbn [Geocoder.contacted Geocoder.cache_after Geocoder.result].
    split; [reflexivity |]. left. split; [exact E | reflexivity]. }
  destruct (cache !! Geocoder.cache_key self query provider) as [hit |] eqn:Hc.
  { rewrite (execute_hit self w cache query provider hit E Hc).
    cbn [Geocoder.contacted Geocoder.cache_after Geocoder.result].
    split; [reflexivity |]. right. left. exists hit. auto. }
  unfold Geocoder.execute.
  destruct (strip query) as [| c0 q0] eqn:Eq; [contradiction |].
  cbn [truthy_str negb]. cbv zeta.
  unfold Geocoder.cache_key in Hc |- *. rewrite Eq in Hc |- *. rewrite Hc.
  destruct (Geocoder._is_uk_postcode (String c0 q0)) eqn:Epc.
  - destruct (is_uk_postcode_normalizes _ Epc) as (n & Hn & _).
    unfold Geocoder._geocode_postcodes_io. rewrite Hn.
    destruct (Geocoder.ask_postcodes_io w n) as [res | e msg] eqn:Ea;
      cbn [Geocoder.contacted Props.answer]; rewrite Ea;
      cbn [Geocoder.cache_after Geocoder.result].
    + split; [reflexivity |]. split; [reflexivity |]. eexists. reflexivity.
    + split; [reflexivity |]. split; [reflexivity |].
      destruct (Geocoder.is_ValueError e); reflexivity.
  - destruct (String.eqb (Geocoder.provider_or_primary self provider) "postcodes_io").
    { cbn [Geocoder.contacted Geocoder.cache_after Geocoder.result].
      split; [reflexivity |]. right. right. split; reflexivity. }
    destruct (String.eqb (Geocoder.provider_or_primary self provider) "google").
    + destruct (truthy_opt truthy_str (Geocoder.google_api_key self)) eqn:Ek;
        cbn [negb].
      * unfold Geocoder._geocode_google.
        destruct (Geocoder.google_api_key self) as [gkey |] eqn:Egk;
          [| discriminate Ek].
        cbn [truthy_opt] in Ek. rewrite Ek.
        destruct (Geocoder.ask_google w (String c0 q0) gkey) as [res | e msg] eqn:Ea;
          cbn [Geocoder.contacted Props.answer]; rewrite Egk; cbn [default from_option id];
          rewrite Ea; cbn [Geocoder.cache_after Geocoder.result].
        -- split; [reflexivity |]. split; [reflexivity |]. eexists. reflexivity.
        -- split; [reflexivity |]. split; [reflexivity |].
           destruct (Geocoder.is_ValueError e); reflexivity.
      * unfold Geocoder._geocode_nominatim.
        destruct (Geocoder.ask_nominatim w (String c0 q0)) as [res | e msg] eqn:Ea;
          cbn [Geocoder.contacted Props.answer]; rewrite Ea;
          cbn [Geocoder.cache_after Geocoder.result].
        -- split; [reflexivity |]. split; [reflexivity |]. eexists. reflexivity.
        -- split; [reflexivity |]. split; [reflexivity |].
           destruct (Geocoder.is_ValueError e); reflexivity.
    + unfold Geocoder._geocode_nominatim.
      destruct (Geocoder.ask_nominatim w (String c0 q0)) as [res | e msg] eqn:Ea;
        cbn [Geocoder.contacted Props.answer]; rewrite Ea;
        cbn [Geocoder.cache_after Geocoder.result].
      * split; [reflexivity |]. split; [reflexivity |]. eexists. reflexivity.
      * split; [reflexivity |]. split; [reflexivity |].
        destruct (Geocoder.is_ValueError e); reflexivity.
Qed.

(** The services cannot be reached: the postcode was sent in its normal
    form, the failure names the exception, and the warning about the change
    of provider is gone. *)
Example execute_offline :
  Geocoder.execute offline_providers default_geocoder ∅ " sw1a1aa " (Some "nominatim")
  = {| Geocoder.result :=
         ToolResult.mk FAILED None
           [{| ToolError.code := "GEOCODER_GEOCODING_ERROR";
               ToolError.message := "Geocoding failed: Cannot connect to host";
               ToolError.recoverable := true;
               ToolError.details := Some [("exception", "RuntimeError")] |}] [];
       Geocoder.cache_after := ∅;
       Geocoder.contacted := [Geocoder.ContactPostcodesIo "SW1A 1AA"] |}.
Proof. vm_compute. reflexivity. Qed.

(** An unknown provider name goes to Nominatim; an address cannot go to
    postcodes.io. *)
Example execute_routes :
  Geocoder.contacted
    (Geocoder.execute offline_providers default_geocoder ∅ "1 High Street"
       (Some "bing"))
  = [Geocoder.ContactNominatim "1 High Street"]
  /\ Geocoder.contacted
       (Geocoder.execute offline_providers default_geocoder ∅ "1 High Street"
          (Some "google"))
     = [Geocoder.ContactNominatim "1 High Street"]
  /\ Geocoder.contacted
       (Geocoder.execute offline_providers (Geocoder.init None (Some "k")) ∅
          "1 High Street" (Some "google"))
     = [Geocoder.ContactGoogle "1 High Street"]
  /\ Geocoder.contacted
       (Geocoder.execute offline_providers default_geocoder ∅ "1 High Street" None)
     = [].
Proof. vm_compute. repeat split. Qed.
Section ScopeProofs.
Import Intake.

Local Abbreviation has_type k :=
  (fun d : DrawingInfo.t => bool_decide (DrawingInfo.drawing_type d = k)).

Lemma add_drawing_keys (G : list (DrawingType * list DrawingInfo.t))
    (d : DrawingInfo.t) :
  List.map fst (add_drawing G d)
  = List.map fst G
    ++ (if existsb (fun g => bool_decide (fst g = DrawingInfo.drawing_type d)) G
        then [] else [DrawingInfo.drawing_type d]).
Proof.
  induction G as [| [k ds] G IH]; [reflexivity |].
  cbn [add_drawing existsb fst List.map].
  destruct (bool_decide (k = DrawingInfo.drawing_type d)); cbn [orb List.map fst].
  - rewrite app_nil_r. reflexivity.
  - rewrite IH. reflexivity.
Qed.

Lemma existsb_key (G : list (DrawingType * list DrawingInfo.t)) (t : DrawingType) :
  existsb (fun g => bool_decide (fst g = t)) G = true <-> In t (List.map fst G).
Proof.
  rewrite existsb_exists, in_map_iff. split.
  - intros (g & Hg & Ht). apply bool_decide_eq_true in Ht. eauto.
  - intros (g & Ht & Hg). exists g. split; [exact Hg |].
    apply bool_decide_eq_true. exact Ht.
Qed.

Lemma add_drawing_in (G : list (DrawingType * list DrawingInfo.t))
    (d : DrawingInfo.t) (k : DrawingType) (ds : list DrawingInfo.t) :
  NoDup (List.map fst G) ->
  In (k, ds) (add_drawing G d) ->
  (k <> DrawingInfo.drawing_type d /\ In (k, ds) G)
  \/ (k = DrawingInfo.drawing_type d
      /\ exists ds0, ds = ds0 ++ [d]
                     /\ (In (k, ds0) G \/ (ds0 = [] /\ ~ In k (List.map fst G)))).
Proof.
  induction G as [| [k0 ds0] G IH]; cbn [add_drawing]; intros Hnd.
  - intros [H | []]. injection H as <- <-. right. split; [reflexivity |].
    exists []. split; [reflexivity |]. right. split; [reflexivity |]. intros [].
  - destruct (bool_decide (k0 = DrawingInfo.drawing_type d)) eqn:E.
    + apply bool_decide_eq_true in E.
      intros [H | H].
      * injection H as <- <-. right. split; [exact E |].
        exists ds0. split; [reflexivity |]. left. left. reflexivity.
      * destruct (decide (k = DrawingInfo.drawing_type d)) as [Hk | Hk].
        -- exfalso. cbn [List.map fst] in Hnd. apply NoDup_cons in Hnd.
           apply (proj1 Hnd). apply list_elem_of_In, in_map_iff. exists (k, ds).
           split; [cbn [fst]; congruence | exact H].
        -- left. split; [exact Hk | right; exact H].
    + apply bool_decide_eq_false in E.
      intros [H | H].
      * injection H as <- <-. left. split; [exact E | left; reflexivity].
      * cbn [List.map fst] in Hnd. apply NoDup_cons in Hnd.
        destruct (IH (proj2 Hnd) H) as [(Hk & Hin) | (Hk & ds1 & Hds & Hcase)].
        -- left. split; [exact Hk | right; exact Hin].
        -- right. split; [exact Hk |]. exists ds1. split; [exact Hds |].
           destruct Hcase as [Hin | (Hnil & Hnot)].
           ++ left. right. exact Hin.
           ++ right. split; [exact Hnil |]. cbn [List.map fst].
              intros [Heq | Hin]; [subst; contradiction | contradiction].
Qed.

(** The dictionary after the grouping loop: its keys are distinct and are
    the types of the drawings; under each key are the drawings of that type,
    in order. *)
Lemma group_by_type_spec (drawings : list DrawingInfo.t) :
  let G := group_by_type drawings in
  NoDup (List.map fst G)
  /\ (forall k ds, In (k, ds) G ->
        ds = List.filter (has_type k) drawings /\ ds <> [])
  /\ (forall k, In k (List.map fst G)
                <-> exists d, In d drawings /\ DrawingInfo.drawing_type d = k).
Proof.
  cbv zeta. unfold group_by_type.
  assert (Hgen : forall L G0 L0,
    (NoDup (List.map fst G0)
     /\ (forall k ds, In (k, ds) G0 ->
           ds = List.filter (has_type k) L0 /\ ds <> [])
     /\ (forall k, In k (List.map fst G0)
                   <-> exists d, In d L0 /\ DrawingInfo.drawing_type d = k)) ->
    let G := fold_left add_drawing L G0 in
    NoDup (List.map fst G)
    /\ (forall k ds, In (k, ds) G ->
          ds = List.filter (has_type k) (L0 ++ L) /\ ds <> [])
    /\ (forall k, In k (List.map fst G)
                  <-> exists d, In d (L0 ++ L) /\ DrawingInfo.drawing_type d = k)).
  { induction L as [| d L IH]; intros G0 L0 Hinv; cbv zeta.
    - cbn [fold_left]. rewrite app_nil_r. exact Hinv.
    - cbn [fold_left].
      replace (L0 ++ d :: L) with ((L0 ++ [d]) ++ L)
        by (rewrite <- app_assoc; reflexivity).
      apply IH. destruct Hinv as (Hnd & Hgr & Hkeys).
      split; [| split].
      + rewrite add_drawing_keys.
        destruct (existsb _ G0) eqn:Ex; [rewrite app_nil_r; exact Hnd |].
        apply NoDup_app. split; [exact Hnd |]. split.
        * intros k Hk Hd. apply list_elem_of_In in Hk, Hd.
          destruct Hd as [<- | []].
          apply existsb_key in Hk. congruence.
        * apply NoDup_singleton.
      + intros k ds Hin. rewrite List.filter_app. cbn [List.filter].
        apply add_drawing_in in Hin; [| exact Hnd].
        destruct Hin as [(Hk & Hin) | (Hk & ds0 & -> & Hcase)].
        * rewrite bool_decide_eq_false_2 by congruence.
          rewrite app_nil_r. apply Hgr, Hin.
        * rewrite bool_decide_eq_true_2 by congruence.
          split; [| destruct ds0; discriminate].
          f_equal. destruct Hcase as [Hin | (-> & Hnot)].
          -- apply Hgr, Hin.
          -- symmetry. destruct (List.filter (has_type k) L0) as [| x l] eqn:Ef;
               [reflexivity |]. exfalso. apply Hnot, Hkeys.
             assert (Hx : In x (List.filter (has_type k) L0))
               by (rewrite Ef; left; reflexivity).
             apply List.filter_In in Hx. destruct Hx as (Hx & Ht).
             apply bool_decide_eq_true in Ht. eauto.
      + intros k. rewrite add_drawing_keys, in_app_iff, Hkeys. split.
        * intros [(x & Hx & Ht) | Hk].
          -- exists x. split; [apply in_or_app; left; exact Hx | exact Ht].
          -- destruct (existsb _ G0); [destruct Hk |].
             destruct Hk as [<- | []]. exists d.
             split; [apply in_or_app; right; left; reflexivity | reflexivity].
        * intros (x & Hx & Ht). apply in_app_iff in Hx.
          destruct Hx as [Hx | [<- | []]]; [left; eauto |].
          destruct (existsb _ G0) eqn:Ex.
          -- left. apply Hkeys. apply existsb_key in Ex. subst k. exact Ex.
          -- right. left. exact Ht. }
  apply (Hgen drawings [] []).
  split; [apply NoDup_nil_2 |]. split; [intros k ds [] |].
  intros k. split; [intros [] | intros (d & [] & _)].
Qed.

End ScopeProofs.

